(** * SafeWorld crime map: search index, query ranking, crime aggregation
      and safety levels

    Shallow embedding of the core functions of
    [web/assets/js/colorblind-accessibility.js]:
    [getSafetyLevel], [formatCrimeType], [getTopCrimeType],
    [buildSearchIndex], [handleSearch], [clearSearch], [selectSearchResult],
    [switchCity] and the two promise callbacks of [initMap]; and of
    [getSafetyColor], [getCrimeTypeColor], [getCrimeBreakdownHTML],
    [showDashboard], [updateLegendColors], the style function and the
    [mouseover] listener of [initMap], and the class [VisualInclusivity].

    Modelling conventions.
    - A JavaScript string is a [string] of code units below 128
      ([JsString.isAscii]); case mapping and white space are the ASCII parts
      of [toLowerCase], [toUpperCase], [trim] and [\s].  A property that
      compares the case mappings of a text is stated for ASCII texts.
    - A JavaScript object used as a map is the list of its own enumerable
      entries in [[OwnPropertyKeys]] order: array-index keys in ascending
      numeric order first, then the other string keys in creation order.
      Where the source reads a label of the data in an object made by [{}],
      the properties inherited from [Object.prototype] are modelled
      ([JsObject.inherited]); the other lookups use upper-cased keys, which
      name no inherited property.
    - A score-like field is a [jsval]: absent ([JUndefined]), [null], or an
      integer number.  A count of the data is an integer; a sum of counts
      is the double the addition gives ([number], [toDouble]).
    - [Array.prototype.sort] is the stable sort the language requires.
    - [String.prototype.localeCompare] is a parameter. *)

From Stdlib Require Import ZArith NArith List String Ascii Bool Lia Sorted Permutation.
Import ListNotations.
Open Scope string_scope.
Open Scope Z_scope.

(* ================================================================== *)
(** ** Strings *)

Module JsString.

Definition code (c : ascii) : N := N_of_ascii c.

Definition isUpper (c : ascii) : bool :=
  ((65 <=? code c) && (code c <=? 90))%N.

Definition isLower (c : ascii) : bool :=
  ((97 <=? code c) && (code c <=? 122))%N.

Definition isDigit (c : ascii) : bool :=
  ((48 <=? code c) && (code c <=? 57))%N.

(** White space and line terminators below 128: TAB, LF, VT, FF, CR, SP. *)
Definition isWhiteSpace (c : ascii) : bool :=
  (((9 <=? code c) && (code c <=? 13)) || (code c =? 32))%N.

Definition toLowerChar (c : ascii) : ascii :=
  if isUpper c then ascii_of_N (code c + 32) else c.

Definition toUpperChar (c : ascii) : ascii :=
  if isLower c then ascii_of_N (code c - 32) else c.

Fixpoint map (f : ascii -> ascii) (s : string) : string :=
  match s with
  | EmptyString => EmptyString
  | String c s' => String (f c) (map f s')
  end.

(** [toLowerCase()] and [toUpperCase()] on a text of code units below 128,
    where they map letter by letter. *)
Definition toLowerCase : string -> string := map toLowerChar.
Definition toUpperCase : string -> string := map toUpperChar.

(** A text whose code units are all below 128. *)
Fixpoint isAscii (s : string) : bool :=
  match s with
  | EmptyString => true
  | String c s' => (code c <? 128)%N && isAscii s'
  end.

Fixpoint trimStart (s : string) : string :=
  match s with
  | EmptyString => EmptyString
  | String c s' => if isWhiteSpace c then trimStart s' else s
  end.

Fixpoint trimEnd (s : string) : string :=
  match s with
  | EmptyString => EmptyString
  | String c s' =>
      match trimEnd s' with
      | EmptyString => if isWhiteSpace c then EmptyString else String c EmptyString
      | t => String c t
      end
  end.

Definition trim (s : string) : string := trimEnd (trimStart s).

(** [s.startsWith(q)] *)
Fixpoint startsWith (s q : string) : bool :=
  match q with
  | EmptyString => true
  | String c q' =>
      match s with
      | EmptyString => false
      | String d s' => Ascii.eqb c d && startsWith s' q'
      end
  end.

(** [s.includes(q)] *)
Fixpoint includes (s q : string) : bool :=
  startsWith s q ||
  match s with
  | EmptyString => false
  | String _ s' => includes s' q
  end.

Fixpoint drop (n : nat) (s : string) : string :=
  match n, s with
  | O, _ => s
  | S _, EmptyString => EmptyString
  | S n', String _ s' => drop n' s'
  end.

(** [s.replace(pat, rep)] with a string pattern: the first occurrence only. *)
Fixpoint replace (s pat rep : string) : string :=
  if startsWith s pat then rep ++ drop (String.length pat) s
  else match s with
       | EmptyString => EmptyString
       | String c s' => String c (replace s' pat rep)
       end.

(** [s.replace(/\s+/g, '')] *)
Fixpoint removeWhiteSpace (s : string) : string :=
  match s with
  | EmptyString => EmptyString
  | String c s' =>
      if isWhiteSpace c then removeWhiteSpace s' else String c (removeWhiteSpace s')
  end.

(** [s.charAt(0)] *)
Definition charAt0 (s : string) : string :=
  match s with
  | EmptyString => EmptyString
  | String c _ => String c EmptyString
  end.

(** [s.slice(1)] *)
Definition slice1 (s : string) : string := drop 1 s.

Fixpoint digitsValue (acc : N) (s : string) : option N :=
  match s with
  | EmptyString => Some acc
  | String c s' =>
      if isDigit c then digitsValue (acc * 10 + (code c - 48))%N s' else None
  end.

(** The array index a property key denotes, if it is the canonical decimal
    form of an integer below 2^32 - 1. *)
Definition arrayIndex (k : string) : option N :=
  match k with
  | EmptyString => None
  | String c rest =>
      if (code c =? 48)%N && negb (String.eqb rest EmptyString) then None
      else match digitsValue 0%N k with
           | Some n => if (n <? 4294967295)%N then Some n else None
           | None => None
           end
  end.

End JsString.

(* ================================================================== *)
(** ** Objects used as maps, and arrays *)

Module JsObject.

Section Obj.
Context {V : Type}.

Definition t := list (string * V).

Definition empty : t := [].

(** The own property [k] of [o]: [o[k]] when [o] holds [k] itself, and
    [None] when it does not, whatever [o] inherits. *)
Fixpoint get (k : string) (o : t) : option V :=
  match o with
  | [] => None
  | (k', v) :: o' => if String.eqb k k' then Some v else get k o'
  end.

Fixpoint update (k : string) (v : V) (o : t) : t :=
  match o with
  | [] => []
  | (k', v') :: o' =>
      if String.eqb k k' then (k', v) :: o' else (k', v') :: update k v o'
  end.

(** A new array-index key goes before the first key that is not an array
    index or is a larger one. *)
Fixpoint insertIndex (n : N) (k : string) (v : V) (o : t) : t :=
  match o with
  | [] => [(k, v)]
  | (k', v') :: o' =>
      match JsString.arrayIndex k' with
      | Some m => if (m <? n)%N then (k', v') :: insertIndex n k v o'
                  else (k, v) :: o
      | None => (k, v) :: o
      end
  end.

(** [o[k] = v] *)
Definition set (k : string) (v : V) (o : t) : t :=
  match get k o with
  | Some _ => update k v o
  | None =>
      match JsString.arrayIndex k with
      | Some n => insertIndex n k v o
      | None => (o ++ [(k, v)])%list
      end
  end.

(** [Object.entries(o)] and [Object.keys(o)] *)
Definition entries (o : t) : list (string * V) := o.
Definition keys (o : t) : list string := List.map fst o.

End Obj.

Arguments t : clear implicits.

(** The properties an object made by [{}] inherits from [Object.prototype]. *)
Definition prototypeKeys : list string :=
  [ "constructor"; "hasOwnProperty"; "isPrototypeOf"; "propertyIsEnumerable";
    "toLocaleString"; "toString"; "valueOf"; "__proto__";
    "__defineGetter__"; "__defineSetter__"; "__lookupGetter__";
    "__lookupSetter__" ].

Definition inherited (k : string) : bool :=
  existsb (String.eqb k) prototypeKeys.

End JsObject.

Module JsArray.

Section Sort.
Context {A : Type}.
Variable compareFn : A -> A -> Z.

(** [x] is put before the first element it does not follow. *)
Fixpoint insert (x : A) (l : list A) : list A :=
  match l with
  | [] => [x]
  | y :: l' => if compareFn x y <=? 0 then x :: l else y :: insert x l'
  end.

(** [l.sort(compareFn)]: stable. *)
Definition sort (l : list A) : list A := fold_right insert [] l.
End Sort.

(** [l.push(x)] *)
Definition push {A : Type} (l : list A) (x : A) : list A := (l ++ [x])%list.

(** [l.slice(0, n)] *)
Definition slice0 {A : Type} (n : nat) (l : list A) : list A := firstn n l.

End JsArray.

(* ================================================================== *)
(** ** Data model *)

(** A value read from a numeric field of a parsed JSON record or of a map
    feature. *)
Inductive jsval : Type :=
  | JUndefined
  | JNull
  | JNum (n : Z).

(** [ToBoolean] *)
Definition truthy (v : jsval) : bool :=
  match v with
  | JNum n => negb (n =? 0)
  | _ => false
  end.

(** [a || b] *)
Definition jsOr (a b : jsval) : jsval := if truthy a then a else b.

(** [v <= k] for a number literal [k]: [undefined] converts to NaN, which
    compares false; [null] converts to 0. *)
Definition jsLe (v : jsval) (k : Z) : bool :=
  match v with
  | JUndefined => false
  | JNull => 0 <=? k
  | JNum n => n <=? k
  end.

(** [s || t] on strings: the empty string is falsy. *)
Definition strOr (s t : string) : string :=
  match s with
  | EmptyString => t
  | _ => s
  end.

(** [Number.MAX_SAFE_INTEGER]: up to it every integer is a double. *)
Definition MAX_SAFE_INTEGER : Z := 2 ^ 53 - 1.

(** The value of a sum of integer counts: an integer that is a double, or
    an infinity. *)
Inductive number : Type :=
  | Finite (n : Z)
  | PosInfinity
  | NegInfinity.

(** The double nearest to an integer, ties to the even significand.  From
    2^53 on the doubles around [z] are the multiples of
    2^(floor(log2 |z|) - 52); a result of magnitude 2^1024 overflows. *)
Definition toDouble (z : Z) : number :=
  if Z.abs z <=? MAX_SAFE_INTEGER then Finite z
  else
    let ulp := 2 ^ (Z.log2 (Z.abs z) - 52) in
    let q := z / ulp in
    let r := z mod ulp in
    let q' := if 2 * r <? ulp then q
              else if ulp <? 2 * r then q + 1
              else if Z.even q then q else q + 1 in
    if 2 ^ 1024 <=? Z.abs (q' * ulp)
    then (if 0 <? z then PosInfinity else NegInfinity)
    else Finite (q' * ulp).

(** [x + count] for a number [x] and an integer count of the data. *)
Definition numberAdd (x : number) (count : Z) : number :=
  match x with
  | Finite n => toDouble (n + count)
  | PosInfinity => PosInfinity
  | NegInfinity => NegInfinity
  end.

Inductive CityKey : Type := london | nyc.

Definition CityKey_eqb (a b : CityKey) : bool :=
  match a, b with
  | london, london | nyc, nyc => true
  | _, _ => false
  end.

Record CityConfig : Type := {
  dataFile : string;
  geoFile : string;
  nameProperty : string;
  areaType : string;
  areaTypeLabel : string
}.

Definition cityConfigs (k : CityKey) : CityConfig :=
  match k with
  | london => {| dataFile := "london_crime_data.json";
                 geoFile := "boroughs_crime_score.geojson";
                 nameProperty := "LAD22NM";
                 areaType := "wards";
                 areaTypeLabel := "Ward" |}
  | nyc => {| dataFile := "nyc_detailed_crime_data.json";
              geoFile := "nyc_boroughs_crime_score.geojson";
              nameProperty := "name";
              areaType := "precincts";
              areaTypeLabel := "Precinct" |}
  end.

(** A ward or precinct record of the data file.  [name] is [None] when the
    property is missing. *)
Module Area.
Record t : Type := {
  name : option string;
  totalCrimes : jsval;
  crimeTypes : option (JsObject.t Z)
}.
End Area.

(** A borough record: the properties the two cities' sources carry. *)
Module Borough.
Record t : Type := {
  name : string;
  score : jsval;
  safety_score : jsval;
  totalCrimes : jsval;
  total_crimes : jsval;
  safety_level : option string;
  crime_breakdown : option (JsObject.t Z);
  wards : option (list Area.t);
  precincts : option (list Area.t)
}.

(** [boroughData[areaType]] *)
Definition areasAt (areaType : string) (b : t) : option (list Area.t) :=
  if String.eqb areaType "wards" then wards b
  else if String.eqb areaType "precincts" then precincts b
  else None.
End Borough.

(** An element of [searchIndex]. *)
Module Entry.
Record t : Type := {
  type : string;
  name : string;
  searchName : string;
  searchTerms : option (list string);
  borough : option string;
  data : Borough.t;
  score : jsval;
  areaData : option Area.t
}.
End Entry.

(* ================================================================== *)
(** ** Safety level *)

Definition getSafetyLevel (score : jsval) : string :=
  if jsLe score 3 then "Very Safe"
  else if jsLe score 5 then "Safe"
  else if jsLe score 7 then "Moderate"
  else if jsLe score 8 then "Caution"
  else "High Risk".

(** The score and the safety level [showDashboard] displays for a record. *)
Definition dashboardScore (boroughData : Borough.t) : jsval :=
  jsOr (Borough.score boroughData) (Borough.safety_score boroughData).

Definition dashboardSafetyLevel (boroughData : Borough.t) : string :=
  match Borough.safety_level boroughData with
  | Some l => strOr l (getSafetyLevel (dashboardScore boroughData))
  | None => getSafetyLevel (dashboardScore boroughData)
  end.

Inductive jsError : Type := TypeError.

(** [totalCrimes.toLocaleString()] for the constant [totalCrimes] of
    [showDashboard], which is
    [boroughData.totalCrimes || boroughData.total_crimes]: the number to
    print, or the TypeError of a property read on [undefined] or [null].
    It is the one step of [showDashboard] that can throw, and it is
    evaluated before anything is drawn. *)
Definition dashboardTotal (boroughData : Borough.t) : Z + jsError :=
  match jsOr (Borough.totalCrimes boroughData) (Borough.total_crimes boroughData) with
  | JNum n => inl n
  | JUndefined | JNull => inr TypeError
  end.

(* ================================================================== *)
(** ** Crime types *)

Definition crimeTypeMap : JsObject.t string :=
  [ ("VIOLENCEAGAINSTTHEPERSON", "Violence Against Person");
    ("VEHICLEOFFENCES", "Vehicle Offences");
    ("VEHICLE OFFENCES", "Vehicle Offences");
    ("BURGLARY", "Burglary");
    ("THEFT", "Theft");
    ("ROBBERY", "Robbery");
    ("DRUGOFFENCES", "Drug Offences");
    ("DRUG OFFENCES", "Drug Offences");
    ("PUBLICORDEROFFENCES", "Public Order");
    ("PUBLIC ORDER", "Public Order");
    ("CRIMINALOFFENCES", "Criminal Offences");
    ("CRIMINAL DAMAGE", "Criminal Damage");
    ("FRAUD", "Fraud");
    ("SEXUALOFFENCES", "Sexual Offences");
    ("SEXUAL OFFENCES", "Sexual Offences");
    ("ASSAULT", "Assault");
    ("WEAPONS OFFENCES", "Weapons Offences");
    ("HARASSMENT", "Harassment");
    ("TRESPASSING", "Trespassing");
    ("HOMICIDE", "Homicide");
    ("ARSON", "Arson");
    ("KIDNAPPING", "Kidnapping");
    ("GAMBLING", "Gambling");
    ("ALCOHOL OFFENCES", "Alcohol Offences");
    ("REGULATORY VIOLATIONS", "Regulatory Violations");
    ("CUSTODY OFFENCES", "Custody Offences");
    ("MISCELLANEOUS", "Miscellaneous");
    ("OTHER", "Other") ].

(** [crimeTypeMap[k]], with a missing key read as the (falsy) empty string. *)
Definition crimeTypeMapAt (k : string) : string :=
  match JsObject.get k crimeTypeMap with
  | Some label => label
  | None => EmptyString
  end.

Definition formatCrimeType (type : string) : string :=
  let upperType := JsString.removeWhiteSpace (JsString.toUpperCase type) in
  strOr (crimeTypeMapAt upperType)
    (strOr (crimeTypeMapAt (JsString.toUpperCase type))
       (JsString.toUpperCase (JsString.charAt0 type)
        ++ JsString.toLowerCase (JsString.slice1 type))).

(** What [allCrimes] holds under a label: a number, or a text.  The text
    is the one that the inherited property of the label converts to,
    followed by the numerals of the counts added to it. *)
Inductive bucket : Type :=
  | Count (x : number)
  | Text (counts : list Z).

(** [allCrimes[type] = (allCrimes[type] || 0) + count] on an object made by
    [{}].  Under a label that [allCrimes] holds, a number (0 included) gets
    the count added, and a text, which is truthy, gets its numeral
    appended.  A label that [allCrimes] does not hold is read from
    [Object.prototype]: an inherited property is an object, so the sum is a
    text, stored under the label; only [__proto__] stores nothing, its
    setter ignoring a text.  Any other label starts from 0. *)
Definition addCrime (allCrimes : JsObject.t bucket) (e : string * Z)
  : JsObject.t bucket :=
  let (type, count) := e in
  match JsObject.get type allCrimes with
  | Some (Count x) => JsObject.set type (Count (numberAdd x count)) allCrimes
  | Some (Text counts) => JsObject.set type (Text (counts ++ [count])%list) allCrimes
  | None =>
      if JsObject.inherited type then
        if String.eqb type "__proto__" then allCrimes
        else JsObject.set type (Text [count]) allCrimes
      else JsObject.set type (Count (numberAdd (Finite 0) count)) allCrimes
  end.

(** [Object.entries(area.crimeTypes || {}).forEach(...)] *)
Definition addArea (allCrimes : JsObject.t bucket) (area : Area.t)
  : JsObject.t bucket :=
  fold_left addCrime
    (JsObject.entries (match Area.crimeTypes area with
                       | Some o => o
                       | None => JsObject.empty
                       end))
    allCrimes.

(** A flat breakdown of the data read as an object of buckets. *)
Definition finiteBuckets (counts : JsObject.t Z) : JsObject.t bucket :=
  List.map (fun e => (fst e, Count (Finite (snd e)))) counts.

(** The object [allCrimes] that [getTopCrimeType] ranks. *)
Definition allCrimesOf (currentCity : CityKey) (boroughData : Borough.t)
  : JsObject.t bucket :=
  match CityKey_eqb currentCity nyc, Borough.crime_breakdown boroughData with
  | true, Some breakdown => finiteBuckets breakdown
  | _, _ =>
      let areas := match Borough.areasAt (areaType (cityConfigs currentCity)) boroughData with
                   | Some l => l
                   | None => []
                   end in
      fold_left addArea areas JsObject.empty
  end.

(** [(a, b) => b[1] - a[1]] on entries whose counts are integers of the
    data.  [sort] reads the sign, which is that of the exact difference. *)
Definition byCountDesc (a b : string * Z) : Z := snd b - snd a.

(** The sign of [y - x] for two numbers; NaN, the difference of equal
    infinities, is read by [sort] as +0. *)
Definition numberSub (y x : number) : Z :=
  match y, x with
  | Finite n, Finite m => n - m
  | PosInfinity, PosInfinity | NegInfinity, NegInfinity => 0
  | PosInfinity, _ | _, NegInfinity => 1
  | NegInfinity, _ | _, PosInfinity => -1
  end.

(** [(a, b) => b[1] - a[1]] on the entries of [allCrimes]: a text converts
    to NaN, and so does the difference.  With a text among numbers the
    comparator does not order, and the language leaves the sorted order to
    the implementation; [JsArray.sort] then gives that of a stable
    insertion. *)
Definition byBucketDesc (a b : string * bucket) : Z :=
  match snd b, snd a with
  | Count y, Count x => numberSub y x
  | _, _ => 0
  end.

Definition getTopCrimeType (currentCity : CityKey) (boroughData : Borough.t)
  : string :=
  let allCrimes := allCrimesOf currentCity boroughData in
  match JsArray.sort byBucketDesc (JsObject.entries allCrimes) with
  | topCrime :: _ => formatCrimeType (fst topCrime)
  | [] => "N/A"
  end.

(* ================================================================== *)
(** ** Application state *)

Inductive display : Type := none | block.

(** One rendered row of the results panel: the entry and the safety level
    printed next to it. *)
Record ResultItem : Type := {
  item : Entry.t;
  itemSafetyLevel : string
}.

(** [innerHTML] of the element [search-results]. *)
Inductive panel : Type :=
  | PanelBlank
  | NoResultsFound (typed : string)
  | ResultList (rows : list ResultItem).

(** What [selectSearchResult] leaves: the dashboard that [showDashboard]
    has drawn for a record, the error that [showDashboard] has thrown, or
    the message that no borough data was found. *)
Inductive selection : Type :=
  | DashboardShown (boroughData : Borough.t)
  | ShowDashboardThrew (error : jsError)
  | BoroughDataNotFound.

Record App : Type := {
  currentCity : CityKey;
  crimeData : JsObject.t Borough.t;
  searchIndex : list Entry.t;
  searchBox : bool;              (* the element [borough-search] exists *)
  searchValue : string;          (* its [value] *)
  clearButton : display;
  resultsDisplay : display;
  resultsPanel : panel
}.

(** State when the script is loaded. *)
Definition initialApp : App :=
  {| currentCity := london;
     crimeData := JsObject.empty;
     searchIndex := [];
     searchBox := false;
     searchValue := "";
     clearButton := none;
     resultsDisplay := none;
     resultsPanel := PanelBlank |}.

Definition withSearchIndex (idx : list Entry.t) (st : App) : App :=
  {| currentCity := currentCity st;
     crimeData := crimeData st;
     searchIndex := idx;
     searchBox := searchBox st;
     searchValue := searchValue st;
     clearButton := clearButton st;
     resultsDisplay := resultsDisplay st;
     resultsPanel := resultsPanel st |}.

Definition withCrimeData (d : JsObject.t Borough.t) (st : App) : App :=
  {| currentCity := currentCity st;
     crimeData := d;
     searchIndex := searchIndex st;
     searchBox := searchBox st;
     searchValue := searchValue st;
     clearButton := clearButton st;
     resultsDisplay := resultsDisplay st;
     resultsPanel := resultsPanel st |}.

Definition withCurrentCity (k : CityKey) (st : App) : App :=
  {| currentCity := k;
     crimeData := crimeData st;
     searchIndex := searchIndex st;
     searchBox := searchBox st;
     searchValue := searchValue st;
     clearButton := clearButton st;
     resultsDisplay := resultsDisplay st;
     resultsPanel := resultsPanel st |}.

(** The user's text in the search box. *)
Definition withSearchValue (value : string) (st : App) : App :=
  {| currentCity := currentCity st;
     crimeData := crimeData st;
     searchIndex := searchIndex st;
     searchBox := searchBox st;
     searchValue := value;
     clearButton := clearButton st;
     resultsDisplay := resultsDisplay st;
     resultsPanel := resultsPanel st |}.

(* ================================================================== *)
(** ** Index build *)

(** [boroughData.score || boroughData.safety_score || boroughData.totalCrimes || 0] *)
Definition entryScore (boroughData : Borough.t) : jsval :=
  jsOr (jsOr (jsOr (Borough.score boroughData) (Borough.safety_score boroughData))
          (Borough.totalCrimes boroughData))
    (JNum 0).

Definition boroughEntry (boroughData : Borough.t) : Entry.t :=
  {| Entry.type := "borough";
     Entry.name := Borough.name boroughData;
     Entry.searchName := JsString.toLowerCase (Borough.name boroughData);
     Entry.searchTerms := None;
     Entry.borough := None;
     Entry.data := boroughData;
     Entry.score := entryScore boroughData;
     Entry.areaData := None |}.

(** The array [searchTerms] of an area called [areaName]. *)
Definition areaSearchTerms (city : CityKey) (areaName : string) : list string :=
  let searchTerms := [JsString.toLowerCase areaName] in
  if CityKey_eqb city nyc && JsString.includes areaName "Precinct " then
    let precinctNum := JsString.replace areaName "Precinct " "" in
    JsArray.push
      (JsArray.push (JsArray.push searchTerms precinctNum) ("pct " ++ precinctNum))
      ("precinct " ++ precinctNum)
  else searchTerms.

Definition areaEntry (city : CityKey) (boroughData : Borough.t)
    (area : Area.t) (areaName : string) : Entry.t :=
  {| Entry.type := JsString.toLowerCase (areaTypeLabel (cityConfigs city));
     Entry.name := areaName;
     Entry.searchName := JsString.toLowerCase areaName;
     Entry.searchTerms := Some (areaSearchTerms city areaName);
     Entry.borough := Some (Borough.name boroughData);
     Entry.data := boroughData;
     Entry.score := entryScore boroughData;
     Entry.areaData := Some area |}.

(** Body of [boroughData[areaType].forEach(area => ...)]. *)
Definition pushArea (city : CityKey) (boroughData : Borough.t)
    (index : list Entry.t) (area : Area.t) : list Entry.t :=
  match Area.name area with
  | None | Some EmptyString => index
  | Some areaName => JsArray.push index (areaEntry city boroughData area areaName)
  end.

(** Body of [Object.entries(crimeData).forEach(([boroughName, boroughData]) => ...)]. *)
Definition pushBorough (city : CityKey) (index : list Entry.t)
    (kv : string * Borough.t) : list Entry.t :=
  let boroughData := snd kv in
  match Borough.name boroughData with
  | EmptyString => index
  | _ =>
      let index := JsArray.push index (boroughEntry boroughData) in
      match Borough.areasAt (areaType (cityConfigs city)) boroughData with
      | Some areas => fold_left (pushArea city boroughData) areas index
      | None => index
      end
  end.

Definition buildSearchIndex (st : App) : App :=
  let st := withSearchIndex [] st in
  match JsObject.keys (crimeData st) with
  | [] => st
  | _ =>
      withSearchIndex
        (fold_left (pushBorough (currentCity st))
           (JsObject.entries (crimeData st)) (searchIndex st))
        st
  end.

(* ================================================================== *)
(** ** Query *)

Section Query.

(** [String.prototype.localeCompare], as the host's collation provides it. *)
Variable localeCompare : string -> string -> Z.

(** [item.searchTerms && item.searchTerms.some(p)] *)
Definition someTerm (p : string -> bool) (item : Entry.t) : bool :=
  match Entry.searchTerms item with
  | Some terms => existsb p terms
  | None => false
  end.

(** The callback given to [filter]. *)
Definition matchesQuery (query : string) (item : Entry.t) : bool :=
  if JsString.includes (Entry.searchName item) query then true
  else someTerm (fun term => JsString.includes term query) item.

(** [aExact] / [bExact] *)
Definition exactRank (query : string) (a : Entry.t) : Z :=
  if JsString.startsWith (Entry.searchName a) query
     || someTerm (fun term => JsString.startsWith term query) a
  then 0 else 1.

(** [aType] / [bType] *)
Definition typeRank (a : Entry.t) : Z :=
  if String.eqb (Entry.type a) "borough" then 0 else 1.

(** The callback given to [sort]. *)
Definition compareResults (query : string) (a b : Entry.t) : Z :=
  let aExact := exactRank query a in
  let bExact := exactRank query b in
  if negb (aExact =? bExact) then aExact - bExact
  else
    let aType := typeRank a in
    let bType := typeRank b in
    if negb (aType =? bType) then aType - bType
    else localeCompare (Entry.name a) (Entry.name b).

(** The constant [results] of [handleSearch] for a non-empty [query]. *)
Definition searchResults (query : string) (index : list Entry.t) : list Entry.t :=
  JsArray.slice0 8
    (JsArray.sort (compareResults query) (filter (matchesQuery query) index)).

Definition renderResult (result : Entry.t) : ResultItem :=
  {| item := result;
     itemSafetyLevel := getSafetyLevel (Entry.score result) |}.

(** [handleSearch(event)], with [event.target.value] read from the state. *)
Definition handleSearch (st : App) : App :=
  let query := JsString.toLowerCase (JsString.trim (searchValue st)) in
  match query with
  | EmptyString =>
      {| currentCity := currentCity st;
         crimeData := crimeData st;
         searchIndex := searchIndex st;
         searchBox := searchBox st;
         searchValue := searchValue st;
         clearButton := none;
         resultsDisplay := none;
         resultsPanel := resultsPanel st |}
  | _ =>
      let results := searchResults query (searchIndex st) in
      {| currentCity := currentCity st;
         crimeData := crimeData st;
         searchIndex := searchIndex st;
         searchBox := searchBox st;
         searchValue := searchValue st;
         clearButton := block;
         resultsDisplay := block;
         resultsPanel := match results with
                         | [] => NoResultsFound (searchValue st)
                         | _ => ResultList (List.map renderResult results)
                         end |}
  end.

(** The entries the results panel shows to the user. *)
Definition visibleResults (st : App) : list Entry.t :=
  match resultsDisplay st, resultsPanel st with
  | block, ResultList rows => List.map item rows
  | _, _ => []
  end.

Definition clearSearch (st : App) : App :=
  {| currentCity := currentCity st;
     crimeData := crimeData st;
     searchIndex := searchIndex st;
     searchBox := searchBox st;
     searchValue := "";
     clearButton := none;
     resultsDisplay := none;
     resultsPanel := resultsPanel st |}.

(** [selectSearchResult(boroughName, type, itemName)].  When
    [showDashboard(boroughData)] throws, which it does as [dashboardTotal]
    does, [clearSearch()] is not reached. *)
Definition selectSearchResult (boroughName : string) (st : App)
  : selection * App :=
  match JsObject.get (JsString.toUpperCase boroughName) (crimeData st) with
  | Some boroughData =>
      match dashboardTotal boroughData with
      | inl _ => (DashboardShown boroughData, clearSearch st)
      | inr error => (ShowDashboardThrew error, st)
      end
  | None => (BoroughDataNotFound, st)
  end.

(* ---------------------------------------------------------------- *)
(** ** City switch and loading *)

(** The synchronous part of [switchCity(cityKey)]; it ends by calling
    [initMap], which starts the two fetches. *)
Definition switchCity (cityKey : CityKey) (st : App) : App :=
  let st := withCurrentCity cityKey st in
  let st := if searchBox st then clearSearch st else st in
  withCrimeData JsObject.empty st.

(** First promise callback of [initMap]:
    [data.boroughs.forEach(borough => crimeData[borough.name.toUpperCase()] = borough)]. *)
Definition storeBorough (d : JsObject.t Borough.t) (borough : Borough.t)
  : JsObject.t Borough.t :=
  JsObject.set (JsString.toUpperCase (Borough.name borough)) borough d.

Definition dataLoaded (boroughs : list Borough.t) (st : App) : App :=
  withCrimeData (fold_left storeBorough boroughs (crimeData st)) st.

Definition initializeSearch (st : App) : App :=
  let st :=
    {| currentCity := currentCity st;
       crimeData := crimeData st;
       searchIndex := searchIndex st;
       searchBox := true;
       searchValue := searchValue st;
       clearButton := clearButton st;
       resultsDisplay := resultsDisplay st;
       resultsPanel := resultsPanel st |} in
  buildSearchIndex st.

(** Second promise callback of [initMap], after the map layer is set up:
    [initializeSearch(); buildSearchIndex();]. *)
Definition geoLoaded (st : App) : App :=
  buildSearchIndex (initializeSearch st).

(** What can happen to the page, in the order the browser delivers it. *)
Inductive event : Type :=
  | SwitchCity (cityKey : CityKey)
  | DataLoaded (boroughs : list Borough.t)
  | GeoLoaded
  | LoadFailed
  | Input (value : string)
  | Select (boroughName : string).

Definition step (st : App) (ev : event) : App :=
  match ev with
  | SwitchCity cityKey => switchCity cityKey st
  | DataLoaded boroughs => dataLoaded boroughs st
  | GeoLoaded => geoLoaded st
  | LoadFailed => st
  | Input value =>
      if searchBox st then handleSearch (withSearchValue value st) else st
  | Select boroughName => snd (selectSearchResult boroughName st)
  end.

Definition run (evs : list event) (st : App) : App := fold_left step evs st.

End Query.

(* ================================================================== *)
(** ** Reference notions used in the statements and proofs *)

(** A text made of white space only (the empty text included). *)
Fixpoint whitespaceOnly (s : string) : bool :=
  match s with
  | EmptyString => true
  | String c s' => JsString.isWhiteSpace c && whitespaceOnly s'
  end.

(** The raw [(label, count)] pairs of a list of areas, in reading order. *)
Definition rawCrimes (areas : list Area.t) : list (string * Z) :=
  flat_map (fun area => match Area.crimeTypes area with
                        | Some o => JsObject.entries o
                        | None => []
                        end) areas.

(** Labels in the order in which they are first seen. *)
Definition seeLabel (seen : list string) (k : string) : list string :=
  if existsb (String.eqb k) seen then seen else (seen ++ [k])%list.

Definition firstSeen (labels : list string) : list string :=
  fold_left seeLabel labels [].

(** Sum of the counts recorded under exactly the label [k]. *)
Fixpoint totalOf (k : string) (raw : list (string * Z)) : Z :=
  match raw with
  | [] => 0
  | (k', c) :: raw' => (if String.eqb k k' then c else 0) + totalOf k raw'
  end.

(** The count an object holds under a label, 0 when it holds none. *)
Definition countAt (o : JsObject.t Z) (k : string) : Z :=
  match JsObject.get k o with
  | Some c => c
  | None => 0
  end.

(** The areas [getTopCrimeType] reads for a record in a city. *)
Definition areasOf (city : CityKey) (boroughData : Borough.t) : list Area.t :=
  match Borough.areasAt (areaType (cityConfigs city)) boroughData with
  | Some areas => areas
  | None => []
  end.

(** Whether a raw label occurs. *)
Definition labelSeen (k : string) (raw : list (string * Z)) : bool :=
  existsb (fun e => String.eqb k (fst e)) raw.

(** A table of exact totals with one more count added under its label. *)
Definition tally (totals : JsObject.t Z) (e : string * Z) : JsObject.t Z :=
  JsObject.set (fst e) (countAt totals (fst e) + snd e) totals.

(** No raw label names a property inherited from [Object.prototype]. *)
Definition ownLabels (raw : list (string * Z)) : bool :=
  forallb (fun e => negb (JsObject.inherited (fst e))) raw.

(** The sum of the magnitudes of the counts: while it is at most
    [MAX_SAFE_INTEGER], every sum of some of the counts is exact. *)
Definition magnitude (raw : list (string * Z)) : Z :=
  fold_right (fun e acc => Z.abs (snd e) + acc) 0 raw.

(** Every count is at most [MAX_SAFE_INTEGER] in magnitude, as
    [Number.isSafeInteger] tests. *)
Definition safeCounts (counts : list (string * Z)) : bool :=
  forallb (fun e => Z.abs (snd e) <=? MAX_SAFE_INTEGER) counts.

(** The entries one borough contributes to the index: its own entry, then
    one entry per named area, in the order of the area list. *)
Definition boroughBlock (city : CityKey) (boroughData : Borough.t) : list Entry.t :=
  match Borough.name boroughData with
  | EmptyString => []
  | _ =>
      boroughEntry boroughData ::
      flat_map (fun area => match Area.name area with
                            | None | Some EmptyString => []
                            | Some areaName => [areaEntry city boroughData area areaName]
                            end)
        (match Borough.areasAt (areaType (cityConfigs city)) boroughData with
         | Some areas => areas
         | None => []
         end)
  end.

(** An area that has a non-empty name. *)
Definition areaNamed (area : Area.t) : bool :=
  match Area.name area with
  | None | Some EmptyString => false
  | Some _ => true
  end.

Definition boroughNamed (boroughData : Borough.t) : bool :=
  negb (String.eqb (Borough.name boroughData) "").

(** Comparison by code units: one collation a host may provide. *)
Definition codeUnitCompare (a b : string) : Z :=
  match String.compare a b with
  | Lt => -1
  | Eq => 0
  | Gt => 1
  end.

(** A comparator that orders.  The language requires it of [localeCompare],
    and of any [compareFn] for the result of [sort] to be defined. *)
Definition consistentComparator {A : Type} (cmp : A -> A -> Z) : Prop :=
  (forall a b, 0 < cmp a b -> cmp b a <= 0) /\
  (forall a b c, cmp a b <= 0 -> cmp b c <= 0 -> cmp a c <= 0).

(* ================================================================== *)
(** ** Sample data *)

Definition plainBorough (name : string) (score totalCrimes : jsval) : Borough.t :=
  {| Borough.name := name;
     Borough.score := score;
     Borough.safety_score := JUndefined;
     Borough.totalCrimes := totalCrimes;
     Borough.total_crimes := JUndefined;
     Borough.safety_level := None;
     Borough.crime_breakdown := None;
     Borough.wards := None;
     Borough.precincts := None |}.

Definition withWards (wards : list Area.t) (b : Borough.t) : Borough.t :=
  {| Borough.name := Borough.name b;
     Borough.score := Borough.score b;
     Borough.safety_score := Borough.safety_score b;
     Borough.totalCrimes := Borough.totalCrimes b;
     Borough.total_crimes := Borough.total_crimes b;
     Borough.safety_level := Borough.safety_level b;
     Borough.crime_breakdown := Borough.crime_breakdown b;
     Borough.wards := Some wards;
     Borough.precincts := Borough.precincts b |}.

Definition withPrecincts (precincts : list Area.t) (b : Borough.t) : Borough.t :=
  {| Borough.name := Borough.name b;
     Borough.score := Borough.score b;
     Borough.safety_score := Borough.safety_score b;
     Borough.totalCrimes := Borough.totalCrimes b;
     Borough.total_crimes := Borough.total_crimes b;
     Borough.safety_level := Borough.safety_level b;
     Borough.crime_breakdown := Borough.crime_breakdown b;
     Borough.wards := Borough.wards b;
     Borough.precincts := Some precincts |}.

Definition plainArea (name : string) (crimeTypes : list (string * Z)) : Area.t :=
  {| Area.name := Some name;
     Area.totalCrimes := JUndefined;
     Area.crimeTypes := Some crimeTypes |}.

(** The page after the data of [city] has been loaded from [boroughs]. *)
Definition loadedApp (city : CityKey) (boroughs : list Borough.t) : App :=
  geoLoaded (dataLoaded boroughs (switchCity city initialApp)).

(* ================================================================== *)
(** ** Colours *)

(** [standardPalette] and [visualInclusivePalette] of the class
    [VisualInclusivity]; slot [i] is meant for the score [i + 1]. *)
Definition standardPalette : list string :=
  ["#1a5f1a"; "#2d7a2d"; "#4a9d4a"; "#6bb86b"; "#8dd08d";
   "#ffd633"; "#ffb84d"; "#ff9966"; "#ff6b7f"; "#ff4757"].

Definition visualInclusivePalette : list string :=
  ["#08306b"; "#08519c"; "#2171b5"; "#4292c6"; "#6baed6";
   "#fd8d3c"; "#f16913"; "#d94801"; "#a63603"; "#7f2704"].

(** [getCurrentPalette()] for a value of [isVisualInclusiveMode]. *)
Definition getCurrentPalette (isVisualInclusiveMode : bool) : list string :=
  if isVisualInclusiveMode then visualInclusivePalette else standardPalette.

(** The constant [palette] of [updateLegendColors]. *)
Definition legendPalette (isColorblindMode : bool) : list string :=
  if isColorblindMode then
    ["#08306b"; "#08519c"; "#2171b5"; "#4292c6"; "#6baed6";
     "#fd8d3c"; "#f16913"; "#d94801"; "#a63603"; "#7f2704"]
  else
    ["#1a5f1a"; "#2d7a2d"; "#4a9d4a"; "#6bb86b"; "#8dd08d";
     "#ffd633"; "#ffb84d"; "#ff9966"; "#ff6b7f"; "#ff4757"].

(** [palette[i]] for a literal index, with [undefined] read as the empty
    text. *)
Definition paletteAt (palette : list string) (i : nat) : string :=
  nth i palette "".

(** The rows [updateLegendColors] writes: swatch colour and caption. *)
Definition legendRows (isColorblindMode : bool) : list (string * string) :=
  let palette := legendPalette isColorblindMode in
  [ (paletteAt palette 0, "1-2 Very Safe");
    (paletteAt palette 2, "3-4 Safe");
    (paletteAt palette 4, "5 Moderate");
    (paletteAt palette 6, "6-7 Caution");
    (paletteAt palette 8, "8-9 High Risk");
    (paletteAt palette 9, "10 Very High Risk") ].

(** [getSafetyColor(score)]; [isColorblindMode] is the value of
    [window.ColorblindAccessibility && window.ColorblindAccessibility.isColorblindModeActive()]. *)
Definition getSafetyColor (isColorblindMode : bool) (score : jsval) : string :=
  if isColorblindMode then
    if jsLe score 3 then "#08306b"
    else if jsLe score 5 then "#2171b5"
    else if jsLe score 7 then "#fd8d3c"
    else if jsLe score 8 then "#d94801"
    else "#7f2704"
  else
    if jsLe score 3 then "#1a5f1a"
    else if jsLe score 5 then "#4a9d4a"
    else if jsLe score 7 then "#ffd633"
    else if jsLe score 8 then "#ff9966"
    else "#ff4757".

(** [score - 1] used as an array index: [None] when the difference is NaN. *)
Definition indexBelow (score : jsval) : option Z :=
  match score with
  | JUndefined => None
  | JNull => Some (-1)
  | JNum n => Some (n - 1)
  end.

(** The [fillColor] the style function of [updateMapStyle] gives a feature
    with the properties [Score] and [safety_score]. *)
Definition fillColor (palette : list string) (Score safety_score : jsval) : string :=
  let score := jsOr Score safety_score in
  let colour := match indexBelow score with
                | Some i => if 0 <=? i then nth (Z.to_nat i) palette "" else ""
                | None => ""
                end in
  strOr colour "#dee2e6".

(** The two tables [colors] of [getCrimeTypeColor], in the order of their
    keys. *)
Definition crimeColors (isColorblindMode : bool) : JsObject.t string :=
  if isColorblindMode then
    [ ("violence", "#7f2704"); ("assault", "#7f2704"); ("homicide", "#7f2704");
      ("kidnapping", "#7f2704"); ("weapons", "#a63603"); ("sexual", "#a63603");
      ("robbery", "#a63603"); ("arson", "#d94801"); ("burglary", "#d94801");
      ("theft", "#fd8d3c"); ("vehicle", "#fd8d3c"); ("criminal", "#fd8d3c");
      ("drugs", "#2171b5"); ("drug", "#2171b5"); ("fraud", "#4292c6");
      ("gambling", "#4292c6"); ("alcohol", "#4292c6"); ("harassment", "#6baed6");
      ("trespassing", "#6baed6"); ("public", "#6baed6"); ("regulatory", "#08519c");
      ("custody", "#08519c"); ("miscellaneous", "#08306b"); ("other", "#08306b") ]
  else
    [ ("violence", "#ff4757"); ("assault", "#ff4757"); ("homicide", "#8b0000");
      ("kidnapping", "#8b0000"); ("weapons", "#ff3838"); ("sexual", "#e74c3c");
      ("robbery", "#ff3838"); ("arson", "#ff6348"); ("burglary", "#ff6348");
      ("theft", "#ffa502"); ("vehicle", "#ffa502"); ("criminal", "#e74c3c");
      ("drugs", "#8e44ad"); ("drug", "#8e44ad"); ("fraud", "#f39c12");
      ("gambling", "#f39c12"); ("alcohol", "#9b59b6"); ("harassment", "#3498db");
      ("trespassing", "#3498db"); ("public", "#3498db"); ("regulatory", "#34495e");
      ("custody", "#34495e"); ("miscellaneous", "#95a5a6"); ("other", "#95a5a6") ].

(** [for (const [key, color] of Object.entries(colors)) if (lowerType.includes(key)) return color] *)
Fixpoint firstColor (lowerType : string) (colors : list (string * string))
  : option string :=
  match colors with
  | [] => None
  | (key, color) :: rest =>
      if JsString.includes lowerType key then Some color
      else firstColor lowerType rest
  end.

Definition getCrimeTypeColor (isColorblindMode : bool) (type : string) : string :=
  let lowerType := JsString.toLowerCase type in
  match firstColor lowerType (JsObject.entries (crimeColors isColorblindMode)) with
  | Some color => color
  | None => if isColorblindMode then "#2171b5" else "#3498db"
  end.

(* ================================================================== *)
(** ** Dashboard *)

(** What [Math.round(totalCrimes / n)] prints for an integer total and a
    number of areas. *)
Inductive Average : Type :=
  | AvgNumber (n : Z)
  | AvgInfinity
  | AvgNegInfinity
  | AvgNaN.

(** One bar of a ward card. *)
Record CrimeBar (Percent : Type) : Type := {
  barType : string;
  barCount : Z;
  barPercent : Percent;
  barColor : string
}.

Arguments barType {Percent}.
Arguments barCount {Percent}.
Arguments barPercent {Percent}.
Arguments barColor {Percent}.

Record WardCard (Percent : Type) : Type := {
  cardName : option string;
  cardTotal : jsval;
  cardBars : list (CrimeBar Percent)
}.

Arguments cardName {Percent}.
Arguments cardTotal {Percent}.
Arguments cardBars {Percent}.

(** What [showDashboard] writes into the dashboard. *)
Record Dashboard (Percent : Type) : Type := {
  dashName : string;
  dashSafetyLevel : string;
  dashSafetyColor : string;
  dashScore : jsval;
  dashTotalCrimes : Z;
  dashAreaCount : nat;
  dashAverage : Average;
  dashTopCrimeType : string;
  dashCards : list (WardCard Percent)
}.

Arguments dashName {Percent}.
Arguments dashSafetyLevel {Percent}.
Arguments dashSafetyColor {Percent}.
Arguments dashScore {Percent}.
Arguments dashTotalCrimes {Percent}.
Arguments dashAreaCount {Percent}.
Arguments dashAverage {Percent}.
Arguments dashTopCrimeType {Percent}.
Arguments dashCards {Percent}.

(** One row of [getCrimeBreakdownHTML]. *)
Record BreakdownRow (Percent : Type) : Type := {
  rowType : string;
  rowCount : bucket;
  rowPercent : Percent
}.

Arguments rowType {Percent}.
Arguments rowCount {Percent}.
Arguments rowPercent {Percent}.

Section Dashboard.

(** The two floating-point computations of the dashboard, as the host
    evaluates them: [Math.round((count / total) * 100)] for any [total], and
    [Math.round(total / n)] for a positive number [n] of areas. *)
Variable Percent : Type.
Variable percentage : Z -> jsval -> Percent.
Variable roundQuotient : Z -> Z -> Z.

(** [Math.round((count / totalCrimes) * 100)] for a bucket of the
    aggregate, which can hold an infinity or a text. *)
Variable bucketPercentage : bucket -> jsval -> Percent.

Variable isColorblindMode : bool.

(** [crimeEntries.sort((a, b) => b[1] - a[1]).slice(0, 3)] *)
Definition topCrimes (area : Area.t) : list (string * Z) :=
  let crimeEntries := JsObject.entries (match Area.crimeTypes area with
                                        | Some o => o
                                        | None => JsObject.empty
                                        end) in
  JsArray.slice0 3 (JsArray.sort byCountDesc crimeEntries).

Definition crimeBar (area : Area.t) (e : string * Z) : CrimeBar Percent :=
  {| barType := formatCrimeType (fst e);
     barCount := snd e;
     barPercent := percentage (snd e) (Area.totalCrimes area);
     barColor := getCrimeTypeColor isColorblindMode (fst e) |}.

Definition wardCard (area : Area.t) : WardCard Percent :=
  {| cardName := Area.name area;
     cardTotal := Area.totalCrimes area;
     cardBars := List.map (crimeBar area) (topCrimes area) |}.

(** [(boroughData[areaType] || []).slice(0, 10).map(area => ...)] *)
Definition wardCards (city : CityKey) (boroughData : Borough.t)
  : list (WardCard Percent) :=
  List.map wardCard
    (JsArray.slice0 10
       (match Borough.areasAt (areaType (cityConfigs city)) boroughData with
        | Some areas => areas
        | None => []
        end)).

(** [boroughData[areaType] ? Math.round(totalCrimes / boroughData[areaType].length) : 0] *)
Definition averagePerArea (city : CityKey) (boroughData : Borough.t)
    (totalCrimes : Z) : Average :=
  match Borough.areasAt (areaType (cityConfigs city)) boroughData with
  | None => AvgNumber 0
  | Some [] =>
      if totalCrimes =? 0 then AvgNaN
      else if 0 <? totalCrimes then AvgInfinity else AvgNegInfinity
  | Some areas => AvgNumber (roundQuotient totalCrimes (Z.of_nat (List.length areas)))
  end.

(** [showDashboard(boroughData)].  The result is the error when
    [totalCrimes.toLocaleString()] is evaluated on [undefined] or [null]. *)
Definition showDashboard (city : CityKey) (boroughData : Borough.t)
  : Dashboard Percent + jsError :=
  let score := jsOr (Borough.score boroughData) (Borough.safety_score boroughData) in
  let safetyLevel := match Borough.safety_level boroughData with
                     | Some l => strOr l (getSafetyLevel score)
                     | None => getSafetyLevel score
                     end in
  let safetyColor := getSafetyColor isColorblindMode score in
  match dashboardTotal boroughData with
  | inl n =>
      inl {| dashName := Borough.name boroughData;
             dashSafetyLevel := safetyLevel;
             dashSafetyColor := safetyColor;
             dashScore := score;
             dashTotalCrimes := n;
             dashAreaCount :=
               match Borough.areasAt (areaType (cityConfigs city)) boroughData with
               | Some areas => List.length areas
               | None => O
               end;
             dashAverage := averagePerArea city boroughData n;
             dashTopCrimeType := getTopCrimeType city boroughData;
             dashCards := wardCards city boroughData |}
  | inr error => inr error
  end.

(** The rows of [getCrimeBreakdownHTML(boroughData, totalCrimes)]. *)
Definition getCrimeBreakdownHTML (city : CityKey) (boroughData : Borough.t)
    (totalCrimes : jsval) : list (BreakdownRow Percent) :=
  let crimeData := allCrimesOf city boroughData in
  List.map (fun e => {| rowType := formatCrimeType (fst e);
                        rowCount := snd e;
                        rowPercent := bucketPercentage (snd e) totalCrimes |})
    (JsArray.sort byBucketDesc (JsObject.entries crimeData)).

End Dashboard.

(* ================================================================== *)
(** ** The accessibility toggle *)

Module VisualInclusivity.

(** The instance together with what it drives: the stored preference, the
    palette of the map's style function, and the mode in which the toggle
    was last drawn ([None] before the toggle exists). *)
Record t : Type := {
  isVisualInclusiveMode : bool;
  savedMode : option string;
  mapPalette : list string;
  toggleVisuals : option bool
}.

(** The outcome of a method: the state it leaves, and whether it threw. *)
Inductive outcome : Type :=
  | Returned (v : t)
  | Threw (v : t).

(** [new VisualInclusivity()] on a page whose storage holds [saved] and
    whose map [initMap] has styled with its [currentPalette]. *)
Definition create (saved : option string) : t :=
  {| isVisualInclusiveMode := false;
     savedMode := saved;
     mapPalette := ["#1a5f1a"; "#2d7a2d"; "#4a9d4a"; "#6bb86b"; "#8dd08d";
                    "#ffd633"; "#ffb84d"; "#ff9966"; "#ff6b7f"; "#ff4757"];
     toggleVisuals := None |}.

(** [updateToggleVisuals(); updateMapColors()] once the toggle exists;
    [initMap] has defined [window.updateMapColorsFromToggle] by then. *)
Definition redraw (v : t) : t :=
  {| isVisualInclusiveMode := isVisualInclusiveMode v;
     savedMode := savedMode v;
     mapPalette := getCurrentPalette (isVisualInclusiveMode v);
     toggleVisuals := Some (isVisualInclusiveMode v) |}.

(** [initialize(map)] *)
Definition initialize (v : t) : t :=
  let v := {| isVisualInclusiveMode := isVisualInclusiveMode v;
              savedMode := savedMode v;
              mapPalette := mapPalette v;
              toggleVisuals := Some (isVisualInclusiveMode v) |} in
  match savedMode v with
  | Some saved =>
      if String.eqb saved "true" then
        redraw {| isVisualInclusiveMode := true;
                  savedMode := savedMode v;
                  mapPalette := mapPalette v;
                  toggleVisuals := toggleVisuals v |}
      else v
  | None => v
  end.

(** [toggleVisualInclusiveMode()].  Without a toggle container
    [updateToggleVisuals] throws, after the mode has been flipped.
    [dashboardThrows] tells whether [updateDashboard()] throws, which it
    does when it re-renders an open dashboard on a record for which
    [showDashboard] fails; the preference is stored after that call. *)
Definition toggleVisualInclusiveMode (dashboardThrows : bool) (v : t) : outcome :=
  let v := {| isVisualInclusiveMode := negb (isVisualInclusiveMode v);
              savedMode := savedMode v;
              mapPalette := mapPalette v;
              toggleVisuals := toggleVisuals v |} in
  match toggleVisuals v with
  | None => Threw v
  | Some _ =>
      let v := redraw v in
      if dashboardThrows then Threw v
      else
        Returned {| isVisualInclusiveMode := isVisualInclusiveMode v;
                    savedMode := Some (if isVisualInclusiveMode v then "true" else "false");
                    mapPalette := mapPalette v;
                    toggleVisuals := toggleVisuals v |}
  end.

(** Clicks on the toggle, one after the other, while no dashboard refresh
    throws. *)
Fixpoint clicks (n : nat) (v : t) : t :=
  match n with
  | O => v
  | S n' =>
      match toggleVisualInclusiveMode false v with
      | Returned v' | Threw v' => clicks n' v'
      end
  end.

End VisualInclusivity.

(* ================================================================== *)
(** ** The tooltip of a region *)

(** What the tooltip prints after the caption of the total: a number, the
    text N/A, or the text of [undefined] or [null]. *)
Inductive TotalShown : Type :=
  | ShownNumber (n : Z)
  | ShownNA
  | ShownUndefined
  | ShownNull.

Record Tooltip : Type := {
  tipName : string;
  tipScore : jsval;
  tipSafetyLevel : string;
  tipSafetyColor : string;
  tipTotalCrimes : TotalShown
}.

(** The content the [mouseover] listener of [initMap] gives the info window
    for a feature with the name [boroughName] and the properties [Score],
    [safety_score] and [total_crimes]. *)
Definition mouseover (isColorblindMode : bool) (st : App) (boroughName : string)
    (Score safety_score total_crimes : jsval) : Tooltip :=
  let score := jsOr Score safety_score in
  let boroughData := JsObject.get (JsString.toUpperCase boroughName) (crimeData st) in
  let safetyLevel := getSafetyLevel score in
  let totalCrimes :=
    match boroughData with
    | Some b =>
        match Borough.totalCrimes b with
        | JNum n => ShownNumber n
        | JUndefined => ShownUndefined
        | JNull => ShownNull
        end
    | None => ShownNA
    end in
  let totalCrimes :=
    match totalCrimes, CityKey_eqb (currentCity st) nyc with
    | ShownNA, true =>
        match jsOr total_crimes JUndefined with
        | JNum n => ShownNumber n
        | _ => ShownNA
        end
    | _, _ => totalCrimes
    end in
  {| tipName := boroughName;
     tipScore := score;
     tipSafetyLevel := safetyLevel;
     tipSafetyColor := getSafetyColor isColorblindMode score;
     tipTotalCrimes := totalCrimes |}.

(* ================================================================== *)
(** * Properties *)

(** ** Strings *)

Lemma trimStart_whitespaceOnly :
  forall s, whitespaceOnly s = true -> JsString.trimStart s = "".
Proof.
  induction s as [|c s IH]; simpl; intros H; [reflexivity|].
  apply andb_true_iff in H as [Hc Hs]. rewrite Hc. auto.
Qed.

Lemma trim_whitespaceOnly :
  forall s, whitespaceOnly s = true -> JsString.trim s = "".
Proof.
  intros s H. unfold JsString.trim.
  rewrite trimStart_whitespaceOnly by assumption. reflexivity.
Qed.

Lemma trimEnd_empty :
  forall s, JsString.trimEnd s = "" -> whitespaceOnly s = true.
Proof.
  induction s as [|c s IH]; simpl; intros H; [reflexivity|].
  destruct (JsString.trimEnd s) eqn:E; [|discriminate].
  destruct (JsString.isWhiteSpace c); [|discriminate].
  simpl. auto.
Qed.

Lemma trimStart_head :
  forall s, JsString.trimStart s = "" \/
            exists c t, JsString.trimStart s = String c t /\
                        JsString.isWhiteSpace c = false.
Proof.
  induction s as [|c s IH]; simpl; [now left|].
  destruct (JsString.isWhiteSpace c) eqn:E; [assumption|].
  right. now exists c, s.
Qed.

Lemma trimStart_empty :
  forall s, JsString.trimStart s = "" -> whitespaceOnly s = true.
Proof.
  induction s as [|c s IH]; simpl; intros H; [reflexivity|].
  destruct (JsString.isWhiteSpace c); [simpl; auto | discriminate].
Qed.

Lemma trim_empty :
  forall s, JsString.trim s = "" -> whitespaceOnly s = true.
Proof.
  intros s H. unfold JsString.trim in H.
  apply trimEnd_empty in H.
  destruct (trimStart_head s) as [E | (c & t & E & Hc)].
  - now apply trimStart_empty.
  - rewrite E in H. simpl in H. rewrite Hc in H. discriminate.
Qed.

Lemma toLowerCase_empty :
  forall s, JsString.toLowerCase s = "" <-> s = "".
Proof.
  intros [|c s]; simpl; split; intros H; try reflexivity; discriminate.
Qed.

Lemma query_empty_iff :
  forall value,
    JsString.toLowerCase (JsString.trim value) = "" <->
    whitespaceOnly value = true.
Proof.
  intros value. rewrite toLowerCase_empty. split.
  - apply trim_empty.
  - apply trim_whitespaceOnly.
Qed.

(** ** Safety level *)

(** C3: the safety level of an integer score is Very Safe up to 3, Safe up
    to 5, Moderate up to 7, Caution up to 8 and High Risk above; scores at
    or below 0 fall in Very Safe and scores above 10 in High Risk, so -5 is
    Very Safe and 15 is High Risk. *)
Theorem getSafetyLevel_boundaries :
  forall score : Z,
    (score <= 3 -> getSafetyLevel (JNum score) = "Very Safe") /\
    (3 < score <= 5 -> getSafetyLevel (JNum score) = "Safe") /\
    (5 < score <= 7 -> getSafetyLevel (JNum score) = "Moderate") /\
    (7 < score <= 8 -> getSafetyLevel (JNum score) = "Caution") /\
    (8 < score -> getSafetyLevel (JNum score) = "High Risk") /\
    (score <= 0 -> getSafetyLevel (JNum score) = "Very Safe") /\
    (10 < score -> getSafetyLevel (JNum score) = "High Risk") /\
    getSafetyLevel (JNum (-5)) = "Very Safe" /\
    getSafetyLevel (JNum 15) = "High Risk".
Proof.
  intros score. unfold getSafetyLevel, jsLe.
  repeat split; try reflexivity; intros H;
    destruct (score <=? 3) eqn:E3; destruct (score <=? 5) eqn:E5;
    destruct (score <=? 7) eqn:E7; destruct (score <=? 8) eqn:E8;
    try reflexivity;
    repeat match goal with
           | E : (_ <=? _) = true |- _ => apply Z.leb_le in E
           | E : (_ <=? _) = false |- _ => apply Z.leb_gt in E
           end; lia.
Qed.

Lemma getSafetyLevel_boundaries_witness :
  getSafetyLevel (JNum 1) = "Very Safe" /\
  getSafetyLevel (JNum 5) = "Safe" /\
  getSafetyLevel (JNum 6) = "Moderate" /\
  getSafetyLevel (JNum 8) = "Caution" /\
  getSafetyLevel (JNum 9) = "High Risk" /\
  getSafetyLevel (JNum 0) = "Very Safe" /\
  getSafetyLevel (JNum 11) = "High Risk".
Proof.
  repeat apply conj.
  - apply (proj1 (getSafetyLevel_boundaries 1)); lia.
  - apply (proj1 (proj2 (getSafetyLevel_boundaries 5))); lia.
  - apply (proj1 (proj2 (proj2 (getSafetyLevel_boundaries 6)))); lia.
  - apply (proj1 (proj2 (proj2 (proj2 (getSafetyLevel_boundaries 8))))); lia.
  - apply (proj1 (proj2 (proj2 (proj2 (proj2 (getSafetyLevel_boundaries 9)))))); lia.
  - apply (proj1 (proj2 (proj2 (proj2 (proj2 (proj2 (getSafetyLevel_boundaries 0))))))); lia.
  - apply (proj1 (proj2 (proj2 (proj2 (proj2 (proj2 (proj2 (getSafetyLevel_boundaries 11)))))))); lia.
Defined.

(** C4 (counterexample): a record with no score is given the level High
    Risk; nothing is raised and the dashboard does not print N/A. *)
Lemma getSafetyLevel_undefined_is_high_risk :
  getSafetyLevel JUndefined = "High Risk" /\
  dashboardSafetyLevel (plainBorough "Camden" JUndefined (JNum 1200)) = "High Risk" /\
  dashboardSafetyLevel (plainBorough "Camden" JUndefined (JNum 1200)) <> "N/A".
Proof.
  repeat apply conj; try reflexivity. vm_compute. discriminate.
Qed.

(** C4 (amended): [getSafetyLevel] raises nothing and never answers N/A: it
    returns one of its five levels for every argument.  For [undefined], a
    missing score, every comparison is false and it returns High Risk, so
    the missing score is not read as 0; [null] is read as 0 and gets Very
    Safe.  For a record without a safety_level whose score and safety_score
    are each missing or null, [showDashboard] either throws the TypeError
    of a record without totals and draws nothing, or draws the dashboard
    with safety_score as its score and with the level of that value: High
    Risk when safety_score is missing, Very Safe when it is null.  The
    score of the record's search entry is a number, its totalCrimes when
    that is a number other than 0 and 0 otherwise, so a search row never
    passes [undefined] to [getSafetyLevel]. *)
Theorem getSafetyLevel_unscored :
  forall (Percent : Type) (percentage : Z -> jsval -> Percent)
         (roundQuotient : Z -> Z -> Z) (isColorblindMode : bool)
         (city : CityKey) (boroughData : Borough.t),
    Borough.score boroughData = JUndefined \/ Borough.score boroughData = JNull ->
    Borough.safety_score boroughData = JUndefined \/
      Borough.safety_score boroughData = JNull ->
    Borough.safety_level boroughData = None ->
    (forall score : jsval,
        In (getSafetyLevel score)
           ["Very Safe"; "Safe"; "Moderate"; "Caution"; "High Risk"]) /\
    getSafetyLevel JUndefined = "High Risk" /\
    getSafetyLevel JNull = "Very Safe" /\
    getSafetyLevel (JNum 0) = "Very Safe" /\
    (showDashboard Percent percentage roundQuotient isColorblindMode
       city boroughData = inr TypeError <->
     truthy (Borough.totalCrimes boroughData) = false /\
     (Borough.total_crimes boroughData = JUndefined \/
      Borough.total_crimes boroughData = JNull)) /\
    (forall d,
        showDashboard Percent percentage roundQuotient isColorblindMode
          city boroughData = inl d ->
        dashScore d = Borough.safety_score boroughData /\
        dashSafetyLevel d = getSafetyLevel (Borough.safety_score boroughData) /\
        (Borough.safety_score boroughData = JUndefined ->
         dashSafetyLevel d = "High Risk") /\
        (Borough.safety_score boroughData = JNull ->
         dashSafetyLevel d = "Very Safe") /\
        dashSafetyLevel d <> "N/A") /\
    entryScore boroughData =
      (if truthy (Borough.totalCrimes boroughData)
       then Borough.totalCrimes boroughData else JNum 0) /\
    exists n,
      entryScore boroughData = JNum n /\
      itemSafetyLevel (renderResult (boroughEntry boroughData)) =
        getSafetyLevel (JNum n).
Proof.
  intros Percent percentage roundQuotient m city b Hs Hss Hl.
  assert (Hlevels : forall score : jsval,
             In (getSafetyLevel score)
                ["Very Safe"; "Safe"; "Moderate"; "Caution"; "High Risk"]).
  { intros score. unfold getSafetyLevel.
    destruct (jsLe score 3); [now left|].
    destruct (jsLe score 5); [right; now left|].
    destruct (jsLe score 7); [right; right; now left|].
    destruct (jsLe score 8); [right; right; right; now left|].
    right; right; right; right; now left. }
  assert (Hor : jsOr (Borough.score b) (Borough.safety_score b) =
                Borough.safety_score b).
  { destruct Hs as [-> | ->]; reflexivity. }
  assert (Hin : jsOr (Borough.safety_score b) (Borough.totalCrimes b) =
                Borough.totalCrimes b).
  { destruct Hss as [-> | ->]; reflexivity. }
  split; [exact Hlevels|].
  split; [reflexivity|]. split; [reflexivity|]. split; [reflexivity|].
  split; [|split; [|split]].
  - unfold showDashboard, dashboardTotal.
    change (jsOr (Borough.totalCrimes b) (Borough.total_crimes b))
      with (if truthy (Borough.totalCrimes b)
            then Borough.totalCrimes b else Borough.total_crimes b).
    destruct (truthy (Borough.totalCrimes b)) eqn:T.
    + destruct (Borough.totalCrimes b) as [| |n]; try discriminate T.
      split; [discriminate | intros [H _]; discriminate].
    + destruct (Borough.total_crimes b) as [| |n].
      * split; [intros _; split; [reflexivity | now left] | reflexivity].
      * split; [intros _; split; [reflexivity | now right] | reflexivity].
      * split; [discriminate | intros [_ [H | H]]; discriminate].
  - intros d H. unfold showDashboard in H.
    destruct (dashboardTotal b) as [n|err]; [|discriminate H].
    injection H as <-. cbn [dashScore dashSafetyLevel]. rewrite Hl, Hor.
    split; [reflexivity|]. split; [reflexivity|].
    split; [intros ->; reflexivity|]. split; [intros ->; reflexivity|].
    destruct Hss as [-> | ->]; discriminate.
  - unfold entryScore. rewrite Hor, Hin.
    unfold jsOr. destruct (truthy (Borough.totalCrimes b)); reflexivity.
  - assert (He : exists n, entryScore b = JNum n).
    { unfold entryScore. rewrite Hor, Hin.
      destruct (Borough.totalCrimes b) as [| |n]; unfold jsOr; simpl;
        [eauto | eauto |].
      destruct (n =? 0); simpl; eauto. }
    destruct He as [n Hn]. exists n. split; [assumption|].
    unfold renderResult, boroughEntry. cbn [itemSafetyLevel item Entry.score].
    now rewrite Hn.
Qed.

Lemma getSafetyLevel_unscored_witness :
  entryScore (plainBorough "Camden" JUndefined (JNum 1200)) = JNum 1200 /\
  showDashboard Z (fun count _ => count) Z.div false london
    (plainBorough "Soho" JUndefined JUndefined) = inr TypeError.
Proof.
  split.
  - apply (proj1 (proj2 (proj2 (proj2 (proj2 (proj2 (proj2
             (getSafetyLevel_unscored Z (fun count _ => count) Z.div false london
                (plainBorough "Camden" JUndefined (JNum 1200))
                (or_introl eq_refl) (or_introl eq_refl) eq_refl)))))))).
  - apply (proj1 (proj2 (proj2 (proj2 (proj2
             (getSafetyLevel_unscored Z (fun count _ => count) Z.div false london
                (plainBorough "Soho" JUndefined JUndefined)
                (or_introl eq_refl) (or_introl eq_refl) eq_refl)))))).
    split; [reflexivity | left; reflexivity].
Defined.

(** ** Objects *)

Section ObjectFacts.
Context {V : Type}.
Implicit Types (o : JsObject.t V) (k : string) (v : V).

Lemma get_update_same :
  forall o k v w, JsObject.get k o = Some w ->
                  JsObject.get k (JsObject.update k v o) = Some v.
Proof.
  induction o as [|[k' v'] o IH]; simpl; intros k v w H; [discriminate|].
  destruct (String.eqb k k') eqn:E; simpl; rewrite E; eauto.
Qed.

Lemma get_update_other :
  forall o k k' v, k <> k' ->
                   JsObject.get k (JsObject.update k' v o) = JsObject.get k o.
Proof.
  induction o as [|[k0 v0] o IH]; simpl; intros k k' v Hne; [reflexivity|].
  destruct (String.eqb k' k0) eqn:E; simpl.
  - apply String.eqb_eq in E. subst k0.
    apply String.eqb_neq in Hne. now rewrite Hne.
  - destruct (String.eqb k k0); auto.
Qed.

Lemma get_insertIndex_same :
  forall o n k v, JsObject.get k (JsObject.insertIndex n k v o) = Some v \/
                  exists w, JsObject.get k o = Some w.
Proof.
  induction o as [|[k' v'] o IH]; simpl; intros n k v.
  - rewrite String.eqb_refl. now left.
  - destruct (JsString.arrayIndex k') as [m|];
      [destruct (m <? n)%N|]; simpl; try (rewrite String.eqb_refl; now left).
    destruct (String.eqb k k'); [right; eauto | apply IH].
Qed.

Lemma get_insertIndex_other :
  forall o n k k' v, k <> k' ->
    JsObject.get k (JsObject.insertIndex n k' v o) = JsObject.get k o.
Proof.
  induction o as [|[k0 v0] o IH]; simpl; intros n k k' v Hne.
  - apply String.eqb_neq in Hne. now rewrite Hne.
  - pose proof Hne as Hne'. apply String.eqb_neq in Hne'.
    destruct (JsString.arrayIndex k0) as [m|];
      [destruct (m <? n)%N|]; simpl; rewrite ?Hne'; try reflexivity.
    destruct (String.eqb k k0); auto.
Qed.

Lemma get_app_last :
  forall o k k' v,
    JsObject.get k (o ++ [(k', v)])%list =
    match JsObject.get k o with
    | Some w => Some w
    | None => if String.eqb k k' then Some v else None
    end.
Proof.
  induction o as [|[k0 v0] o IH]; simpl; intros k k' v; [reflexivity|].
  destruct (String.eqb k k0); auto.
Qed.

Lemma get_set_same :
  forall o k v, JsObject.get k (JsObject.set k v o) = Some v.
Proof.
  intros o k v. unfold JsObject.set.
  destruct (JsObject.get k o) as [w|] eqn:G.
  - eapply get_update_same; eassumption.
  - destruct (JsString.arrayIndex k) as [n|].
    + destruct (get_insertIndex_same o n k v) as [H | [w H]]; [assumption|].
      congruence.
    + rewrite get_app_last, G, String.eqb_refl. reflexivity.
Qed.

Lemma get_set_other :
  forall o k k' v, k <> k' ->
    JsObject.get k (JsObject.set k' v o) = JsObject.get k o.
Proof.
  intros o k k' v Hne. unfold JsObject.set.
  destruct (JsObject.get k' o) as [w|].
  - now apply get_update_other.
  - destruct (JsString.arrayIndex k') as [n|].
    + now apply get_insertIndex_other.
    + rewrite get_app_last. apply String.eqb_neq in Hne. rewrite Hne.
      destruct (JsObject.get k o); reflexivity.
Qed.

Lemma keys_update :
  forall o k v, JsObject.keys (JsObject.update k v o) = JsObject.keys o.
Proof.
  induction o as [|[k' v'] o IH]; simpl; intros k v; [reflexivity|].
  destruct (String.eqb k k'); simpl; [reflexivity|].
  f_equal. apply IH.
Qed.

End ObjectFacts.

(** ** Scores of search entries *)

(** C7 (counterexample): a borough with no score and 1200 crimes gets the
    entry score 1200, and one with neither gets the entry score 0, although
    the stored records still have no score. *)
Lemma buildSearchIndex_substitutes_score :
  List.map Entry.score
    (searchIndex (loadedApp london [plainBorough "Camden" JUndefined (JNum 1200);
                                    plainBorough "Soho" JUndefined JUndefined]))
  = [JNum 1200; JNum 0] /\
  List.map (fun kv => Borough.score (snd kv))
    (crimeData (loadedApp london [plainBorough "Camden" JUndefined (JNum 1200);
                                  plainBorough "Soho" JUndefined JUndefined]))
  = [JUndefined; JUndefined].
Proof.
  split; reflexivity.
Qed.

(** C7 (amended): loading stores every borough record unchanged under its
    upper-cased name, so a missing score stays missing there and differs
    from the number 0.  The entries built for a borough whose score and
    safety_score are missing carry the borough's totalCrimes when that is a
    non-zero number and 0 otherwise. *)
Theorem entryScore_of_unscored :
  forall (boroughData : Borough.t) (d : JsObject.t Borough.t),
    Borough.score boroughData = JUndefined ->
    Borough.safety_score boroughData = JUndefined ->
    JsObject.get (JsString.toUpperCase (Borough.name boroughData))
      (storeBorough d boroughData) = Some boroughData /\
    Borough.score boroughData <> JNum 0 /\
    Entry.score (boroughEntry boroughData) =
      (if truthy (Borough.totalCrimes boroughData)
       then Borough.totalCrimes boroughData else JNum 0) /\
    (forall city area areaName,
        Entry.score (areaEntry city boroughData area areaName) =
        Entry.score (boroughEntry boroughData)) /\
    (forall city area areaName,
        Entry.data (areaEntry city boroughData area areaName) = boroughData) /\
    Entry.data (boroughEntry boroughData) = boroughData.
Proof.
  intros b d Hs Hss. repeat apply conj; try reflexivity.
  - unfold storeBorough. apply get_set_same.
  - rewrite Hs. discriminate.
  - simpl. unfold entryScore. rewrite Hs, Hss. simpl.
    unfold jsOr. reflexivity.
Qed.

Lemma entryScore_of_unscored_witness :
  Entry.score (boroughEntry (plainBorough "Camden" JUndefined (JNum 1200))) =
  JNum 1200.
Proof.
  apply (entryScore_of_unscored (plainBorough "Camden" JUndefined (JNum 1200))
           JsObject.empty); reflexivity.
Defined.

(** ** Empty queries and queries without a match *)

Lemma filter_nothing :
  forall (A : Type) (f : A -> bool) (l : list A),
    (forall x, In x l -> f x = false) -> filter f l = [].
Proof.
  induction l as [|x l IH]; simpl; intros H; [reflexivity|].
  rewrite (H x) by now left. apply IH. intros y Hy. apply H. now right.
Qed.

(** C8: for a text that is empty or made of white space only,
    [handleSearch] hides the results panel and shows no entry, without
    writing a no-results message; for any other text that no entry of the
    index matches it shows the panel with the no-results message and no
    entry.  In both cases it returns a state: the function is total.  In
    particular the texts of length 0 and of three spaces give no entry and
    a hidden panel. *)
Theorem handleSearch_empty_query :
  forall (localeCompare : string -> string -> Z) (st : App),
    (whitespaceOnly (searchValue st) = true ->
     resultsDisplay (handleSearch localeCompare st) = none /\
     clearButton (handleSearch localeCompare st) = none /\
     resultsPanel (handleSearch localeCompare st) = resultsPanel st /\
     searchIndex (handleSearch localeCompare st) = searchIndex st /\
     visibleResults (handleSearch localeCompare st) = []) /\
    (whitespaceOnly (searchValue st) = false ->
     (forall e, In e (searchIndex st) ->
                matchesQuery (JsString.toLowerCase (JsString.trim (searchValue st))) e
                = false) ->
     resultsDisplay (handleSearch localeCompare st) = block /\
     resultsPanel (handleSearch localeCompare st) = NoResultsFound (searchValue st) /\
     visibleResults (handleSearch localeCompare st) = []) /\
    resultsDisplay (handleSearch localeCompare (withSearchValue "" st)) = none /\
    visibleResults (handleSearch localeCompare (withSearchValue "" st)) = [] /\
    resultsDisplay (handleSearch localeCompare (withSearchValue "   " st)) = none /\
    visibleResults (handleSearch localeCompare (withSearchValue "   " st)) = [].
Proof.
  intros lc st. repeat apply conj; try reflexivity.
  - intros Hws. apply query_empty_iff in Hws.
    unfold handleSearch, visibleResults. rewrite Hws. simpl.
    repeat apply conj; reflexivity.
  - intros Hws Hnone.
    assert (Hq : JsString.toLowerCase (JsString.trim (searchValue st)) <> "").
    { intros E. apply query_empty_iff in E. congruence. }
    unfold handleSearch, visibleResults, searchResults.
    rewrite (filter_nothing _ _ _ Hnone).
    destruct (JsString.toLowerCase (JsString.trim (searchValue st)));
      [congruence|]. simpl. repeat apply conj; reflexivity.
Qed.

Lemma handleSearch_empty_query_witness :
  visibleResults
    (handleSearch codeUnitCompare
       (withSearchValue "  "
          (loadedApp london [plainBorough "Camden" (JNum 4) (JNum 1200)]))) = [] /\
  resultsPanel
    (handleSearch codeUnitCompare
       (withSearchValue "zzz"
          (loadedApp london [plainBorough "Camden" (JNum 4) (JNum 1200)])))
  = NoResultsFound "zzz".
Proof.
  split.
  - apply (proj1 (handleSearch_empty_query codeUnitCompare
                    (withSearchValue "  "
                       (loadedApp london [plainBorough "Camden" (JNum 4) (JNum 1200)])))).
    reflexivity.
  - apply (proj1 (proj2 (handleSearch_empty_query codeUnitCompare
                    (withSearchValue "zzz"
                       (loadedApp london [plainBorough "Camden" (JNum 4) (JNum 1200)]))))).
    + reflexivity.
    + intros e [<- | []]. reflexivity.
Defined.

(** ** Sorting *)

Section SortFacts.
Context {A : Type}.
Variable cmp : A -> A -> Z.

Lemma in_insert :
  forall (x y : A) l, In y (JsArray.insert cmp x l) <-> y = x \/ In y l.
Proof.
  induction l as [|z l IH]; simpl.
  - intuition.
  - destruct (cmp x z <=? 0); simpl; rewrite ?IH; intuition.
Qed.

Lemma in_sort :
  forall (y : A) l, In y (JsArray.sort cmp l) <-> In y l.
Proof.
  induction l as [|x l IH]; simpl; [reflexivity|].
  rewrite in_insert, IH. intuition.
Qed.

Lemma length_insert :
  forall (x : A) l, List.length (JsArray.insert cmp x l) = S (List.length l).
Proof.
  induction l as [|z l IH]; simpl; [reflexivity|].
  destruct (cmp x z <=? 0); simpl; auto.
Qed.

Lemma length_sort :
  forall l : list A, List.length (JsArray.sort cmp l) = List.length l.
Proof.
  induction l as [|x l IH]; simpl; [reflexivity|].
  rewrite length_insert. auto.
Qed.

Hypothesis cmp_consistent : consistentComparator cmp.

Lemma insert_sorted :
  forall (x : A) l,
    StronglySorted (fun a b => cmp a b <= 0) l ->
    StronglySorted (fun a b => cmp a b <= 0) (JsArray.insert cmp x l).
Proof.
  destruct cmp_consistent as [Hflip Htrans].
  induction l as [|y l IH]; simpl; intros Hs.
  - constructor; constructor.
  - inversion Hs as [|? ? Hl Hy]; subst.
    destruct (cmp x y <=? 0) eqn:E.
    + apply Z.leb_le in E. constructor; [assumption|].
      constructor; [assumption|].
      rewrite Forall_forall in *. intros z Hz. eapply Htrans; eauto.
    + apply Z.leb_gt in E. constructor; [auto|].
      rewrite Forall_forall in *. intros z Hz.
      apply in_insert in Hz as [-> | Hz]; auto.
Qed.

Lemma sort_sorted :
  forall l : list A, StronglySorted (fun a b => cmp a b <= 0) (JsArray.sort cmp l).
Proof.
  induction l as [|x l IH]; simpl; [constructor|].
  now apply insert_sorted.
Qed.

End SortFacts.

Lemma in_firstn :
  forall (A : Type) (n : nat) (l : list A) (x : A),
    In x (firstn n l) -> In x l.
Proof.
  induction n as [|n IH]; intros [|y l] x H; simpl in *; try contradiction.
  destruct H as [-> | H]; auto.
Qed.

Lemma firstn_sorted :
  forall (A : Type) (R : A -> A -> Prop) (n : nat) (l : list A),
    StronglySorted R l -> StronglySorted R (firstn n l).
Proof.
  intros A R n l Hs. revert n.
  induction Hs as [|x l Hs IH Hx]; intros [|n]; simpl; try constructor.
  - apply IH.
  - rewrite Forall_forall in *. intros y Hy. apply Hx.
    eapply in_firstn; eassumption.
Qed.

Lemma sorted_nth_error :
  forall (A : Type) (R : A -> A -> Prop) (l : list A),
    StronglySorted R l ->
    forall i j a b, (i < j)%nat ->
                    nth_error l i = Some a -> nth_error l j = Some b -> R a b.
Proof.
  intros A R l Hs.
  induction Hs as [|x l Hs IH Hx]; intros i j a b Hij Hi Hj.
  - destruct i; discriminate.
  - destruct j as [|j]; [lia|]. simpl in Hj.
    destruct i as [|i]; simpl in Hi.
    + injection Hi as <-. rewrite Forall_forall in Hx.
      apply Hx. eapply nth_error_In; eassumption.
    + eapply IH; [|eassumption|eassumption]. lia.
Qed.

(** The first element of a list sorted by decreasing count is the first of
    the entries with the largest count. *)
Lemma sort_byCountDesc_head :
  forall (x : string * Z) (l : list (string * Z)),
  exists top rest before after,
    JsArray.sort byCountDesc (x :: l) = top :: rest /\
    (x :: l = before ++ top :: after)%list /\
    Forall (fun e => snd e < snd top) before /\
    Forall (fun e => snd e <= snd top) after.
Proof.
  intros x l. revert x.
  induction l as [|y l IH]; intros x.
  - exists x, [], [], []. simpl. repeat split; constructor.
  - destruct (IH y) as (top & rest & before & after & Hsort & Hsplit & Hb & Ha).
    change (JsArray.sort byCountDesc (x :: y :: l))
      with (JsArray.insert byCountDesc x (JsArray.sort byCountDesc (y :: l))).
    rewrite Hsort. simpl. unfold byCountDesc at 1.
    destruct (snd top - snd x <=? 0) eqn:E.
    + apply Z.leb_le in E.
      exists x, (top :: rest), [], (y :: l). repeat split; [constructor|].
      rewrite Hsplit. apply Forall_app. split.
      * eapply Forall_impl; [|exact Hb]. simpl. intros; lia.
      * constructor; [lia|]. eapply Forall_impl; [|exact Ha]. simpl. intros; lia.
    + apply Z.leb_gt in E.
      exists top, (JsArray.insert byCountDesc x rest), (x :: before), after.
      repeat split; [rewrite Hsplit; reflexivity| |assumption].
      constructor; [lia|assumption].
Qed.

(** ** Ranking of search results *)

Lemma string_compare_trans :
  forall a b c : string,
    String.compare a b <> Gt -> String.compare b c <> Gt ->
    String.compare a c <> Gt.
Proof.
  induction a as [|x a IH]; intros [|y b] [|z c]; simpl; try congruence.
  unfold Ascii.compare.
  destruct (N.compare_spec (N_of_ascii x) (N_of_ascii y));
    destruct (N.compare_spec (N_of_ascii y) (N_of_ascii z));
    destruct (N.compare_spec (N_of_ascii x) (N_of_ascii z));
    try congruence; try lia.
  apply IH.
Qed.

Lemma codeUnitCompare_le :
  forall a b, codeUnitCompare a b <= 0 <-> String.compare a b <> Gt.
Proof.
  intros a b. unfold codeUnitCompare.
  destruct (String.compare a b); split; intros H; try lia; congruence.
Qed.

Lemma codeUnitCompare_consistent : consistentComparator codeUnitCompare.
Proof.
  split.
  - intros a b H. unfold codeUnitCompare in *.
    rewrite String.compare_antisym.
    destruct (String.compare a b); simpl in *; lia.
  - intros a b c. rewrite !codeUnitCompare_le. apply string_compare_trans.
Qed.

Section Ranking.
Variable localeCompare : string -> string -> Z.
Hypothesis localeCompare_consistent : consistentComparator localeCompare.

Lemma exactRank_cases :
  forall query a, exactRank query a = 0 \/ exactRank query a = 1.
Proof.
  intros query a. unfold exactRank.
  destruct (_ || _); auto.
Qed.

Lemma typeRank_cases :
  forall a, typeRank a = 0 \/ typeRank a = 1.
Proof.
  intros a. unfold typeRank. destruct (String.eqb _ _); auto.
Qed.

Lemma compareResults_le :
  forall query a b,
    compareResults localeCompare query a b <= 0 <->
    exactRank query a < exactRank query b \/
    (exactRank query a = exactRank query b /\
     (typeRank a < typeRank b \/
      (typeRank a = typeRank b /\
       localeCompare (Entry.name a) (Entry.name b) <= 0))).
Proof.
  intros query a b. unfold compareResults.
  destruct (exactRank query a =? exactRank query b) eqn:Ee; simpl.
  - apply Z.eqb_eq in Ee.
    destruct (typeRank a =? typeRank b) eqn:Et; simpl.
    + apply Z.eqb_eq in Et. intuition lia.
    + apply Z.eqb_neq in Et. intuition lia.
  - apply Z.eqb_neq in Ee. intuition lia.
Qed.

Lemma compareResults_consistent :
  forall query, consistentComparator (compareResults localeCompare query).
Proof.
  intros query. destruct localeCompare_consistent as [Hflip Htrans]. split.
  - intros a b H. apply compareResults_le.
    assert (Hn : ~ compareResults localeCompare query a b <= 0) by lia.
    rewrite compareResults_le in Hn.
    destruct (Z_lt_le_dec 0 (localeCompare (Entry.name a) (Entry.name b)))
      as [Hpos | Hle].
    + specialize (Hflip _ _ Hpos). lia.
    + lia.
  - intros a b c. rewrite !compareResults_le. intros Hab Hbc.
    destruct (Z_lt_le_dec 0 (localeCompare (Entry.name a) (Entry.name c)))
      as [Hpos | Hle]; [|lia].
    assert (Hn : ~ (localeCompare (Entry.name a) (Entry.name b) <= 0 /\
                    localeCompare (Entry.name b) (Entry.name c) <= 0)).
    { intros [H1 H2]. specialize (Htrans _ _ _ H1 H2). lia. }
    lia.
Qed.

Lemma searchResults_sorted :
  forall query index,
    StronglySorted (fun a b => compareResults localeCompare query a b <= 0)
      (searchResults localeCompare query index).
Proof.
  intros query index. unfold searchResults, JsArray.slice0.
  apply firstn_sorted. apply sort_sorted. apply compareResults_consistent.
Qed.

End Ranking.

Lemma searchResults_in :
  forall localeCompare query index e,
    In e (searchResults localeCompare query index) ->
    In e index /\ matchesQuery query e = true.
Proof.
  intros lc query index e H. unfold searchResults, JsArray.slice0 in H.
  apply in_firstn in H. apply in_sort in H. now apply filter_In in H.
Qed.

Lemma searchResults_length :
  forall localeCompare query index,
    (List.length (searchResults localeCompare query index) <= 8)%nat.
Proof.
  intros. unfold searchResults, JsArray.slice0. apply firstn_le_length.
Qed.

Lemma map_item_render :
  forall results, List.map item (List.map renderResult results) = results.
Proof.
  induction results as [|r l IH]; simpl; congruence.
Qed.

(** What the panel shows after [handleSearch] is the list [results]. *)
Lemma visibleResults_handleSearch :
  forall localeCompare st,
    visibleResults (handleSearch localeCompare st) =
    match JsString.toLowerCase (JsString.trim (searchValue st)) with
    | EmptyString => []
    | query => searchResults localeCompare query (searchIndex st)
    end.
Proof.
  intros lc st. unfold handleSearch, visibleResults.
  destruct (JsString.toLowerCase (JsString.trim (searchValue st))) as [|c q];
    simpl; [reflexivity|].
  destruct (searchResults lc (String c q) (searchIndex st)) as [|r l] eqn:E;
    [reflexivity|].
  exact (map_item_render (r :: l)).
Qed.

(** C1: the entries [handleSearch] shows for a text are ordered by three
    levels.  Of two shown entries the earlier one is a prefix match (its
    searchName or one of its searchTerms starts with the trimmed,
    lower-cased text) whenever the later one is; when both agree on that,
    the earlier one is a borough whenever the later one is; when both agree
    on that too, the earlier name does not follow the later one under
    localeCompare.  Every shown entry is an entry of the index that
    contains the text.  For the text lon the boroughs Londonderry and West
    London are shown in this order, and for green the borough Greenwich is
    shown before the ward Green Ward. *)
Theorem handleSearch_ranking :
  forall localeCompare : string -> string -> Z,
    consistentComparator localeCompare ->
    (forall (st : App) (i j : nat) (a b : Entry.t),
        let query := JsString.toLowerCase (JsString.trim (searchValue st)) in
        let isPrefix e :=
          JsString.startsWith (Entry.searchName e) query
          || someTerm (fun term => JsString.startsWith term query) e in
        let isBorough e := String.eqb (Entry.type e) "borough" in
        (i < j)%nat ->
        nth_error (visibleResults (handleSearch localeCompare st)) i = Some a ->
        nth_error (visibleResults (handleSearch localeCompare st)) j = Some b ->
        (isPrefix b = true -> isPrefix a = true) /\
        (isPrefix a = isPrefix b -> isBorough b = true -> isBorough a = true) /\
        (isPrefix a = isPrefix b -> isBorough a = isBorough b ->
         localeCompare (Entry.name a) (Entry.name b) <= 0) /\
        In a (searchIndex st) /\ matchesQuery query a = true) /\
    List.map Entry.name
      (visibleResults
         (handleSearch localeCompare
            (withSearchValue "lon"
               (loadedApp london [plainBorough "West London" (JNum 4) (JNum 900);
                                  plainBorough "Londonderry" (JNum 6) (JNum 1200)]))))
    = ["Londonderry"; "West London"] /\
    List.map (fun e => (Entry.type e, Entry.name e))
      (visibleResults
         (handleSearch localeCompare
            (withSearchValue "green"
               (loadedApp london
                  [withWards [plainArea "Green Ward" []]
                     (plainBorough "Hackney" (JNum 5) (JNum 700));
                   plainBorough "Greenwich" (JNum 3) (JNum 400)]))))
    = [("borough", "Greenwich"); ("ward", "Green Ward")].
Proof.
  intros lc Hlc. repeat apply conj; try reflexivity.
  intros st i j a b query isPrefix isBorough Hij Ha Hb.
  rewrite visibleResults_handleSearch in Ha, Hb. fold query in Ha, Hb.
  destruct query as [|c q] eqn:Eq; [destruct i; discriminate|].
  pose proof (sorted_nth_error _ _ _ (searchResults_sorted lc Hlc (String c q) (searchIndex st))
                _ _ _ _ Hij Ha Hb) as Hle.
  simpl in Hle. apply compareResults_le in Hle.
  apply nth_error_In, searchResults_in in Ha.
  unfold exactRank, typeRank in Hle.
  fold (isPrefix a) (isPrefix b) (isBorough a) (isBorough b) in Hle.
  destruct (isPrefix a), (isPrefix b), (isBorough a), (isBorough b);
    repeat apply conj; try tauto; intros; try congruence; lia.
Qed.

Lemma handleSearch_ranking_witness :
  codeUnitCompare "Camberwell" "Camden" <= 0.
Proof.
  apply (proj1 (handleSearch_ranking codeUnitCompare codeUnitCompare_consistent)
           (withSearchValue "cam"
              (loadedApp london [plainBorough "Camden" (JNum 4) (JNum 900);
                                 plainBorough "Camberwell" (JNum 6) (JNum 1200)]))
           0%nat 1%nat
           (boroughEntry (plainBorough "Camberwell" (JNum 6) (JNum 1200)))
           (boroughEntry (plainBorough "Camden" (JNum 4) (JNum 900)))).
  - lia.
  - reflexivity.
  - reflexivity.
  - reflexivity.
  - reflexivity.
Defined.

(** ** Aggregation of crime types *)

Lemma totalOf_unseen :
  forall k raw, labelSeen k raw = false -> totalOf k raw = 0.
Proof.
  induction raw as [|[k' c] raw IH]; simpl; intros H; [reflexivity|].
  apply orb_false_iff in H as [H1 H2]. rewrite H1, IH by assumption. reflexivity.
Qed.

(** *** Exact totals *)

Lemma get_fold_tally :
  forall raw o k,
    JsObject.get k (fold_left tally raw o) =
    if labelSeen k raw then Some (countAt o k + totalOf k raw)
    else JsObject.get k o.
Proof.
  induction raw as [|[k' c] raw IH]; intros o k; [reflexivity|].
  cbn [fold_left labelSeen existsb totalOf fst]. rewrite IH.
  unfold tally. cbn [fst snd].
  fold (labelSeen k raw).
  destruct (String.eqb k k') eqn:E.
  - apply String.eqb_eq in E. subst k'.
    unfold countAt at 1. rewrite !get_set_same. simpl.
    destruct (labelSeen k raw) eqn:S.
    + f_equal. lia.
    + rewrite totalOf_unseen by assumption. f_equal. lia.
  - apply String.eqb_neq in E.
    unfold countAt at 1. rewrite !get_set_other by assumption. simpl.
    reflexivity.
Qed.

Lemma magnitude_nonneg :
  forall raw, 0 <= magnitude raw.
Proof.
  induction raw as [|e raw IH]; simpl; lia.
Qed.

Lemma magnitude_app :
  forall l1 l2, magnitude (l1 ++ l2) = magnitude l1 + magnitude l2.
Proof.
  induction l1 as [|e l1 IH]; intros l2; simpl; [reflexivity|].
  rewrite IH. lia.
Qed.

Lemma countAt_magnitude :
  forall (o : JsObject.t Z) k, Z.abs (countAt o k) <= magnitude o.
Proof.
  unfold countAt.
  induction o as [|[k' v] o IH]; intros k; simpl; [lia|].
  destruct (String.eqb k k').
  - pose proof (magnitude_nonneg o). lia.
  - specialize (IH k). lia.
Qed.

Lemma magnitude_update :
  forall (o : JsObject.t Z) k v w,
    JsObject.get k o = Some w ->
    magnitude (JsObject.update k v o) = magnitude o - Z.abs w + Z.abs v.
Proof.
  induction o as [|[k' v'] o IH]; simpl; intros k v w H; [discriminate|].
  destruct (String.eqb k k'); simpl.
  - injection H as <-. lia.
  - rewrite (IH _ _ _ H). lia.
Qed.

Lemma magnitude_insertIndex :
  forall (o : JsObject.t Z) n k v,
    magnitude (JsObject.insertIndex n k v o) = magnitude o + Z.abs v.
Proof.
  induction o as [|[k' v'] o IH]; simpl; intros n k v; [lia|].
  destruct (JsString.arrayIndex k') as [m|]; [destruct (m <? n)%N|]; simpl;
    rewrite ?IH; lia.
Qed.

Lemma magnitude_tally :
  forall (o : JsObject.t Z) e,
    magnitude (tally o e) <= magnitude o + Z.abs (snd e).
Proof.
  intros o [k c]. unfold tally, JsObject.set, countAt. cbn [fst snd].
  destruct (JsObject.get k o) as [w|] eqn:G.
  - rewrite (magnitude_update _ _ _ _ G). lia.
  - destruct (JsString.arrayIndex k).
    + rewrite magnitude_insertIndex. lia.
    + rewrite magnitude_app. simpl. lia.
Qed.

Lemma magnitude_fold_tally :
  forall raw (o : JsObject.t Z),
    magnitude (fold_left tally raw o) <= magnitude o + magnitude raw.
Proof.
  induction raw as [|e raw IH]; intros o; simpl.
  - lia.
  - pose proof (IH (tally o e)). pose proof (magnitude_tally o e). lia.
Qed.

Lemma safeCounts_magnitude :
  forall counts, magnitude counts <= MAX_SAFE_INTEGER -> safeCounts counts = true.
Proof.
  induction counts as [|e counts IH]; simpl; intros H; [reflexivity|].
  pose proof (magnitude_nonneg counts).
  apply andb_true_iff. split; [apply Z.leb_le; lia | apply IH; lia].
Qed.

(** *** Buckets that hold exact totals *)

Lemma get_finiteBuckets :
  forall (o : JsObject.t Z) k,
    JsObject.get k (finiteBuckets o) =
    match JsObject.get k o with
    | Some c => Some (Count (Finite c))
    | None => None
    end.
Proof.
  induction o as [|[k' v] o IH]; intros k; simpl; [reflexivity|].
  destruct (String.eqb k k'); [reflexivity | apply IH].
Qed.

Lemma update_finiteBuckets :
  forall (o : JsObject.t Z) k v,
    JsObject.update k (Count (Finite v)) (finiteBuckets o) =
    finiteBuckets (JsObject.update k v o).
Proof.
  induction o as [|[k' v'] o IH]; intros k v; simpl; [reflexivity|].
  destruct (String.eqb k k'); simpl; [reflexivity|].
  f_equal. apply IH.
Qed.

Lemma insertIndex_finiteBuckets :
  forall (o : JsObject.t Z) n k v,
    JsObject.insertIndex n k (Count (Finite v)) (finiteBuckets o) =
    finiteBuckets (JsObject.insertIndex n k v o).
Proof.
  induction o as [|[k' v'] o IH]; intros n k v; simpl; [reflexivity|].
  destruct (JsString.arrayIndex k') as [m|]; [destruct (m <? n)%N|]; simpl;
    try reflexivity.
  f_equal. apply IH.
Qed.

Lemma set_finiteBuckets :
  forall (o : JsObject.t Z) k v,
    JsObject.set k (Count (Finite v)) (finiteBuckets o) =
    finiteBuckets (JsObject.set k v o).
Proof.
  intros o k v. unfold JsObject.set. rewrite get_finiteBuckets.
  destruct (JsObject.get k o).
  - apply update_finiteBuckets.
  - destruct (JsString.arrayIndex k).
    + apply insertIndex_finiteBuckets.
    + unfold finiteBuckets. rewrite map_app. reflexivity.
Qed.

Lemma finiteBuckets_inj :
  forall o o' : JsObject.t Z, finiteBuckets o = finiteBuckets o' -> o = o'.
Proof.
  induction o as [|[k v] o IH]; intros [|[k' v'] o'] H; simpl in H;
    try discriminate; [reflexivity|].
  injection H as -> -> H. f_equal. now apply IH.
Qed.

(** An integer up to [MAX_SAFE_INTEGER] in magnitude is the double it
    rounds to. *)
Lemma toDouble_safe :
  forall z, Z.abs z <= MAX_SAFE_INTEGER -> toDouble z = Finite z.
Proof.
  intros z H. unfold toDouble. apply Z.leb_le in H. now rewrite H.
Qed.

(** While the label is the object's own and the sum is exact, [addCrime]
    adds the count to the label's total. *)
Lemma addCrime_finite :
  forall (o : JsObject.t Z) k c,
    JsObject.inherited k = false ->
    Z.abs (countAt o k + c) <= MAX_SAFE_INTEGER ->
    addCrime (finiteBuckets o) (k, c) = finiteBuckets (tally o (k, c)).
Proof.
  intros o k c Hk Hsafe. unfold addCrime, tally, countAt in *. cbn [fst snd].
  rewrite get_finiteBuckets.
  destruct (JsObject.get k o) as [w|].
  - cbn [numberAdd]. rewrite toDouble_safe by assumption.
    apply set_finiteBuckets.
  - rewrite Hk. cbn [numberAdd]. rewrite toDouble_safe by assumption.
    apply set_finiteBuckets.
Qed.

(** Outside these conditions a bucket is not the total of its label: a
    label that names an inherited property gets a text, [__proto__] gets no
    bucket, and a sum above [MAX_SAFE_INTEGER] is rounded. *)
Lemma addCrime_inexact :
  addCrime JsObject.empty ("constructor", 3) = [("constructor", Text [3])] /\
  addCrime [("constructor", Text [3])] ("constructor", 4) =
    [("constructor", Text [3; 4])] /\
  addCrime JsObject.empty ("__proto__", 3) = JsObject.empty /\
  addCrime [("THEFT", Count (Finite (2 ^ 53)))] ("THEFT", 1) =
    [("THEFT", Count (Finite (2 ^ 53)))].
Proof.
  repeat apply conj; reflexivity.
Qed.

Lemma fold_addCrime_finite :
  forall raw (o : JsObject.t Z),
    ownLabels raw = true ->
    magnitude o + magnitude raw <= MAX_SAFE_INTEGER ->
    fold_left addCrime raw (finiteBuckets o) =
    finiteBuckets (fold_left tally raw o).
Proof.
  induction raw as [|[k c] raw IH]; intros o Hown Hsafe; [reflexivity|].
  cbn [fold_left]. simpl in Hown, Hsafe.
  apply andb_true_iff in Hown as [Hk Hown].
  apply negb_true_iff in Hk.
  pose proof (countAt_magnitude o k) as Hc.
  pose proof (magnitude_nonneg raw) as Hr.
  pose proof (magnitude_tally o (k, c)) as Ht. cbn [snd] in Ht.
  rewrite addCrime_finite by (assumption || lia).
  apply IH; [assumption | lia].
Qed.

Lemma fold_addArea_raw :
  forall areas o,
    fold_left addArea areas o = fold_left addCrime (rawCrimes areas) o.
Proof.
  induction areas as [|a areas IH]; intros o; [reflexivity|].
  unfold rawCrimes. cbn [fold_left flat_map]. rewrite fold_left_app.
  rewrite IH. unfold addArea, JsObject.entries, JsObject.empty.
  destruct (Area.crimeTypes a); reflexivity.
Qed.

Lemma allCrimesOf_aggregated :
  forall city b,
    city = london \/ Borough.crime_breakdown b = None ->
    allCrimesOf city b =
    fold_left addCrime (rawCrimes (areasOf city b)) JsObject.empty.
Proof.
  intros city b [-> | H]; unfold allCrimesOf, areasOf.
  - apply fold_addArea_raw.
  - rewrite H. destruct (CityKey_eqb city nyc); apply fold_addArea_raw.
Qed.

(** When the areas are aggregated, no label names an inherited property
    and the magnitudes of the counts add up to at most [MAX_SAFE_INTEGER],
    the aggregate holds the exact total of every label. *)
Lemma allCrimesOf_exact :
  forall city b,
    city = london \/ Borough.crime_breakdown b = None ->
    ownLabels (rawCrimes (areasOf city b)) = true ->
    magnitude (rawCrimes (areasOf city b)) <= MAX_SAFE_INTEGER ->
    allCrimesOf city b =
    finiteBuckets (fold_left tally (rawCrimes (areasOf city b)) JsObject.empty).
Proof.
  intros city b H Hown Hsafe. rewrite allCrimesOf_aggregated by assumption.
  change (@JsObject.empty bucket) with (finiteBuckets JsObject.empty).
  apply fold_addCrime_finite; [assumption|]. simpl. lia.
Qed.

Lemma tally_safeCounts :
  forall raw,
    magnitude raw <= MAX_SAFE_INTEGER ->
    safeCounts (fold_left tally raw JsObject.empty) = true.
Proof.
  intros raw H. apply safeCounts_magnitude.
  pose proof (magnitude_fold_tally raw JsObject.empty) as Hm. simpl in Hm. lia.
Qed.

Lemma insert_finiteBuckets :
  forall (e : string * Z) (l : list (string * Z)),
    JsArray.insert byBucketDesc (fst e, Count (Finite (snd e))) (finiteBuckets l) =
    finiteBuckets (JsArray.insert byCountDesc e l).
Proof.
  intros e. induction l as [|y l IH]; simpl; [reflexivity|].
  change (byBucketDesc (fst e, Count (Finite (snd e))) (fst y, Count (Finite (snd y))))
    with (byCountDesc e y).
  destruct (byCountDesc e y <=? 0); simpl; [reflexivity|].
  f_equal. apply IH.
Qed.

Lemma sort_finiteBuckets :
  forall l : list (string * Z),
    JsArray.sort byBucketDesc (finiteBuckets l) =
    finiteBuckets (JsArray.sort byCountDesc l).
Proof.
  induction l as [|e l IH]; [reflexivity|].
  change (JsArray.sort byBucketDesc (finiteBuckets (e :: l)))
    with (JsArray.insert byBucketDesc (fst e, Count (Finite (snd e)))
            (JsArray.sort byBucketDesc (finiteBuckets l))).
  rewrite IH. apply insert_finiteBuckets.
Qed.

(** C2 (counterexample): the two labels of the example stay in two buckets
    with totals 3 and 2, no bucket has total 5, and a borough whose two
    spellings of vehicle offences add up to 6 against 4 thefts is reported
    with Theft as its top type. *)
Lemma getTopCrimeType_keeps_raw_labels :
  allCrimesOf london
    (withWards [plainArea "Abbey" [("VEHICLE OFFENCES", 3)];
                plainArea "Bow" [("VEHICLEOFFENCES", 2)]]
       (plainBorough "Camden" (JNum 4) (JNum 5)))
  = finiteBuckets [("VEHICLE OFFENCES", 3); ("VEHICLEOFFENCES", 2)] /\
  ~ In (Count (Finite 5))
       (List.map snd
          (allCrimesOf london
             (withWards [plainArea "Abbey" [("VEHICLE OFFENCES", 3)];
                         plainArea "Bow" [("VEHICLEOFFENCES", 2)]]
                (plainBorough "Camden" (JNum 4) (JNum 5))))) /\
  getTopCrimeType london
    (withWards [plainArea "Abbey" [("VEHICLE OFFENCES", 3)];
                plainArea "Bow" [("VEHICLEOFFENCES", 3); ("THEFT", 4)]]
       (plainBorough "Camden" (JNum 4) (JNum 10)))
  = "Theft".
Proof.
  repeat apply conj; try reflexivity.
  vm_compute. intros [H | [H | []]]; discriminate.
Qed.

(** C2 (amended): in London, and for a record that carries no flat
    breakdown, when no label names a property inherited from
    [Object.prototype] and the magnitudes of the counts add up to at most
    [MAX_SAFE_INTEGER], aggregation keeps one bucket per raw label: the
    bucket of a label holds the sum of the counts recorded under exactly
    that label, and a label that occurs nowhere has no bucket, that is, no
    entry of its own in the aggregate.  Only the label of the winning
    bucket is formatted.  In the example the buckets are VEHICLE OFFENCES
    with 3 and VEHICLEOFFENCES with 2, both labels format to Vehicle
    Offences, and the returned top type is Vehicle Offences, from the
    bucket with total 3. *)
Theorem getTopCrimeType_buckets_by_raw_label :
  forall (city : CityKey) (boroughData : Borough.t) (k : string),
    city = london \/ Borough.crime_breakdown boroughData = None ->
    ownLabels (rawCrimes (areasOf city boroughData)) = true ->
    magnitude (rawCrimes (areasOf city boroughData)) <= MAX_SAFE_INTEGER ->
    JsObject.get k (allCrimesOf city boroughData) =
      (if labelSeen k (rawCrimes (areasOf city boroughData))
       then Some (Count (Finite (totalOf k (rawCrimes (areasOf city boroughData)))))
       else None) /\
    allCrimesOf london
      (withWards [plainArea "Abbey" [("VEHICLE OFFENCES", 3)];
                  plainArea "Bow" [("VEHICLEOFFENCES", 2)]]
         (plainBorough "Camden" (JNum 4) (JNum 5)))
    = finiteBuckets [("VEHICLE OFFENCES", 3); ("VEHICLEOFFENCES", 2)] /\
    formatCrimeType "VEHICLE OFFENCES" = "Vehicle Offences" /\
    formatCrimeType "VEHICLEOFFENCES" = "Vehicle Offences" /\
    getTopCrimeType london
      (withWards [plainArea "Abbey" [("VEHICLE OFFENCES", 3)];
                  plainArea "Bow" [("VEHICLEOFFENCES", 2)]]
         (plainBorough "Camden" (JNum 4) (JNum 5)))
    = "Vehicle Offences".
Proof.
  intros city b k H Hown Hsafe. repeat apply conj; try reflexivity.
  rewrite allCrimesOf_exact by assumption.
  rewrite get_finiteBuckets, get_fold_tally.
  destruct (labelSeen k (rawCrimes (areasOf city b))); reflexivity.
Qed.

Lemma getTopCrimeType_buckets_by_raw_label_witness :
  JsObject.get "VEHICLE OFFENCES"
    (allCrimesOf london
       (withWards [plainArea "Abbey" [("VEHICLE OFFENCES", 3)];
                   plainArea "Bow" [("VEHICLEOFFENCES", 2); ("VEHICLE OFFENCES", 4)]]
          (plainBorough "Camden" (JNum 4) (JNum 9))))
  = Some (Count (Finite 7)).
Proof.
  apply (getTopCrimeType_buckets_by_raw_label london
           (withWards [plainArea "Abbey" [("VEHICLE OFFENCES", 3)];
                       plainArea "Bow" [("VEHICLEOFFENCES", 2); ("VEHICLE OFFENCES", 4)]]
              (plainBorough "Camden" (JNum 4) (JNum 9)))
           "VEHICLE OFFENCES").
  - left. reflexivity.
  - reflexivity.
  - vm_compute. discriminate.
Defined.

(** *** Enumeration order of the aggregate *)

Lemma get_none_keys :
  forall (o : JsObject.t Z) k,
    existsb (String.eqb k) (JsObject.keys o) =
    match JsObject.get k o with Some _ => true | None => false end.
Proof.
  induction o as [|[k' v] o IH]; simpl; intros k; [reflexivity|].
  destruct (String.eqb k k'); simpl; auto.
Qed.

Lemma keys_tally :
  forall o k c,
    JsString.arrayIndex k = None ->
    JsObject.keys (tally o (k, c)) = seeLabel (JsObject.keys o) k.
Proof.
  intros o k c Hk. unfold tally, JsObject.set, seeLabel. cbn [fst snd].
  rewrite get_none_keys.
  destruct (JsObject.get k o).
  - apply keys_update.
  - rewrite Hk. unfold JsObject.keys. rewrite map_app. reflexivity.
Qed.

Lemma keys_fold_tally :
  forall raw o,
    (forall k, In k (List.map fst raw) -> JsString.arrayIndex k = None) ->
    JsObject.keys (fold_left tally raw o) =
    fold_left seeLabel (List.map fst raw) (JsObject.keys o).
Proof.
  induction raw as [|[k c] raw IH]; intros o H; [reflexivity|].
  cbn [fold_left List.map fst]. rewrite IH.
  - rewrite keys_tally; [reflexivity|]. apply H. now left.
  - intros k' Hk'. apply H. now right.
Qed.

Lemma in_seeLabel :
  forall seen k x, In x (seeLabel seen k) <-> In x seen \/ x = k.
Proof.
  intros seen k x. unfold seeLabel.
  destruct (existsb (String.eqb k) seen) eqn:E.
  - split; [auto|]. intros [H | ->]; [assumption|].
    apply existsb_exists in E as (y & Hy & Ey).
    apply String.eqb_eq in Ey. now subst.
  - rewrite in_app_iff. simpl. intuition.
Qed.

Lemma NoDup_seeLabel :
  forall seen k, NoDup seen -> NoDup (seeLabel seen k).
Proof.
  intros seen k H. unfold seeLabel.
  destruct (existsb (String.eqb k) seen) eqn:E; [assumption|].
  apply NoDup_app; [assumption | repeat constructor; intros [] |].
  intros x Hx [<- | []].
  assert (existsb (String.eqb k) seen = true); [|congruence].
  apply existsb_exists. exists k. split; [assumption | apply String.eqb_refl].
Qed.

Lemma fold_seeLabel_facts :
  forall labels seen,
    NoDup seen ->
    NoDup (fold_left seeLabel labels seen) /\
    (forall x, In x (fold_left seeLabel labels seen) <-> In x seen \/ In x labels).
Proof.
  induction labels as [|k labels IH]; intros seen H; simpl.
  - split; [assumption | intuition].
  - destruct (IH (seeLabel seen k) (NoDup_seeLabel _ k H)) as [Hn Hin].
    split; [assumption|]. intros x. rewrite Hin, in_seeLabel. intuition.
Qed.

Lemma entries_by_keys :
  forall o : JsObject.t Z,
    NoDup (JsObject.keys o) ->
    o = List.map (fun k => (k, countAt o k)) (JsObject.keys o).
Proof.
  induction o as [|[k v] o IH]; simpl; intros H; [reflexivity|].
  inversion H as [|? ? Hnotin Hnodup]; subst.
  unfold countAt at 1. simpl. rewrite String.eqb_refl. f_equal.
  rewrite IH at 1 by assumption.
  apply map_ext_in. intros k' Hk'. unfold countAt. simpl.
  destruct (String.eqb k' k) eqn:E; [|reflexivity].
  apply String.eqb_eq in E. subst. contradiction.
Qed.

Lemma labelSeen_in :
  forall k raw, In k (List.map fst raw) -> labelSeen k raw = true.
Proof.
  intros k raw H. apply in_map_iff in H as ([k' c] & <- & Hin).
  apply existsb_exists. exists (k', c). split; [assumption|].
  apply String.eqb_refl.
Qed.

(** With labels that are not array indices, the table of exact totals
    lists the labels in first-seen order, each with its total. *)
Lemma fold_tally_firstSeen :
  forall raw,
    (forall k, In k (List.map fst raw) -> JsString.arrayIndex k = None) ->
    fold_left tally raw JsObject.empty =
    List.map (fun k => (k, totalOf k raw)) (firstSeen (List.map fst raw)).
Proof.
  intros raw H.
  pose proof (keys_fold_tally raw JsObject.empty H) as Hkeys.
  change (JsObject.keys JsObject.empty) with (@nil string) in Hkeys.
  fold (firstSeen (List.map fst raw)) in Hkeys.
  destruct (fold_seeLabel_facts (List.map fst raw) [] (NoDup_nil _)) as [Hn Hin].
  fold (firstSeen (List.map fst raw)) in Hn, Hin.
  rewrite (entries_by_keys (fold_left tally raw JsObject.empty))
    by (rewrite Hkeys; assumption).
  rewrite Hkeys. apply map_ext_in. intros k Hk.
  apply Hin in Hk as [[] | Hk].
  unfold countAt. rewrite get_fold_tally, (labelSeen_in _ _ Hk).
  reflexivity.
Qed.

(** C9 (counterexample): the first area reports 5 under THEFT, the second 5
    under the label 7; the two tie, THEFT is seen first, yet the label 7
    enumerates first in the aggregate and is returned. *)
Lemma getTopCrimeType_tie_not_first_seen :
  rawCrimes
    (areasOf london
       (withWards [plainArea "Abbey" [("THEFT", 5)]; plainArea "Bow" [("7", 5)]]
          (plainBorough "Camden" (JNum 4) (JNum 10))))
  = [("THEFT", 5); ("7", 5)] /\
  allCrimesOf london
    (withWards [plainArea "Abbey" [("THEFT", 5)]; plainArea "Bow" [("7", 5)]]
       (plainBorough "Camden" (JNum 4) (JNum 10)))
  = finiteBuckets [("7", 5); ("THEFT", 5)] /\
  getTopCrimeType london
    (withWards [plainArea "Abbey" [("THEFT", 5)]; plainArea "Bow" [("7", 5)]]
       (plainBorough "Camden" (JNum 4) (JNum 10)))
  = "7" /\
  formatCrimeType "THEFT" = "Theft".
Proof.
  repeat apply conj; reflexivity.
Qed.

(** C9 (amended): [getTopCrimeType] returns N/A when the aggregate has no
    entry, in particular when the areas are read (in London, or without a
    flat breakdown) and report no crime type.  When every bucket of the
    aggregate holds an integer of at most [MAX_SAFE_INTEGER] in magnitude,
    it returns the formatted label of the entry with the highest count, and
    among entries with that count the first in the enumeration order of the
    aggregate.  The buckets are the counts of the flat breakdown in New
    York, which is ranked as it is; and for aggregated areas whose labels
    name no property inherited from [Object.prototype] and whose counts add
    up, in magnitude, to at most [MAX_SAFE_INTEGER], each bucket holds the
    total of its label, which is such an integer.
    When, moreover, no label is an array index, the enumeration order is
    the order in which the labels are first seen while the areas are
    read. *)
Theorem getTopCrimeType_top :
  forall (city : CityKey) (boroughData : Borough.t),
    (allCrimesOf city boroughData = [] ->
     getTopCrimeType city boroughData = "N/A") /\
    (city = london \/ Borough.crime_breakdown boroughData = None ->
     rawCrimes (areasOf city boroughData) = [] ->
     getTopCrimeType city boroughData = "N/A") /\
    (forall counts : JsObject.t Z,
        allCrimesOf city boroughData = finiteBuckets counts ->
        safeCounts counts = true ->
        counts <> [] ->
        exists top before after,
          (counts = before ++ top :: after)%list /\
          Forall (fun e => snd e < snd top) before /\
          Forall (fun e => snd e <= snd top) after /\
          getTopCrimeType city boroughData = formatCrimeType (fst top)) /\
    (forall breakdown : JsObject.t Z,
        city = nyc ->
        Borough.crime_breakdown boroughData = Some breakdown ->
        allCrimesOf city boroughData = finiteBuckets breakdown) /\
    (city = london \/ Borough.crime_breakdown boroughData = None ->
     ownLabels (rawCrimes (areasOf city boroughData)) = true ->
     magnitude (rawCrimes (areasOf city boroughData)) <= MAX_SAFE_INTEGER ->
     exists counts : JsObject.t Z,
       allCrimesOf city boroughData = finiteBuckets counts /\
       safeCounts counts = true /\
       (forall k, JsObject.get k counts =
                  if labelSeen k (rawCrimes (areasOf city boroughData))
                  then Some (totalOf k (rawCrimes (areasOf city boroughData)))
                  else None) /\
       ((forall k, In k (List.map fst (rawCrimes (areasOf city boroughData))) ->
                   JsString.arrayIndex k = None) ->
        counts =
        List.map (fun k => (k, totalOf k (rawCrimes (areasOf city boroughData))))
          (firstSeen (List.map fst (rawCrimes (areasOf city boroughData)))))).
Proof.
  intros city b. repeat apply conj.
  - intros H. unfold getTopCrimeType. rewrite H. reflexivity.
  - intros Hb Hraw. unfold getTopCrimeType.
    rewrite allCrimesOf_aggregated, Hraw by assumption. reflexivity.
  - intros counts Hcounts _ Hne. unfold getTopCrimeType, JsObject.entries.
    rewrite Hcounts, sort_finiteBuckets.
    destruct counts as [|x l]; [congruence|].
    destruct (sort_byCountDesc_head x l)
      as (top & rest & before & after & Hsort & Hsplit & Hb & Ha).
    rewrite Hsort. exists top, before, after. auto.
  - intros breakdown -> Hflat. unfold allCrimesOf. rewrite Hflat. reflexivity.
  - intros Hb Hown Hsafe.
    exists (fold_left tally (rawCrimes (areasOf city b)) JsObject.empty).
    split; [now apply allCrimesOf_exact|].
    split; [now apply tally_safeCounts|]. split.
    + intros k. rewrite get_fold_tally.
      destruct (labelSeen k (rawCrimes (areasOf city b))); reflexivity.
    + intros Hplain. now apply fold_tally_firstSeen.
Qed.

Lemma getTopCrimeType_top_witness :
  getTopCrimeType london (plainBorough "Camden" (JNum 4) (JNum 10)) = "N/A" /\
  getTopCrimeType london
    (withWards [] (plainBorough "Camden" (JNum 4) (JNum 10))) = "N/A" /\
  (exists top before after,
      ([("THEFT", 5); ("ARSON", 3); ("BURGLARY", 5)] = before ++ top :: after)%list /\
      Forall (fun e => snd e < snd top) before /\
      Forall (fun e => snd e <= snd top) after /\
      getTopCrimeType london
        (withWards [plainArea "Abbey" [("THEFT", 5); ("ARSON", 1)];
                    plainArea "Bow" [("BURGLARY", 5); ("ARSON", 2)]]
           (plainBorough "Camden" (JNum 4) (JNum 13)))
      = formatCrimeType (fst top)) /\
  allCrimesOf nyc
    {| Borough.name := "Bronx";
       Borough.score := JUndefined;
       Borough.safety_score := JNum 6;
       Borough.totalCrimes := JUndefined;
       Borough.total_crimes := JNum 9;
       Borough.safety_level := Some "Moderate";
       Borough.crime_breakdown := Some [("ASSAULT", 4); ("THEFT", 5)];
       Borough.wards := None;
       Borough.precincts := None |}
  = finiteBuckets [("ASSAULT", 4); ("THEFT", 5)] /\
  exists counts : JsObject.t Z,
    allCrimesOf london
      (withWards [plainArea "Abbey" [("THEFT", 5); ("ARSON", 1)];
                  plainArea "Bow" [("BURGLARY", 5); ("ARSON", 2)]]
         (plainBorough "Camden" (JNum 4) (JNum 13)))
    = finiteBuckets counts /\
    counts = [("THEFT", 5); ("ARSON", 3); ("BURGLARY", 5)].
Proof.
  repeat apply conj.
  - apply (proj1 (getTopCrimeType_top london
                    (plainBorough "Camden" (JNum 4) (JNum 10)))).
    reflexivity.
  - apply (proj1 (proj2 (getTopCrimeType_top london
                    (withWards [] (plainBorough "Camden" (JNum 4) (JNum 10)))))).
    + left. reflexivity.
    + reflexivity.
  - apply (proj1 (proj2 (proj2 (getTopCrimeType_top london
             (withWards [plainArea "Abbey" [("THEFT", 5); ("ARSON", 1)];
                         plainArea "Bow" [("BURGLARY", 5); ("ARSON", 2)]]
                (plainBorough "Camden" (JNum 4) (JNum 13))))))
             [("THEFT", 5); ("ARSON", 3); ("BURGLARY", 5)]).
    + reflexivity.
    + reflexivity.
    + discriminate.
  - apply (proj1 (proj2 (proj2 (proj2 (getTopCrimeType_top nyc
             {| Borough.name := "Bronx";
                Borough.score := JUndefined;
                Borough.safety_score := JNum 6;
                Borough.totalCrimes := JUndefined;
                Borough.total_crimes := JNum 9;
                Borough.safety_level := Some "Moderate";
                Borough.crime_breakdown := Some [("ASSAULT", 4); ("THEFT", 5)];
                Borough.wards := None;
                Borough.precincts := None |}))))
             [("ASSAULT", 4); ("THEFT", 5)]); reflexivity.
  - destruct (proj2 (proj2 (proj2 (proj2 (getTopCrimeType_top london
                (withWards [plainArea "Abbey" [("THEFT", 5); ("ARSON", 1)];
                            plainArea "Bow" [("BURGLARY", 5); ("ARSON", 2)]]
                   (plainBorough "Camden" (JNum 4) (JNum 13)))))))
                (or_introl eq_refl) eq_refl
                ltac:(vm_compute; discriminate))
      as (counts & Hcounts & _ & _ & Horder).
    exists counts. split; [exact Hcounts|].
    apply Horder. intros k H. simpl in H.
    repeat (destruct H as [<- | H]; [reflexivity|]). contradiction.
Defined.

(** ** Index build *)

Lemma fold_pushArea :
  forall city b areas index,
    fold_left (pushArea city b) areas index =
    (index ++
     flat_map (fun area => match Area.name area with
                           | None | Some EmptyString => []
                           | Some areaName => [areaEntry city b area areaName]
                           end) areas)%list.
Proof.
  induction areas as [|a areas IH]; intros index; simpl.
  - now rewrite app_nil_r.
  - rewrite IH. unfold pushArea, JsArray.push.
    destruct (Area.name a) as [[|c n]|]; rewrite <- ?app_assoc; reflexivity.
Qed.

Lemma pushBorough_block :
  forall city index kv,
    pushBorough city index kv = (index ++ boroughBlock city (snd kv))%list.
Proof.
  intros city index [k b]. unfold pushBorough, boroughBlock, JsArray.push. simpl.
  destruct (Borough.name b) as [|c n]; [now rewrite app_nil_r|].
  destruct (Borough.areasAt (areaType (cityConfigs city)) b) as [areas|].
  - rewrite fold_pushArea, <- app_assoc. reflexivity.
  - reflexivity.
Qed.

Lemma fold_pushBorough :
  forall city entries index,
    fold_left (pushBorough city) entries index =
    (index ++ flat_map (fun kv => boroughBlock city (snd kv)) entries)%list.
Proof.
  induction entries as [|kv entries IH]; intros index; simpl.
  - now rewrite app_nil_r.
  - rewrite IH, pushBorough_block, <- app_assoc. reflexivity.
Qed.

(** The index is the sequence of the boroughs' blocks, in the order in which
    [crimeData] enumerates the boroughs. *)
Lemma buildSearchIndex_blocks :
  forall st,
    searchIndex (buildSearchIndex st) =
    flat_map (fun kv => boroughBlock (currentCity st) (snd kv))
      (JsObject.entries (crimeData st)).
Proof.
  intros st. unfold buildSearchIndex, JsObject.keys, JsObject.entries. simpl.
  destruct (crimeData st) as [|kv d] eqn:E; [reflexivity|].
  cbn [List.map searchIndex withSearchIndex]. apply fold_pushBorough.
Qed.

Lemma buildSearchIndex_frame :
  forall st,
    currentCity (buildSearchIndex st) = currentCity st /\
    crimeData (buildSearchIndex st) = crimeData st.
Proof.
  intros st. unfold buildSearchIndex.
  destruct (JsObject.keys (crimeData (withSearchIndex [] st))); split; reflexivity.
Qed.

Lemma areaEntry_not_borough :
  forall city b area areaName,
    String.eqb (Entry.type (areaEntry city b area areaName)) "borough" = false.
Proof.
  intros [] b area areaName; reflexivity.
Qed.

Lemma area_entries_not_borough :
  forall city b areas,
    filter (fun e => String.eqb (Entry.type e) "borough")
      (flat_map (fun area => match Area.name area with
                             | None | Some EmptyString => []
                             | Some areaName => [areaEntry city b area areaName]
                             end) areas) = [].
Proof.
  induction areas as [|a areas IH]; [reflexivity|].
  cbn [flat_map]. rewrite filter_app, IH, app_nil_r.
  destruct (Area.name a) as [[|c n]|]; try reflexivity.
  cbn [filter]. rewrite areaEntry_not_borough. reflexivity.
Qed.

Lemma boroughBlock_boroughs :
  forall city b,
    List.map Entry.data
      (filter (fun e => String.eqb (Entry.type e) "borough") (boroughBlock city b))
    = if boroughNamed b then [b] else [].
Proof.
  intros city b. unfold boroughBlock, boroughNamed.
  destruct (Borough.name b) as [|c n]; [reflexivity|].
  cbn [filter].
  change (String.eqb (Entry.type (boroughEntry b)) "borough") with true.
  cbv iota. rewrite area_entries_not_borough. reflexivity.
Qed.

Lemma boroughBlock_areas :
  forall city b,
    boroughNamed b = true ->
    List.map Entry.areaData (boroughBlock city b) =
    None :: List.map Some (filter areaNamed (areasOf city b)).
Proof.
  intros city b H. unfold boroughBlock, boroughNamed, areasOf in *.
  destruct (Borough.name b) as [|c n]; [discriminate|].
  cbn [List.map boroughEntry Entry.areaData]. f_equal.
  induction (match Borough.areasAt (areaType (cityConfigs city)) b with
             | Some areas => areas
             | None => []
             end) as [|a areas IH]; [reflexivity|].
  cbn [flat_map filter]. rewrite map_app, IH. unfold areaNamed at 2.
  destruct (Area.name a) as [[|c' n']|]; reflexivity.
Qed.

Lemma blocks_boroughs :
  forall city (entries : list (string * Borough.t)),
    List.map Entry.data
      (filter (fun e => String.eqb (Entry.type e) "borough")
         (flat_map (fun kv => boroughBlock city (snd kv)) entries))
    = filter boroughNamed (List.map snd entries).
Proof.
  induction entries as [|kv entries IH]; [reflexivity|].
  cbn [flat_map List.map filter].
  rewrite filter_app, map_app, boroughBlock_boroughs, IH.
  destruct (boroughNamed (snd kv)); reflexivity.
Qed.

(** C10: the index that [buildSearchIndex] leaves depends on the current
    city and on [crimeData] only: two builds from the same city and data
    give the same sequence of entries whatever index was there before, and
    building again changes nothing.  The sequence consists of one block per
    named borough, in the order in which the data set enumerates the
    boroughs; a block is the borough's entry followed by the entries of its
    named areas in the order of its area list. *)
Theorem buildSearchIndex_deterministic :
  forall st1 st2 : App,
    currentCity st1 = currentCity st2 ->
    crimeData st1 = crimeData st2 ->
    searchIndex (buildSearchIndex st1) = searchIndex (buildSearchIndex st2) /\
    searchIndex (buildSearchIndex (buildSearchIndex st1)) =
      searchIndex (buildSearchIndex st1) /\
    crimeData (buildSearchIndex st1) = crimeData st1 /\
    searchIndex (buildSearchIndex st1) =
      flat_map (fun kv => boroughBlock (currentCity st1) (snd kv))
        (JsObject.entries (crimeData st1)) /\
    List.map Entry.data
      (filter (fun e => String.eqb (Entry.type e) "borough")
         (searchIndex (buildSearchIndex st1)))
      = filter boroughNamed (List.map snd (JsObject.entries (crimeData st1))) /\
    (forall b, boroughNamed b = true ->
               List.map Entry.areaData (boroughBlock (currentCity st1) b) =
               None :: List.map Some (filter areaNamed (areasOf (currentCity st1) b))).
Proof.
  intros st1 st2 Hcity Hdata.
  destruct (buildSearchIndex_frame st1) as [Hc Hd].
  repeat apply conj.
  - rewrite !buildSearchIndex_blocks, Hcity, Hdata. reflexivity.
  - rewrite (buildSearchIndex_blocks (buildSearchIndex st1)), Hc, Hd.
    symmetry. apply buildSearchIndex_blocks.
  - exact Hd.
  - apply buildSearchIndex_blocks.
  - rewrite buildSearchIndex_blocks. apply blocks_boroughs.
  - intros b Hb. now apply boroughBlock_areas.
Qed.

Lemma buildSearchIndex_deterministic_witness :
  searchIndex
    (buildSearchIndex
       (loadedApp london
          [withWards [plainArea "Abbey" []] (plainBorough "Camden" (JNum 4) (JNum 9))]))
  = searchIndex
      (buildSearchIndex
         (withSearchIndex [boroughEntry (plainBorough "Bronx" (JNum 7) (JNum 3))]
            (loadedApp london
               [withWards [plainArea "Abbey" []]
                  (plainBorough "Camden" (JNum 4) (JNum 9))]))).
Proof.
  apply (buildSearchIndex_deterministic
           (loadedApp london
              [withWards [plainArea "Abbey" []] (plainBorough "Camden" (JNum 4) (JNum 9))])
           (withSearchIndex [boroughEntry (plainBorough "Bronx" (JNum 7) (JNum 3))]
              (loadedApp london
                 [withWards [plainArea "Abbey" []]
                    (plainBorough "Camden" (JNum 4) (JNum 9))])));
    reflexivity.
Defined.

(** ** Alias terms of areas *)

Lemma searchResults_complete :
  forall localeCompare query index e,
    In e index ->
    matchesQuery query e = true ->
    (List.length (filter (matchesQuery query) index) <= 8)%nat ->
    In e (searchResults localeCompare query index).
Proof.
  intros lc query index e Hin Hm Hlen. unfold searchResults, JsArray.slice0.
  rewrite firstn_all2 by (rewrite length_sort; assumption).
  apply in_sort. apply filter_In. now split.
Qed.

Lemma in_buildSearchIndex_area :
  forall st b areas area areaName,
    In b (List.map snd (JsObject.entries (crimeData st))) ->
    boroughNamed b = true ->
    Borough.areasAt (areaType (cityConfigs (currentCity st))) b = Some areas ->
    In area areas ->
    Area.name area = Some areaName ->
    areaName <> "" ->
    In (areaEntry (currentCity st) b area areaName)
      (searchIndex (buildSearchIndex st)).
Proof.
  intros st b areas area areaName Hb Hnamed Hareas Harea Hname Hne.
  rewrite buildSearchIndex_blocks. apply in_flat_map.
  apply in_map_iff in Hb as (kv & <- & Hkv). exists kv. split; [assumption|].
  unfold boroughBlock, boroughNamed in *.
  destruct (Borough.name (snd kv)) as [|c n]; [discriminate|].
  right. rewrite Hareas. apply in_flat_map. exists area. split; [assumption|].
  rewrite Hname. destruct areaName; [congruence|]. now left.
Qed.

(** C5 (counterexample): in New York an area named precinct 75, in lower
    case, gets no alias and is not found by pct 75; in London an area named
    Ward 7 gets no alias either and is not found by pct 7; and the token of
    Precinct 75A keeps its upper-case letter in all three aliases. *)
Lemma areaSearchTerms_no_alias :
  areaSearchTerms nyc "precinct 75" = ["precinct 75"] /\
  (forall localeCompare,
      visibleResults
        (handleSearch localeCompare
           (withSearchValue "pct 75"
              (loadedApp nyc
                 [withPrecincts [plainArea "precinct 75" []]
                    (plainBorough "Brooklyn" (JNum 6) (JNum 40))]))) = []) /\
  areaSearchTerms london "Ward 7" = ["ward 7"] /\
  (forall localeCompare,
      visibleResults
        (handleSearch localeCompare
           (withSearchValue "pct 7"
              (loadedApp london
                 [withWards [plainArea "Ward 7" []]
                    (plainBorough "Camden" (JNum 4) (JNum 9))]))) = []) /\
  areaSearchTerms nyc "Precinct 75A" =
    ["precinct 75a"; "75A"; "pct 75A"; "precinct 75A"].
Proof.
  repeat apply conj; try reflexivity; intros lc; reflexivity.
Qed.

(** C5 (amended): while the current city is New York, an area whose name
    contains the text Precinct followed by a space, in exactly this
    spelling, gets three terms after its lower-cased name: the name with the
    first such text removed, that token after pct and a space, and that
    token after precinct and a space; the token keeps its case.  In London,
    or without that text in the name, the lower-cased name is the only term.
    The entry of a New York area named Precinct 75 is in the built index,
    matches the texts 75 and pct 75, and is shown for them whenever at most
    8 entries match; with one borough holding Precinct 75 and Precinct 73 it
    is the one entry shown for either text. *)
Theorem areaSearchTerms_aliases :
  forall (city : CityKey) (areaName : string),
    (city = nyc -> JsString.includes areaName "Precinct " = true ->
     areaSearchTerms city areaName =
       [JsString.toLowerCase areaName;
        JsString.replace areaName "Precinct " "";
        "pct " ++ JsString.replace areaName "Precinct " "";
        "precinct " ++ JsString.replace areaName "Precinct " ""]) /\
    (city = london \/ JsString.includes areaName "Precinct " = false ->
     areaSearchTerms city areaName = [JsString.toLowerCase areaName]) /\
    areaSearchTerms nyc "Precinct 75" = ["precinct 75"; "75"; "pct 75"; "precinct 75"] /\
    (forall localeCompare st b areas area query,
        currentCity st = nyc ->
        In b (List.map snd (JsObject.entries (crimeData st))) ->
        boroughNamed b = true ->
        Borough.precincts b = Some areas ->
        In area areas ->
        Area.name area = Some "Precinct 75" ->
        query = "75" \/ query = "pct 75" ->
        In (areaEntry nyc b area "Precinct 75") (searchIndex (buildSearchIndex st)) /\
        matchesQuery query (areaEntry nyc b area "Precinct 75") = true /\
        ((List.length (filter (matchesQuery query) (searchIndex (buildSearchIndex st)))
          <= 8)%nat ->
         In (areaEntry nyc b area "Precinct 75")
           (visibleResults
              (handleSearch localeCompare
                 (withSearchValue query (buildSearchIndex st)))))) /\
    (forall localeCompare,
        List.map Entry.name
          (visibleResults
             (handleSearch localeCompare
                (withSearchValue "75"
                   (loadedApp nyc
                      [withPrecincts [plainArea "Precinct 75" []; plainArea "Precinct 73" []]
                         (plainBorough "Brooklyn" (JNum 6) (JNum 40))]))))
        = ["Precinct 75"] /\
        List.map Entry.name
          (visibleResults
             (handleSearch localeCompare
                (withSearchValue "pct 75"
                   (loadedApp nyc
                      [withPrecincts [plainArea "Precinct 75" []; plainArea "Precinct 73" []]
                         (plainBorough "Brooklyn" (JNum 6) (JNum 40))]))))
        = ["Precinct 75"]).
Proof.
  intros city areaName. repeat apply conj; try reflexivity.
  - intros -> H. unfold areaSearchTerms. rewrite H. reflexivity.
  - intros [-> | H]; unfold areaSearchTerms; [reflexivity|].
    rewrite H, andb_false_r. reflexivity.
  - intros lc st b areas area query Hcity Hb Hnamed Hareas Harea Hname Hq.
    assert (Hin : In (areaEntry nyc b area "Precinct 75")
                    (searchIndex (buildSearchIndex st))).
    { rewrite <- Hcity.
      apply (in_buildSearchIndex_area st b areas area "Precinct 75"); auto.
      - rewrite Hcity. exact Hareas.
      - discriminate. }
    assert (Hm : matchesQuery query (areaEntry nyc b area "Precinct 75") = true).
    { destruct Hq as [-> | ->]; reflexivity. }
    repeat apply conj; [assumption | assumption |].
    intros Hlen. rewrite visibleResults_handleSearch.
    cbn [searchValue withSearchValue searchIndex].
    destruct Hq as [-> | ->]; apply searchResults_complete; assumption.
  - intros lc. split; reflexivity.
Qed.

Lemma areaSearchTerms_aliases_witness :
  areaSearchTerms nyc "Precinct 14" = ["precinct 14"; "14"; "pct 14"; "precinct 14"] /\
  areaSearchTerms london "Precinct 14" = ["precinct 14"].
Proof.
  split.
  - apply (proj1 (areaSearchTerms_aliases nyc "Precinct 14")); reflexivity.
  - apply (proj1 (proj2 (areaSearchTerms_aliases london "Precinct 14"))).
    left. reflexivity.
Defined.

(** ** City switch *)

(** After a build every entry of the index refers to a record of the data
    set the build has read. *)
Lemma buildSearchIndex_entries_current :
  forall st e,
    In e (searchIndex (buildSearchIndex st)) ->
    In (Entry.data e) (List.map snd (JsObject.entries (crimeData st))).
Proof.
  intros st e H. rewrite buildSearchIndex_blocks in H.
  apply in_flat_map in H as (kv & Hkv & He).
  assert (Hd : Entry.data e = snd kv).
  { unfold boroughBlock in He.
    destruct (Borough.name (snd kv)) as [|c n]; [contradiction|].
    destruct He as [<- | He]; [reflexivity|].
    apply in_flat_map in He as (area & _ & He).
    destruct (Area.name area) as [[|c' n']|]; try contradiction.
    destruct He as [<- | []]. reflexivity. }
  rewrite Hd. now apply in_map.
Qed.

(** C6 (failing trace): [switchCity] empties [crimeData] but leaves
    [searchIndex] as it was.  London is loaded with the borough Camden, then
    the city is switched to New York; a text typed before the new data has
    arrived, or after the load has failed, is answered from the London
    index: Camden is shown although the current city is New York and
    [crimeData] does not hold it, and selecting it finds no borough data.
    When the switch happens while the London load is still under way, the
    London records are stored into the emptied [crimeData] and Camden is
    again an entry of the index built for New York. *)
Theorem switchCity_keeps_stale_index :
  forall localeCompare : string -> string -> Z,
    (forall (cityKey : CityKey) (st : App),
        crimeData (switchCity cityKey st) = JsObject.empty /\
        searchIndex (switchCity cityKey st) = searchIndex st) /\
    let londonDocs :=
      [withWards [plainArea "Abbey" []] (plainBorough "Camden" (JNum 4) (JNum 9))] in
    let nycDocs :=
      [withPrecincts [plainArea "Precinct 75" []]
         (plainBorough "Brooklyn" (JNum 6) (JNum 40))] in
    let typedEarly :=
      run localeCompare
        [DataLoaded londonDocs; GeoLoaded; SwitchCity nyc; Input "cam"] initialApp in
    let typedAfterFailure :=
      run localeCompare
        [DataLoaded londonDocs; GeoLoaded; SwitchCity nyc; LoadFailed; Input "cam"]
        initialApp in
    let typedBeforeRebuild :=
      run localeCompare
        [DataLoaded londonDocs; GeoLoaded; SwitchCity nyc; DataLoaded nycDocs;
         Input "cam"] initialApp in
    let overlappingLoads :=
      run localeCompare
        [SwitchCity nyc; DataLoaded londonDocs; GeoLoaded; DataLoaded nycDocs;
         GeoLoaded; Input "cam"] initialApp in
    currentCity typedEarly = nyc /\
    crimeData typedEarly = [] /\
    List.map Entry.name (visibleResults typedEarly) = ["Camden"] /\
    fst (selectSearchResult "Camden" typedEarly) = BoroughDataNotFound /\
    List.map Entry.name (visibleResults typedAfterFailure) = ["Camden"] /\
    JsObject.keys (crimeData typedBeforeRebuild) = ["BROOKLYN"] /\
    List.map Entry.name (visibleResults typedBeforeRebuild) = ["Camden"] /\
    currentCity overlappingLoads = nyc /\
    List.map Entry.name (visibleResults overlappingLoads) = ["Camden"].
Proof.
  intros lc. split.
  - intros cityKey st. unfold switchCity.
    destruct (searchBox (withCurrentCity cityKey st)); split; reflexivity.
  - repeat apply conj; reflexivity.
Qed.

(* ================================================================== *)
(** * Further properties *)

(** ** Letter case and white space *)

Lemma toLowerChar_toUpperChar :
  forall c, JsString.toLowerChar (JsString.toUpperChar c) = JsString.toLowerChar c.
Proof.
  intros [[] [] [] [] [] [] [] []]; reflexivity.
Qed.

Lemma toUpperChar_toLowerChar :
  forall c, JsString.toUpperChar (JsString.toLowerChar c) = JsString.toUpperChar c.
Proof.
  intros [[] [] [] [] [] [] [] []]; reflexivity.
Qed.

Lemma toUpperChar_idem :
  forall c, JsString.toUpperChar (JsString.toUpperChar c) = JsString.toUpperChar c.
Proof.
  intros [[] [] [] [] [] [] [] []]; reflexivity.
Qed.

Lemma toLowerChar_idem :
  forall c, JsString.toLowerChar (JsString.toLowerChar c) = JsString.toLowerChar c.
Proof.
  intros [[] [] [] [] [] [] [] []]; reflexivity.
Qed.

Lemma isWhiteSpace_toUpperChar :
  forall c, JsString.isWhiteSpace (JsString.toUpperChar c) = JsString.isWhiteSpace c.
Proof.
  intros [[] [] [] [] [] [] [] []]; reflexivity.
Qed.

Lemma isWhiteSpace_toLowerChar :
  forall c, JsString.isWhiteSpace (JsString.toLowerChar c) = JsString.isWhiteSpace c.
Proof.
  intros [[] [] [] [] [] [] [] []]; reflexivity.
Qed.

Lemma map_map_string :
  forall f g s,
    JsString.map f (JsString.map g s) = JsString.map (fun c => f (g c)) s.
Proof.
  induction s as [|c s IH]; simpl; congruence.
Qed.

Lemma map_ext_string :
  forall f g, (forall c, f c = g c) ->
              forall s, JsString.map f s = JsString.map g s.
Proof.
  intros f g H. induction s as [|c s IH]; simpl; congruence.
Qed.

Lemma map_app_string :
  forall f s t, JsString.map f (s ++ t) = JsString.map f s ++ JsString.map f t.
Proof.
  induction s as [|c s IH]; simpl; intros t; congruence.
Qed.

Lemma toLowerCase_toUpperCase :
  forall s, JsString.toLowerCase (JsString.toUpperCase s) = JsString.toLowerCase s.
Proof.
  intros s. unfold JsString.toLowerCase, JsString.toUpperCase.
  rewrite map_map_string. apply map_ext_string, toLowerChar_toUpperChar.
Qed.

Lemma toUpperCase_toLowerCase :
  forall s, JsString.toUpperCase (JsString.toLowerCase s) = JsString.toUpperCase s.
Proof.
  intros s. unfold JsString.toLowerCase, JsString.toUpperCase.
  rewrite map_map_string. apply map_ext_string, toUpperChar_toLowerChar.
Qed.

Lemma toUpperCase_idem :
  forall s, JsString.toUpperCase (JsString.toUpperCase s) = JsString.toUpperCase s.
Proof.
  intros s. unfold JsString.toUpperCase.
  rewrite map_map_string. apply map_ext_string, toUpperChar_idem.
Qed.

Lemma toLowerCase_idem :
  forall s, JsString.toLowerCase (JsString.toLowerCase s) = JsString.toLowerCase s.
Proof.
  intros s. unfold JsString.toLowerCase.
  rewrite map_map_string. apply map_ext_string, toLowerChar_idem.
Qed.

Section CaseMaps.
Variable f : ascii -> ascii.
Hypothesis f_space : forall c, JsString.isWhiteSpace (f c) = JsString.isWhiteSpace c.

Lemma trimStart_map :
  forall s, JsString.trimStart (JsString.map f s) = JsString.map f (JsString.trimStart s).
Proof.
  induction s as [|c s IH]; simpl; [reflexivity|].
  rewrite f_space. destruct (JsString.isWhiteSpace c); [assumption | reflexivity].
Qed.

Lemma trimEnd_map :
  forall s, JsString.trimEnd (JsString.map f s) = JsString.map f (JsString.trimEnd s).
Proof.
  induction s as [|c s IH]; simpl; [reflexivity|].
  rewrite IH, f_space.
  destruct (JsString.trimEnd s); simpl; [|reflexivity].
  destruct (JsString.isWhiteSpace c); reflexivity.
Qed.

Lemma trim_map :
  forall s, JsString.trim (JsString.map f s) = JsString.map f (JsString.trim s).
Proof.
  intros s. unfold JsString.trim. now rewrite trimStart_map, trimEnd_map.
Qed.

Lemma removeWhiteSpace_map :
  forall s, JsString.removeWhiteSpace (JsString.map f s)
            = JsString.map f (JsString.removeWhiteSpace s).
Proof.
  induction s as [|c s IH]; simpl; [reflexivity|].
  rewrite f_space. destruct (JsString.isWhiteSpace c); simpl; congruence.
Qed.

End CaseMaps.

Lemma charAt0_map :
  forall f s, JsString.charAt0 (JsString.map f s) = JsString.map f (JsString.charAt0 s).
Proof.
  intros f [|c s]; reflexivity.
Qed.

Lemma slice1_map :
  forall f s, JsString.slice1 (JsString.map f s) = JsString.map f (JsString.slice1 s).
Proof.
  intros f [|c s]; reflexivity.
Qed.

Lemma trimEnd_whitespaceOnly :
  forall s, whitespaceOnly s = true -> JsString.trimEnd s = "".
Proof.
  induction s as [|c s IH]; simpl; intros H; [reflexivity|].
  apply andb_true_iff in H as [Hc Hs]. now rewrite IH, Hc.
Qed.

Lemma trimEnd_app_blank :
  forall s post, whitespaceOnly post = true ->
                 JsString.trimEnd (s ++ post) = JsString.trimEnd s.
Proof.
  induction s as [|c s IH]; simpl; intros post H.
  - now apply trimEnd_whitespaceOnly.
  - now rewrite IH.
Qed.

Lemma trim_padded :
  forall pre s post,
    whitespaceOnly pre = true -> whitespaceOnly post = true ->
    JsString.trim (pre ++ s ++ post) = JsString.trim s.
Proof.
  intros pre s post Hpre Hpost. unfold JsString.trim.
  induction pre as [|c pre IH]; simpl.
  - clear Hpre. induction s as [|c s IH]; simpl.
    + now rewrite trimStart_whitespaceOnly.
    + destruct (JsString.isWhiteSpace c); [assumption|].
      change (String c (s ++ post)) with (String c s ++ post).
      now apply trimEnd_app_blank.
  - simpl in Hpre. apply andb_true_iff in Hpre as [Hc Hp]. rewrite Hc. auto.
Qed.

(** ** Substrings *)

Lemma startsWith_spec :
  forall q s, JsString.startsWith s q = true <-> exists r, s = q ++ r.
Proof.
  induction q as [|c q IH]; intros s.
  - split; [intros _; now exists s | intros _; destruct s; reflexivity].
  - destruct s as [|d s]; simpl.
    + split; [discriminate | intros [r H]; discriminate].
    + rewrite andb_true_iff, IH. split.
      * intros [Hc [r ->]]. apply Ascii.eqb_eq in Hc. subst. now exists r.
      * intros [r H]. injection H as -> ->. split; [apply Ascii.eqb_refl | now exists r].
Qed.

Lemma includes_unfold :
  forall s q,
    JsString.includes s q =
    JsString.startsWith s q ||
    match s with
    | EmptyString => false
    | String _ s' => JsString.includes s' q
    end.
Proof.
  intros [|c s] q; reflexivity.
Qed.

Lemma includes_spec :
  forall s q, JsString.includes s q = true <-> exists p r, s = p ++ q ++ r.
Proof.
  induction s as [|c s IH]; intros q; rewrite includes_unfold, orb_true_iff.
  - rewrite startsWith_spec. split.
    + intros [[r H] | H]; [|discriminate]. now exists "", r.
    + intros (p & r & H). left. destruct p; [|discriminate]. now exists r.
  - rewrite startsWith_spec, IH. split.
    + intros [[r H] | (p & r & H)].
      * now exists "", r.
      * exists (String c p), r. simpl. now rewrite H.
    + intros (p & r & H). destruct p as [|d p].
      * left. now exists r.
      * right. simpl in H. injection H as -> ->. now exists p, r.
Qed.

Lemma append_assoc_string :
  forall a b c : string, (a ++ b) ++ c = a ++ b ++ c.
Proof.
  induction a as [|x a IH]; simpl; intros b c; congruence.
Qed.

Lemma includes_trans :
  forall s q q',
    JsString.includes s q = true -> JsString.includes q q' = true ->
    JsString.includes s q' = true.
Proof.
  intros s q q' H1 H2.
  apply includes_spec in H1 as (p & r & ->).
  apply includes_spec in H2 as (p' & r' & ->).
  apply includes_spec. exists (p ++ p'), (r' ++ r).
  now rewrite !append_assoc_string.
Qed.

Lemma includes_map :
  forall f s q,
    JsString.includes s q = true ->
    JsString.includes (JsString.map f s) (JsString.map f q) = true.
Proof.
  intros f s q H. apply includes_spec in H as (p & r & ->).
  apply includes_spec. exists (JsString.map f p), (JsString.map f r).
  now rewrite !map_app_string.
Qed.

Lemma trimStart_suffix :
  forall s, exists p, s = p ++ JsString.trimStart s.
Proof.
  induction s as [|c s [p IH]]; simpl.
  - now exists "".
  - destruct (JsString.isWhiteSpace c).
    + exists (String c p). simpl. now rewrite <- IH.
    + now exists "".
Qed.

Lemma trimEnd_prefix :
  forall s, exists r, s = JsString.trimEnd s ++ r.
Proof.
  induction s as [|c s [r IH]]; simpl.
  - now exists "".
  - destruct (JsString.trimEnd s) as [|d t] eqn:E.
    + destruct (JsString.isWhiteSpace c).
      * now exists (String c s).
      * exists s. reflexivity.
    + exists r. simpl. simpl in IH. now rewrite <- IH.
Qed.

Lemma includes_trim :
  forall s, JsString.includes s (JsString.trim s) = true.
Proof.
  intros s. apply includes_spec. unfold JsString.trim.
  destruct (trimStart_suffix s) as [p Hp].
  destruct (trimEnd_prefix (JsString.trimStart s)) as [r Hr].
  exists p, r. now rewrite <- Hr.
Qed.

(** ** Colours of scores *)

(** X1: in either colour mode, two scores (missing and null ones included)
    get the same colour from [getSafetyColor] exactly when they get the
    same level from [getSafetyLevel]. *)
Theorem getSafetyColor_matches_level :
  forall (isColorblindMode : bool) (s1 s2 : jsval),
    getSafetyColor isColorblindMode s1 = getSafetyColor isColorblindMode s2 <->
    getSafetyLevel s1 = getSafetyLevel s2.
Proof.
  intros m s1 s2. unfold getSafetyColor, getSafetyLevel.
  destruct m;
    destruct (jsLe s1 3), (jsLe s1 5), (jsLe s1 7), (jsLe s1 8),
             (jsLe s2 3), (jsLe s2 5), (jsLe s2 7), (jsLe s2 8);
    split; intros H; try reflexivity; discriminate H.
Qed.

(** X2: the colour [getSafetyColor] returns is always one of the ten
    colours of the palette of that mode, the palette that the class and the
    legend both use. *)
Theorem getSafetyColor_in_palette :
  forall (isColorblindMode : bool) (score : jsval),
    In (getSafetyColor isColorblindMode score) (getCurrentPalette isColorblindMode) /\
    legendPalette isColorblindMode = getCurrentPalette isColorblindMode /\
    List.length (getCurrentPalette isColorblindMode) = 10%nat.
Proof.
  intros m score. repeat apply conj; try (destruct m; reflexivity).
  unfold getSafetyColor.
  destruct m; destruct (jsLe score 3), (jsLe score 5), (jsLe score 7), (jsLe score 8);
    simpl; tauto.
Qed.

(** X3: the legend has a swatch in the colour of a score exactly when the
    level of the score is neither Moderate nor Caution: the colours that
    [getSafetyColor] gives to these two levels are not among the six
    swatches that [updateLegendColors] draws. *)
Theorem getSafetyColor_in_legend :
  forall (isColorblindMode : bool) (score : jsval),
    In (getSafetyColor isColorblindMode score)
       (List.map fst (legendRows isColorblindMode)) <->
    getSafetyLevel score <> "Moderate" /\ getSafetyLevel score <> "Caution".
Proof.
  intros m score. unfold getSafetyColor, getSafetyLevel.
  destruct m; destruct (jsLe score 3), (jsLe score 5), (jsLe score 7), (jsLe score 8);
    cbn; split;
    try (intros _; split; discriminate);
    try (intros _; tauto);
    try (intros [H1 H2]; congruence);
    intros H; repeat (destruct H as [H | H]; [discriminate H|]); contradiction.
Qed.

(** X4: with a palette of ten non-empty colours, the map fills a feature
    whose score (the property Score, or safety_score when Score is missing
    or 0) is an integer from 1 to 10 with the palette colour of that slot,
    and fills it with the grey #dee2e6 when the score is missing, null, or
    outside 1 to 10. *)
Theorem fillColor_bounds :
  forall (palette : list string) (Score safety_score : jsval),
    List.length palette = 10%nat ->
    Forall (fun c => c <> "") palette ->
    (forall n, jsOr Score safety_score = JNum n -> 1 <= n <= 10 ->
               fillColor palette Score safety_score = nth (Z.to_nat (n - 1)) palette "" /\
               In (fillColor palette Score safety_score) palette) /\
    (forall n, jsOr Score safety_score = JNum n -> n < 1 \/ 10 < n ->
               fillColor palette Score safety_score = "#dee2e6") /\
    (jsOr Score safety_score = JUndefined \/ jsOr Score safety_score = JNull ->
     fillColor palette Score safety_score = "#dee2e6").
Proof.
  intros palette Score safety_score Hlen Hne. unfold fillColor.
  repeat apply conj.
  - intros n -> Hn. simpl.
    destruct (0 <=? n - 1) eqn:E; [|apply Z.leb_gt in E; lia].
    assert (Hin : In (nth (Z.to_nat (n - 1)) palette "") palette).
    { apply nth_In. rewrite Hlen. lia. }
    rewrite Forall_forall in Hne. specialize (Hne _ Hin).
    destruct (nth (Z.to_nat (n - 1)) palette "") eqn:Enth; [congruence|].
    split; [reflexivity | assumption].
  - intros n -> Hn. simpl.
    destruct (0 <=? n - 1) eqn:E; [|reflexivity].
    apply Z.leb_le in E. rewrite nth_overflow by (rewrite Hlen; lia). reflexivity.
  - intros [-> | ->]; reflexivity.
Qed.

Lemma fillColor_bounds_witness :
  fillColor standardPalette (JNum 0) (JNum 3) = "#4a9d4a" /\
  fillColor standardPalette (JNum 11) JUndefined = "#dee2e6" /\
  fillColor standardPalette JUndefined JUndefined = "#dee2e6".
Proof.
  repeat apply conj.
  - apply (proj1 (fillColor_bounds standardPalette (JNum 0) (JNum 3) eq_refl
                    ltac:(repeat constructor; discriminate)) 3 eq_refl).
    lia.
  - apply (proj1 (proj2 (fillColor_bounds standardPalette (JNum 11) JUndefined eq_refl
                    ltac:(repeat constructor; discriminate))) 11 eq_refl).
    lia.
  - apply (proj2 (proj2 (fillColor_bounds standardPalette JUndefined JUndefined eq_refl
                    ltac:(repeat constructor; discriminate)))).
    left. reflexivity.
Defined.

(** ** Crime types *)

(** X5: the colour of a crime type whose label is an ASCII text does not
    depend on the letter case of the label: the upper-cased and the
    lower-cased label get the colour of the label itself, in either mode.
    The colour of any label is one of the table colours of the mode or its
    default. *)
Theorem getCrimeTypeColor_ignores_case :
  forall (isColorblindMode : bool) (type : string),
    (JsString.isAscii type = true ->
     getCrimeTypeColor isColorblindMode (JsString.toUpperCase type) =
       getCrimeTypeColor isColorblindMode type /\
     getCrimeTypeColor isColorblindMode (JsString.toLowerCase type) =
       getCrimeTypeColor isColorblindMode type) /\
    In (getCrimeTypeColor isColorblindMode type)
       ((if isColorblindMode then "#2171b5" else "#3498db")
        :: List.map snd (crimeColors isColorblindMode)).
Proof.
  intros m type. unfold getCrimeTypeColor.
  rewrite toLowerCase_toUpperCase, toLowerCase_idem.
  split; [intros _; split; reflexivity|].
  unfold JsObject.entries.
  generalize (JsString.toLowerCase type) as lowerType. intros lowerType.
  induction (crimeColors m) as [|[key color] colors IH]; simpl; [now left|].
  destruct (JsString.includes lowerType key); [right; now left|].
  destruct IH as [IH | IH]; [now left | right; now right].
Qed.

Lemma getCrimeTypeColor_ignores_case_witness :
  getCrimeTypeColor false "VEHICLE OFFENCES" = getCrimeTypeColor false "Vehicle Offences" /\
  getCrimeTypeColor true "vehicle offences" = getCrimeTypeColor true "Vehicle Offences".
Proof.
  split.
  - apply (proj1 (proj1 (getCrimeTypeColor_ignores_case false "Vehicle Offences")
                    eq_refl)).
  - apply (proj2 (proj1 (getCrimeTypeColor_ignores_case true "Vehicle Offences")
                    eq_refl)).
Defined.

Lemma charAt0_case :
  forall type,
    JsString.charAt0 (JsString.toUpperCase type)
      = JsString.toUpperCase (JsString.charAt0 type) /\
    JsString.charAt0 (JsString.toLowerCase type)
      = JsString.toLowerCase (JsString.charAt0 type) /\
    JsString.slice1 (JsString.toUpperCase type)
      = JsString.toUpperCase (JsString.slice1 type) /\
    JsString.slice1 (JsString.toLowerCase type)
      = JsString.toLowerCase (JsString.slice1 type).
Proof.
  intros type. unfold JsString.toUpperCase, JsString.toLowerCase.
  now rewrite !charAt0_map, !slice1_map.
Qed.

(** X6: [formatCrimeType] does not depend on the letter case of a label
    that is an ASCII text either: the upper-cased and the lower-cased label
    are formatted like the label itself, whether the table knows the label
    or not. *)
Theorem formatCrimeType_ignores_case :
  forall type : string,
    JsString.isAscii type = true ->
    formatCrimeType (JsString.toUpperCase type) = formatCrimeType type /\
    formatCrimeType (JsString.toLowerCase type) = formatCrimeType type.
Proof.
  intros type _. unfold formatCrimeType.
  destruct (charAt0_case type) as (H1 & H2 & H3 & H4).
  rewrite H1, H2, H3, H4.
  rewrite !toUpperCase_idem, !toUpperCase_toLowerCase,
    !toLowerCase_toUpperCase, !toLowerCase_idem.
  split; reflexivity.
Qed.

Lemma formatCrimeType_ignores_case_witness :
  formatCrimeType "SHOPLIFTING" = formatCrimeType "shopLifting" /\
  formatCrimeType "shoplifting" = formatCrimeType "shopLifting".
Proof.
  apply (formatCrimeType_ignores_case "shopLifting"). reflexivity.
Defined.

Lemma strOr_empty :
  forall a b, strOr a b = "" -> a = "" /\ b = "".
Proof.
  intros [|c a] b H; simpl in H; [now split | discriminate].
Qed.

(** X7: [formatCrimeType] returns the empty label for the empty type only:
    every non-empty type gets a non-empty display label. *)
Theorem formatCrimeType_empty_iff :
  forall type : string, formatCrimeType type = "" <-> type = "".
Proof.
  intros type. split.
  - unfold formatCrimeType. intros H.
    apply strOr_empty in H as [_ H]. apply strOr_empty in H as [_ H].
    destruct type as [|c s]; [reflexivity | discriminate H].
  - intros ->. reflexivity.
Qed.

(** X8: labels that differ only in letter case and white space get the same
    display label whenever their upper-cased form without white space is a
    key of the table; that label is the table's.  Without such a key the
    spacing matters: PUBLIC ORDER is formatted Public Order and PUBLICORDER
    is formatted Publicorder. *)
Theorem formatCrimeType_ignores_spacing_of_known :
  forall type type' : string,
    JsString.removeWhiteSpace (JsString.toUpperCase type) =
    JsString.removeWhiteSpace (JsString.toUpperCase type') ->
    crimeTypeMapAt (JsString.removeWhiteSpace (JsString.toUpperCase type)) <> "" ->
    formatCrimeType type = formatCrimeType type' /\
    formatCrimeType type =
      crimeTypeMapAt (JsString.removeWhiteSpace (JsString.toUpperCase type)) /\
    formatCrimeType "PUBLIC ORDER" = "Public Order" /\
    formatCrimeType "PUBLICORDER" = "Publicorder".
Proof.
  intros type type' Heq Hknown.
  assert (H : forall t, JsString.removeWhiteSpace (JsString.toUpperCase t) =
                        JsString.removeWhiteSpace (JsString.toUpperCase type) ->
                        formatCrimeType t =
                        crimeTypeMapAt (JsString.removeWhiteSpace (JsString.toUpperCase type))).
  { intros t Ht. unfold formatCrimeType. rewrite Ht.
    destruct (crimeTypeMapAt (JsString.removeWhiteSpace (JsString.toUpperCase type)));
      [congruence | reflexivity]. }
  repeat apply conj; try reflexivity.
  - rewrite (H type eq_refl), (H type' (eq_sym Heq)). reflexivity.
  - apply H. reflexivity.
Qed.

Lemma formatCrimeType_ignores_spacing_of_known_witness :
  formatCrimeType "Vehicle  offences" = formatCrimeType "vehicleOFFENCES".
Proof.
  apply (formatCrimeType_ignores_spacing_of_known "Vehicle  offences" "vehicleOFFENCES").
  - reflexivity.
  - discriminate.
Defined.

(** ** Sorted breakdowns *)

Lemma perm_insert :
  forall (A : Type) (cmp : A -> A -> Z) (x : A) (l : list A),
    Permutation (JsArray.insert cmp x l) (x :: l).
Proof.
  induction l as [|y l IH]; simpl; [reflexivity|].
  destruct (cmp x y <=? 0); [reflexivity|].
  rewrite IH. apply perm_swap.
Qed.

Lemma perm_sort :
  forall (A : Type) (cmp : A -> A -> Z) (l : list A),
    Permutation (JsArray.sort cmp l) l.
Proof.
  induction l as [|x l IH]; simpl; [reflexivity|].
  rewrite perm_insert. now constructor.
Qed.

Lemma byCountDesc_consistent : consistentComparator byCountDesc.
Proof.
  unfold byCountDesc. split; intros; lia.
Qed.


Lemma sum_update :
  forall (o : JsObject.t Z) k v w,
    JsObject.get k o = Some w ->
    fold_right Z.add 0 (List.map snd (JsObject.update k v o)) =
    fold_right Z.add 0 (List.map snd o) - w + v.
Proof.
  induction o as [|[k' v'] o IH]; simpl; intros k v w H; [discriminate|].
  destruct (String.eqb k k'); simpl.
  - injection H as <-. lia.
  - rewrite (IH _ _ _ H). lia.
Qed.

Lemma sum_insertIndex :
  forall (o : JsObject.t Z) n k v,
    fold_right Z.add 0 (List.map snd (JsObject.insertIndex n k v o)) =
    fold_right Z.add 0 (List.map snd o) + v.
Proof.
  induction o as [|[k' v'] o IH]; simpl; intros n k v; [lia|].
  destruct (JsString.arrayIndex k') as [m|]; [destruct (m <? n)%N|]; simpl;
    rewrite ?IH; lia.
Qed.

Lemma sum_tally :
  forall (o : JsObject.t Z) e,
    fold_right Z.add 0 (List.map snd (tally o e)) =
    fold_right Z.add 0 (List.map snd o) + snd e.
Proof.
  intros o [k c]. unfold tally, JsObject.set, countAt. cbn [fst snd].
  destruct (JsObject.get k o) as [w|] eqn:G.
  - rewrite (sum_update _ _ _ _ G). lia.
  - destruct (JsString.arrayIndex k).
    + rewrite sum_insertIndex. lia.
    + rewrite map_app, fold_right_app. simpl.
      generalize (List.map snd o). intros l.
      induction l as [|x l IH]; simpl; lia.
Qed.

Lemma sum_fold_tally :
  forall raw (o : JsObject.t Z),
    fold_right Z.add 0 (List.map snd (fold_left tally raw o)) =
    fold_right Z.add 0 (List.map snd o) + fold_right Z.add 0 (List.map snd raw).
Proof.
  induction raw as [|e raw IH]; intros o; simpl; [lia|].
  rewrite IH, sum_tally. lia.
Qed.

Lemma sum_sort :
  forall (cmp : string * Z -> string * Z -> Z) (l : list (string * Z)),
    fold_right Z.add 0 (List.map snd (JsArray.sort cmp l)) =
    fold_right Z.add 0 (List.map snd l).
Proof.
  intros cmp l.
  assert (H : forall l1 l2 : list (string * Z),
             Permutation l1 l2 ->
             fold_right Z.add 0 (List.map snd l1) = fold_right Z.add 0 (List.map snd l2)).
  { intros l1 l2 P. induction P; simpl; lia. }
  apply H, perm_sort.
Qed.

(** X9: when the areas are aggregated (in London, or for a record without a
    flat breakdown), no label names a property inherited from
    [Object.prototype] and the magnitudes of the counts add up to at most
    [MAX_SAFE_INTEGER], every row of [getCrimeBreakdownHTML] carries an
    integer, and these integers add up to the sum of all counts that the
    areas report: aggregation and sorting lose and invent nothing. *)
Theorem getCrimeBreakdownHTML_conserves_counts :
  forall (Percent : Type) (bucketPercentage : bucket -> jsval -> Percent)
         (city : CityKey) (boroughData : Borough.t) (totalCrimes : jsval),
    city = london \/ Borough.crime_breakdown boroughData = None ->
    ownLabels (rawCrimes (areasOf city boroughData)) = true ->
    magnitude (rawCrimes (areasOf city boroughData)) <= MAX_SAFE_INTEGER ->
    exists counts : list Z,
      List.map rowCount
        (getCrimeBreakdownHTML Percent bucketPercentage city boroughData totalCrimes) =
      List.map (fun n => Count (Finite n)) counts /\
      fold_right Z.add 0 counts =
      fold_right Z.add 0 (List.map snd (rawCrimes (areasOf city boroughData))).
Proof.
  intros Percent bucketPercentage city b total H Hown Hsafe.
  unfold getCrimeBreakdownHTML, JsObject.entries.
  rewrite allCrimesOf_exact, sort_finiteBuckets by assumption.
  exists (List.map snd
            (JsArray.sort byCountDesc
               (fold_left tally (rawCrimes (areasOf city b)) JsObject.empty))).
  split.
  - unfold finiteBuckets. rewrite !map_map. reflexivity.
  - rewrite sum_sort, sum_fold_tally. reflexivity.
Qed.

Lemma getCrimeBreakdownHTML_conserves_counts_witness :
  exists counts : list Z,
    List.map rowCount
      (getCrimeBreakdownHTML unit (fun _ _ => tt) london
         (withWards [plainArea "Abbey" [("THEFT", 5); ("ARSON", 1)];
                     plainArea "Bow" [("7", 5); ("ARSON", 2)]]
            (plainBorough "Camden" (JNum 4) (JNum 13)))
         (JNum 13)) =
    List.map (fun n => Count (Finite n)) counts /\
    fold_right Z.add 0 counts = 13.
Proof.
  apply (getCrimeBreakdownHTML_conserves_counts unit (fun _ _ => tt) london
           (withWards [plainArea "Abbey" [("THEFT", 5); ("ARSON", 1)];
                       plainArea "Bow" [("7", 5); ("ARSON", 2)]]
              (plainBorough "Camden" (JNum 4) (JNum 13)))
           (JNum 13)).
  - left. reflexivity.
  - reflexivity.
  - vm_compute. discriminate.
Defined.

(** X10: [getCrimeBreakdownHTML] lists one row per bucket of the aggregate,
    and its first row carries the label that [getTopCrimeType] returns; it
    has no row exactly when [getTopCrimeType] has no entry to rank.  When
    every bucket holds an integer of at most [MAX_SAFE_INTEGER] in
    magnitude the rows are in order of non-increasing count.  The buckets
    are the counts of the flat breakdown in New York; and every bucket
    holds such an integer for aggregated areas whose labels name no
    property inherited from [Object.prototype] and whose counts add up, in
    magnitude, to at most [MAX_SAFE_INTEGER]. *)
Theorem getCrimeBreakdownHTML_sorted :
  forall (Percent : Type) (bucketPercentage : bucket -> jsval -> Percent)
         (city : CityKey) (boroughData : Borough.t) (totalCrimes : jsval),
    let rows :=
      getCrimeBreakdownHTML Percent bucketPercentage city boroughData totalCrimes in
    List.length rows = List.length (allCrimesOf city boroughData) /\
    (forall counts : JsObject.t Z,
        allCrimesOf city boroughData = finiteBuckets counts ->
        safeCounts counts = true ->
        forall i j r1 r2,
          (i < j)%nat ->
          nth_error rows i = Some r1 -> nth_error rows j = Some r2 ->
          exists n1 n2,
            rowCount r1 = Count (Finite n1) /\
            rowCount r2 = Count (Finite n2) /\
            n2 <= n1) /\
    (forall breakdown : JsObject.t Z,
        city = nyc ->
        Borough.crime_breakdown boroughData = Some breakdown ->
        allCrimesOf city boroughData = finiteBuckets breakdown) /\
    (city = london \/ Borough.crime_breakdown boroughData = None ->
     ownLabels (rawCrimes (areasOf city boroughData)) = true ->
     magnitude (rawCrimes (areasOf city boroughData)) <= MAX_SAFE_INTEGER ->
     exists counts : JsObject.t Z,
       allCrimesOf city boroughData = finiteBuckets counts /\
       safeCounts counts = true) /\
    match rows with
    | [] => allCrimesOf city boroughData = [] /\
            getTopCrimeType city boroughData = "N/A"
    | first :: _ => rowType first = getTopCrimeType city boroughData
    end.
Proof.
  intros Percent bucketPercentage city b total rows. subst rows.
  unfold getCrimeBreakdownHTML, getTopCrimeType, JsObject.entries.
  split; [|split; [|split; [|split]]].
  - now rewrite length_map, length_sort.
  - intros counts Hcounts _ i j r1 r2 Hij H1 H2.
    rewrite Hcounts, sort_finiteBuckets in H1, H2.
    unfold finiteBuckets in H1, H2. rewrite map_map in H1, H2.
    rewrite nth_error_map in H1, H2.
    destruct (nth_error (JsArray.sort byCountDesc counts) i) as [e1|] eqn:E1;
      [|discriminate].
    destruct (nth_error (JsArray.sort byCountDesc counts) j) as [e2|] eqn:E2;
      [|discriminate].
    injection H1 as <-. injection H2 as <-. cbn [rowCount snd].
    exists (snd e1), (snd e2). split; [reflexivity|]. split; [reflexivity|].
    pose proof (sorted_nth_error _ _ _
                  (sort_sorted byCountDesc byCountDesc_consistent counts)
                  _ _ _ _ Hij E1 E2) as H.
    unfold byCountDesc in H. lia.
  - intros breakdown -> Hflat. unfold allCrimesOf. rewrite Hflat. reflexivity.
  - intros H Hown Hsafe. eexists.
    split; [now apply allCrimesOf_exact | now apply tally_safeCounts].
  - destruct (JsArray.sort byBucketDesc (allCrimesOf city b)) as [|e l] eqn:E; simpl.
    + split; [|reflexivity].
      apply (f_equal (@List.length _)) in E. rewrite length_sort in E.
      now destruct (allCrimesOf city b).
    + reflexivity.
Qed.

Lemma getCrimeBreakdownHTML_sorted_witness :
  exists n1 n2, Count (Finite 9) = Count (Finite n1) /\
                Count (Finite 7) = Count (Finite n2) /\ n2 <= n1.
Proof.
  apply (proj1 (proj2 (getCrimeBreakdownHTML_sorted unit (fun _ _ => tt) london
           (withWards [plainArea "Abbey" [("THEFT", 5); ("ARSON", 1)];
                       plainArea "Bow" [("FRAUD", 7); ("THEFT", 4)]]
              (plainBorough "Camden" (JNum 4) (JNum 17)))
           (JNum 17)))
           [("THEFT", 9); ("ARSON", 1); ("FRAUD", 7)] eq_refl eq_refl
           0%nat 1%nat
           {| rowType := "Theft"; rowCount := Count (Finite 9); rowPercent := tt |}
           {| rowType := "Fraud"; rowCount := Count (Finite 7); rowPercent := tt |}).
  - lia.
  - reflexivity.
  - reflexivity.
Defined.

(** ** The dashboard *)


(** X12: for a record whose area list is present but empty, a dashboard
    that is drawn shows 0 areas and, as average per area, Infinity for a
    positive total, -Infinity for a negative one and NaN for 0, never a
    number; for a record without an area list it shows 0 and 0; otherwise
    it shows the length of the list and the rounded quotient. *)
Theorem showDashboard_average :
  forall (Percent : Type) (percentage : Z -> jsval -> Percent)
         (roundQuotient : Z -> Z -> Z) (isColorblindMode : bool)
         (city : CityKey) (boroughData : Borough.t)
         (d : Dashboard Percent),
    showDashboard Percent percentage roundQuotient isColorblindMode
      city boroughData = inl d ->
    match Borough.areasAt (areaType (cityConfigs city)) boroughData with
    | None => dashAreaCount d = 0%nat /\ dashAverage d = AvgNumber 0
    | Some [] =>
        dashAreaCount d = 0%nat /\
        (forall n, dashAverage d <> AvgNumber n) /\
        (0 < dashTotalCrimes d -> dashAverage d = AvgInfinity) /\
        (dashTotalCrimes d < 0 -> dashAverage d = AvgNegInfinity) /\
        (dashTotalCrimes d = 0 -> dashAverage d = AvgNaN)
    | Some areas =>
        dashAreaCount d = List.length areas /\
        dashAverage d =
          AvgNumber (roundQuotient (dashTotalCrimes d) (Z.of_nat (List.length areas)))
    end.
Proof.
  intros Percent percentage roundQuotient m city b d H.
  unfold showDashboard in H.
  destruct (dashboardTotal b) as [n|error]; [|discriminate H].
  injection H as <-. cbn [dashAreaCount dashAverage dashTotalCrimes].
  unfold averagePerArea.
  destruct (Borough.areasAt (areaType (cityConfigs city)) b) as [[|a areas]|].
  - split; [reflexivity|].
    destruct (n =? 0) eqn:E0; [apply Z.eqb_eq in E0 | apply Z.eqb_neq in E0];
      [|destruct (0 <? n) eqn:E1; [apply Z.ltb_lt in E1 | apply Z.ltb_ge in E1]];
      repeat apply conj; try discriminate; intros; try reflexivity; lia.
  - split; reflexivity.
  - split; reflexivity.
Qed.

Lemma showDashboard_average_witness :
  dashAverage (Percent := Z)
    {| dashName := "Camden";
       dashSafetyLevel := "Safe";
       dashSafetyColor := "#4a9d4a";
       dashScore := JNum 4;
       dashTotalCrimes := 9;
       dashAreaCount := 0;
       dashAverage := AvgInfinity;
       dashTopCrimeType := "N/A";
       dashCards := [] |} = AvgInfinity.
Proof.
  apply (showDashboard_average Z (fun count _ => count) Z.div false london
           (withWards [] (plainBorough "Camden" (JNum 4) (JNum 9)))).
  - reflexivity.
  - simpl. lia.
Defined.




(** ** Stored records *)

Section ObjectInvariants.
Context {V : Type}.
Implicit Types (o : JsObject.t V) (k : string) (v : V).

Lemma in_update :
  forall o k v k' v',
    In (k', v') (JsObject.update k v o) -> (k', v') = (k, v) \/ In (k', v') o.
Proof.
  induction o as [|[k0 v0] o IH]; simpl; intros k v k' v' H; [contradiction|].
  destruct (String.eqb k k0) eqn:E.
  - apply String.eqb_eq in E. subst k0.
    destruct H as [H | H]; [now left | right; now right].
  - destruct H as [H | H]; [right; now left|].
    destruct (IH _ _ _ _ H); [now left | right; now right].
Qed.

Lemma in_insertIndex :
  forall o n k v k' v',
    In (k', v') (JsObject.insertIndex n k v o) -> (k', v') = (k, v) \/ In (k', v') o.
Proof.
  induction o as [|[k0 v0] o IH]; simpl; intros n k v k' v' H.
  - destruct H as [H | []]. now left.
  - destruct (JsString.arrayIndex k0) as [m|]; [destruct (m <? n)%N|];
      try (destruct H as [H | H]; [now left | now right]).
    destruct H as [H | H]; [right; now left|].
    destruct (IH _ _ _ _ _ H); [now left | right; now right].
Qed.

Lemma in_set :
  forall o k v k' v',
    In (k', v') (JsObject.set k v o) -> (k', v') = (k, v) \/ In (k', v') o.
Proof.
  intros o k v k' v' H. unfold JsObject.set in H.
  destruct (JsObject.get k o).
  - now apply in_update in H.
  - destruct (JsString.arrayIndex k).
    + now apply in_insertIndex in H.
    + apply in_app_or in H as [H | [H | []]]; [now right | now left].
Qed.

Lemma get_none_notin :
  forall o k, JsObject.get k o = None -> ~ In k (JsObject.keys o).
Proof.
  induction o as [|[k0 v0] o IH]; simpl; intros k H; [tauto|].
  destruct (String.eqb k k0) eqn:E; [discriminate|].
  apply String.eqb_neq in E. intros [H' | H']; [congruence|].
  now apply (IH k).
Qed.

Lemma keys_insertIndex :
  forall o n k v,
    Permutation (JsObject.keys (JsObject.insertIndex n k v o)) (k :: JsObject.keys o).
Proof.
  induction o as [|[k0 v0] o IH]; simpl; intros n k v; [reflexivity|].
  destruct (JsString.arrayIndex k0) as [m|]; [destruct (m <? n)%N|];
    simpl; try reflexivity.
  rewrite IH. apply perm_swap.
Qed.

Lemma NoDup_keys_set :
  forall o k v, NoDup (JsObject.keys o) -> NoDup (JsObject.keys (JsObject.set k v o)).
Proof.
  intros o k v H. unfold JsObject.set.
  destruct (JsObject.get k o) eqn:G.
  - now rewrite keys_update.
  - apply get_none_notin in G.
    assert (Hk : NoDup (k :: JsObject.keys o)) by now constructor.
    destruct (JsString.arrayIndex k).
    + eapply Permutation_NoDup; [symmetry; apply keys_insertIndex | assumption].
    + unfold JsObject.keys. rewrite map_app. simpl.
      eapply Permutation_NoDup; [apply Permutation_cons_append | assumption].
Qed.

Lemma get_in :
  forall o k v, NoDup (JsObject.keys o) -> In (k, v) o -> JsObject.get k o = Some v.
Proof.
  induction o as [|[k0 v0] o IH]; simpl; intros k v Hn H; [contradiction|].
  inversion Hn as [|? ? Hnotin Hn']; subst.
  destruct H as [H | H].
  - injection H as -> ->. now rewrite String.eqb_refl.
  - destruct (String.eqb k k0) eqn:E.
    + apply String.eqb_eq in E. subst k0. exfalso. apply Hnotin.
      apply in_map_iff. now exists (k, v).
    + now apply IH.
Qed.

End ObjectInvariants.

(** What the first callback of [initMap] leaves in [crimeData]: the keys
    are distinct, and every record is one of the loaded ones, stored under
    its upper-cased name, or was there before. *)
Lemma fold_storeBorough_invariant :
  forall boroughs (d : JsObject.t Borough.t),
    NoDup (JsObject.keys d) ->
    NoDup (JsObject.keys (fold_left storeBorough boroughs d)) /\
    forall k b, In (k, b) (fold_left storeBorough boroughs d) ->
                In (k, b) d \/
                (In b boroughs /\ k = JsString.toUpperCase (Borough.name b)).
Proof.
  induction boroughs as [|x boroughs IH]; simpl; intros d Hn.
  - split; [assumption | auto].
  - destruct (IH (storeBorough d x) (NoDup_keys_set _ _ _ Hn)) as [Hn' Hin].
    split; [assumption|]. intros k b H.
    destruct (Hin _ _ H) as [H' | [H1 H2]]; [|right; split; auto].
    apply in_set in H' as [H' | H']; [|now left].
    injection H' as -> ->. right. split; [now left | reflexivity].
Qed.

Lemma geoLoaded_frame :
  forall st,
    currentCity (geoLoaded st) = currentCity st /\
    crimeData (geoLoaded st) = crimeData st /\
    searchIndex (geoLoaded st) =
      flat_map (fun kv => boroughBlock (currentCity st) (snd kv))
        (JsObject.entries (crimeData st)).
Proof.
  intros st. unfold geoLoaded, initializeSearch.
  set (st1 := {| currentCity := currentCity st; crimeData := crimeData st;
                 searchIndex := searchIndex st; searchBox := true;
                 searchValue := searchValue st; clearButton := clearButton st;
                 resultsDisplay := resultsDisplay st;
                 resultsPanel := resultsPanel st |}).
  destruct (buildSearchIndex_frame st1) as [Hc1 Hd1].
  destruct (buildSearchIndex_frame (buildSearchIndex st1)) as [Hc2 Hd2].
  rewrite buildSearchIndex_blocks, Hc2, Hd2, Hc1, Hd1. auto.
Qed.

(** X14: after a switch to a city whose data and map have then been loaded,
    every entry of the search index refers to one of the loaded records,
    whatever the page held before, and [selectSearchResult], called with
    the name of that record, finds exactly that record and never reports
    that no borough data was found.  When [showDashboard] draws the record,
    the dashboard is shown on it and the search is cleared; when
    [showDashboard] throws its TypeError, nothing is drawn and the search
    stays as it is. *)
Theorem switchCity_then_load_rehydrates :
  forall (Percent : Type) (percentage : Z -> jsval -> Percent)
         (roundQuotient : Z -> Z -> Z) (isColorblindMode : bool)
         (st : App) (cityKey : CityKey) (boroughs : list Borough.t) (e : Entry.t),
    In e (searchIndex (geoLoaded (dataLoaded boroughs (switchCity cityKey st)))) ->
    In (Entry.data e) boroughs /\
    currentCity (geoLoaded (dataLoaded boroughs (switchCity cityKey st))) = cityKey /\
    JsObject.get (JsString.toUpperCase (Borough.name (Entry.data e)))
      (crimeData (geoLoaded (dataLoaded boroughs (switchCity cityKey st))))
    = Some (Entry.data e) /\
    match showDashboard Percent percentage roundQuotient isColorblindMode
            cityKey (Entry.data e) with
    | inl _ =>
        selectSearchResult (Borough.name (Entry.data e))
          (geoLoaded (dataLoaded boroughs (switchCity cityKey st)))
        = (DashboardShown (Entry.data e),
           clearSearch (geoLoaded (dataLoaded boroughs (switchCity cityKey st))))
    | inr error =>
        selectSearchResult (Borough.name (Entry.data e))
          (geoLoaded (dataLoaded boroughs (switchCity cityKey st)))
        = (ShowDashboardThrew error,
           geoLoaded (dataLoaded boroughs (switchCity cityKey st)))
    end.
Proof.
  intros Percent percentage roundQuotient m st cityKey boroughs e He.
  set (st0 := dataLoaded boroughs (switchCity cityKey st)) in *.
  destruct (geoLoaded_frame st0) as (Hc & Hd & Hi).
  assert (Hdata : crimeData st0 = fold_left storeBorough boroughs JsObject.empty).
  { subst st0. unfold dataLoaded, switchCity.
    destruct (searchBox (withCurrentCity cityKey st)); reflexivity. }
  assert (Hcity : currentCity st0 = cityKey).
  { subst st0. unfold dataLoaded, switchCity.
    destruct (searchBox (withCurrentCity cityKey st)); reflexivity. }
  destruct (fold_storeBorough_invariant boroughs JsObject.empty (NoDup_nil _))
    as [Hn Hin].
  rewrite Hi in He. apply in_flat_map in He as ([k b] & Hkv & Hblock).
  assert (Hb : Entry.data e = b).
  { unfold boroughBlock in Hblock. simpl in Hblock.
    destruct (Borough.name b) as [|c n]; [contradiction|].
    destruct Hblock as [<- | Hblock]; [reflexivity|].
    apply in_flat_map in Hblock as (area & _ & Harea).
    destruct (Area.name area) as [[|c' n']|]; try contradiction.
    destruct Harea as [<- | []]. reflexivity. }
  unfold JsObject.entries in Hkv. rewrite Hdata in Hkv.
  destruct (Hin _ _ Hkv) as [[] | [Hb1 Hb2]].
  assert (Hget : JsObject.get (JsString.toUpperCase (Borough.name b))
                   (crimeData (geoLoaded st0)) = Some b).
  { rewrite Hd, Hdata, <- Hb2. apply (get_in _ _ _ Hn Hkv). }
  rewrite Hb. repeat apply conj.
  - assumption.
  - congruence.
  - exact Hget.
  - unfold showDashboard, selectSearchResult. rewrite Hget.
    destruct (dashboardTotal b); reflexivity.
Qed.

Lemma switchCity_then_load_rehydrates_witness :
  fst (selectSearchResult "Brooklyn"
         (geoLoaded
            (dataLoaded
               [withPrecincts [plainArea "Precinct 75" []]
                  (plainBorough "Brooklyn" (JNum 6) (JNum 40))]
               (switchCity nyc
                  (loadedApp london [plainBorough "Camden" (JNum 4) (JNum 9)])))))
  = DashboardShown
      (withPrecincts [plainArea "Precinct 75" []]
         (plainBorough "Brooklyn" (JNum 6) (JNum 40))) /\
  fst (selectSearchResult "Soho"
         (geoLoaded
            (dataLoaded [plainBorough "Soho" JUndefined JUndefined]
               (switchCity london initialApp))))
  = ShowDashboardThrew TypeError.
Proof.
  split.
  - exact (f_equal fst
             (proj2 (proj2 (proj2
                (switchCity_then_load_rehydrates Z (fun count _ => count) Z.div false
                   (loadedApp london [plainBorough "Camden" (JNum 4) (JNum 9)]) nyc
                   [withPrecincts [plainArea "Precinct 75" []]
                      (plainBorough "Brooklyn" (JNum 6) (JNum 40))]
                   (areaEntry nyc
                      (withPrecincts [plainArea "Precinct 75" []]
                         (plainBorough "Brooklyn" (JNum 6) (JNum 40)))
                      (plainArea "Precinct 75" []) "Precinct 75")
                   (or_intror (or_introl eq_refl))))))).
  - exact (f_equal fst
             (proj2 (proj2 (proj2
                (switchCity_then_load_rehydrates Z (fun count _ => count) Z.div false
                   initialApp london
                   [plainBorough "Soho" JUndefined JUndefined]
                   (boroughEntry (plainBorough "Soho" JUndefined JUndefined))
                   (or_introl eq_refl)))))).
Defined.

(** X15: after the data callback has stored a list of records, the record
    found under a key is the last record of the list whose upper-cased name
    is that key; a key that no record of the list has keeps what was stored
    under it before.  Records whose names differ only in letter case thus
    replace one another, the last one winning. *)
Theorem dataLoaded_lookup :
  forall (boroughs : list Borough.t) (st : App) (k : string),
    JsObject.get k (crimeData (dataLoaded boroughs st)) =
    match find (fun b => String.eqb (JsString.toUpperCase (Borough.name b)) k)
               (rev boroughs) with
    | Some b => Some b
    | None => JsObject.get k (crimeData st)
    end.
Proof.
  intros boroughs st k. unfold dataLoaded. cbn [crimeData withCrimeData].
  generalize (crimeData st) as d.
  induction boroughs as [|b boroughs IH] using rev_ind; intros d; [reflexivity|].
  rewrite fold_left_app, rev_app_distr. cbn [fold_left rev app find].
  unfold storeBorough at 1.
  destruct (String.eqb (JsString.toUpperCase (Borough.name b)) k) eqn:E.
  - apply String.eqb_eq in E. subst k. apply get_set_same.
  - apply String.eqb_neq in E. rewrite get_set_other by congruence. apply IH.
Qed.

(** X16: [selectSearchResult] does not depend on the letter case of a name
    that is an ASCII text: the lower-cased and the upper-cased name select
    what the name itself selects, and leave the page as it does, whether
    the dashboard is drawn, [showDashboard] throws, or no record is
    found. *)
Theorem selectSearchResult_ignores_case :
  forall (boroughName : string) (st : App),
    JsString.isAscii boroughName = true ->
    selectSearchResult (JsString.toLowerCase boroughName) st =
      selectSearchResult boroughName st /\
    selectSearchResult (JsString.toUpperCase boroughName) st =
      selectSearchResult boroughName st.
Proof.
  intros boroughName st _. unfold selectSearchResult.
  now rewrite toUpperCase_toLowerCase, toUpperCase_idem.
Qed.

Lemma selectSearchResult_ignores_case_witness :
  selectSearchResult "camden" (loadedApp london [plainBorough "Camden" (JNum 4) (JNum 9)])
  = selectSearchResult "Camden" (loadedApp london [plainBorough "Camden" (JNum 4) (JNum 9)]).
Proof.
  apply (proj1 (selectSearchResult_ignores_case "Camden"
                  (loadedApp london [plainBorough "Camden" (JNum 4) (JNum 9)])
                  eq_refl)).
Defined.

(** ** Queries *)

Lemma query_of_padded_upper :
  forall pre value post,
    whitespaceOnly pre = true -> whitespaceOnly post = true ->
    JsString.toLowerCase (JsString.trim (pre ++ JsString.toUpperCase value ++ post)) =
    JsString.toLowerCase (JsString.trim value).
Proof.
  intros pre value post Hpre Hpost. rewrite trim_padded by assumption.
  unfold JsString.toUpperCase at 1.
  rewrite (trim_map _ isWhiteSpace_toUpperChar).
  apply toLowerCase_toUpperCase.
Qed.

(** X17: the entries [handleSearch] shows for a typed ASCII text do not
    depend on the letter case of the text nor on blanks around it: the
    upper-cased text between any two runs of ASCII white space shows the
    entries of the text itself and shows or hides the panel alike. *)
Theorem handleSearch_ignores_case_and_padding :
  forall (localeCompare : string -> string -> Z) (st : App) (pre value post : string),
    JsString.isAscii value = true ->
    whitespaceOnly pre = true ->
    whitespaceOnly post = true ->
    visibleResults
      (handleSearch localeCompare
         (withSearchValue (pre ++ JsString.toUpperCase value ++ post) st))
    = visibleResults (handleSearch localeCompare (withSearchValue value st)) /\
    resultsDisplay
      (handleSearch localeCompare
         (withSearchValue (pre ++ JsString.toUpperCase value ++ post) st))
    = resultsDisplay (handleSearch localeCompare (withSearchValue value st)).
Proof.
  intros lc st pre value post _ Hpre Hpost.
  rewrite !visibleResults_handleSearch. cbn [searchValue withSearchValue searchIndex].
  unfold handleSearch. cbn [searchValue withSearchValue resultsDisplay].
  rewrite (query_of_padded_upper pre value post Hpre Hpost).
  split; [reflexivity|].
  destruct (JsString.toLowerCase (JsString.trim value)); reflexivity.
Qed.

Lemma handleSearch_ignores_case_and_padding_witness :
  visibleResults
    (handleSearch codeUnitCompare
       (withSearchValue "  CAM "
          (loadedApp london [plainBorough "Camden" (JNum 4) (JNum 9)])))
  = visibleResults
      (handleSearch codeUnitCompare
         (withSearchValue "cam"
            (loadedApp london [plainBorough "Camden" (JNum 4) (JNum 9)]))).
Proof.
  apply (handleSearch_ignores_case_and_padding codeUnitCompare
           (loadedApp london [plainBorough "Camden" (JNum 4) (JNum 9)])
           "  " "cam" " "); reflexivity.
Defined.

(** X18: for a text that is not blank, [handleSearch] shows as many entries
    as match it, but no more than 8; when at most 8 entries match, it shows
    each of them, as often as it occurs in the index. *)
Theorem handleSearch_cap :
  forall (localeCompare : string -> string -> Z) (st : App),
    whitespaceOnly (searchValue st) = false ->
    let matching :=
      filter (matchesQuery (JsString.toLowerCase (JsString.trim (searchValue st))))
        (searchIndex st) in
    List.length (visibleResults (handleSearch localeCompare st)) =
      Nat.min 8 (List.length matching) /\
    ((List.length matching <= 8)%nat ->
     Permutation (visibleResults (handleSearch localeCompare st)) matching).
Proof.
  intros lc st Hws matching. subst matching.
  rewrite visibleResults_handleSearch.
  destruct (JsString.toLowerCase (JsString.trim (searchValue st))) as [|c q] eqn:E.
  - apply query_empty_iff in E. congruence.
  - unfold searchResults, JsArray.slice0. split.
    + now rewrite length_firstn, length_sort.
    + intros Hlen. rewrite firstn_all2 by (now rewrite length_sort).
      apply perm_sort.
Qed.

Lemma handleSearch_cap_witness :
  List.length
    (visibleResults
       (handleSearch codeUnitCompare
          (withSearchValue "c"
             (loadedApp london [plainBorough "Camden" (JNum 4) (JNum 9);
                                plainBorough "Croydon" (JNum 6) (JNum 12);
                                plainBorough "Brent" (JNum 5) (JNum 7)]))))
  = 2%nat.
Proof.
  apply (handleSearch_cap codeUnitCompare
           (withSearchValue "c"
              (loadedApp london [plainBorough "Camden" (JNum 4) (JNum 9);
                                 plainBorough "Croydon" (JNum 6) (JNum 12);
                                 plainBorough "Brent" (JNum 5) (JNum 7)]))).
  reflexivity.
Defined.

Lemma matchesQuery_spec :
  forall query e,
    matchesQuery query e = true <->
    JsString.includes (Entry.searchName e) query = true \/
    exists terms term,
      Entry.searchTerms e = Some terms /\ In term terms /\
      JsString.includes term query = true.
Proof.
  intros query e. unfold matchesQuery, someTerm.
  destruct (JsString.includes (Entry.searchName e) query); [tauto|].
  destruct (Entry.searchTerms e) as [terms|].
  - rewrite existsb_exists. split.
    + intros (term & H1 & H2). right. now exists terms, term.
    + intros [H | (terms' & term & H0 & H1 & H2)]; [discriminate|].
      injection H0 as <-. now exists term.
  - split; [discriminate|].
    intros [H | (terms' & term & H0 & _)]; discriminate.
Qed.

(** X19: a text that is contained in another text matches every entry the
    other text matches.  So every entry shown for a text also matches each
    part of that text: typing further characters can only narrow the set of
    matching entries. *)
Theorem matchesQuery_narrows :
  forall (localeCompare : string -> string -> Z) (st : App) (value value' : string)
         (e : Entry.t),
    JsString.includes (JsString.toLowerCase (JsString.trim value))
                      (JsString.toLowerCase (JsString.trim value')) = true ->
    (matchesQuery (JsString.toLowerCase (JsString.trim value)) e = true ->
     matchesQuery (JsString.toLowerCase (JsString.trim value')) e = true) /\
    (In e (visibleResults (handleSearch localeCompare (withSearchValue value st))) ->
     matchesQuery (JsString.toLowerCase (JsString.trim value')) e = true).
Proof.
  intros lc st value value' e Hsub.
  assert (H : matchesQuery (JsString.toLowerCase (JsString.trim value)) e = true ->
              matchesQuery (JsString.toLowerCase (JsString.trim value')) e = true).
  { rewrite !matchesQuery_spec. intros [H | (terms & term & H0 & H1 & H2)].
    - left. eapply includes_trans; eassumption.
    - right. exists terms, term. repeat split; try assumption.
      eapply includes_trans; eassumption. }
  split; [exact H|]. intros Hin. apply H.
  rewrite visibleResults_handleSearch in Hin.
  cbn [searchValue withSearchValue searchIndex] in Hin.
  destruct (JsString.toLowerCase (JsString.trim value)); [contradiction|].
  now apply searchResults_in in Hin.
Qed.

Lemma matchesQuery_narrows_witness :
  matchesQuery "cam" (boroughEntry (plainBorough "Camden" (JNum 4) (JNum 9))) = true.
Proof.
  apply (proj1 (matchesQuery_narrows codeUnitCompare initialApp "Camd" "cam"
                  (boroughEntry (plainBorough "Camden" (JNum 4) (JNum 9))) eq_refl)).
  reflexivity.
Defined.

(** ** Entries of the index *)

Lemma entryScore_numeric :
  forall b, exists n, entryScore b = JNum n.
Proof.
  intros b. unfold entryScore, jsOr.
  destruct (truthy (if truthy (if truthy (Borough.score b)
                               then Borough.score b else Borough.safety_score b)
                    then (if truthy (Borough.score b)
                          then Borough.score b else Borough.safety_score b)
                    else Borough.totalCrimes b)) eqn:T; [|eauto].
  destruct (if truthy (if truthy (Borough.score b)
                       then Borough.score b else Borough.safety_score b)
            then (if truthy (Borough.score b)
                  then Borough.score b else Borough.safety_score b)
            else Borough.totalCrimes b) as [| |n]; try discriminate T. eauto.
Qed.

Lemma areaSearchTerms_head :
  forall city areaName,
    exists rest, areaSearchTerms city areaName = JsString.toLowerCase areaName :: rest.
Proof.
  intros city areaName. unfold areaSearchTerms, JsArray.push.
  destruct (CityKey_eqb city nyc && JsString.includes areaName "Precinct "); simpl; eauto.
Qed.

Lemma built_entry_shape :
  forall (st : App) (e : Entry.t),
    In e (searchIndex (buildSearchIndex st)) ->
    Entry.name e <> "" /\
    Entry.searchName e = JsString.toLowerCase (Entry.name e) /\
    (exists n, Entry.score e = JNum n) /\
    Entry.score e = entryScore (Entry.data e) /\
    In (Entry.data e) (List.map snd (JsObject.entries (crimeData st))) /\
    ((Entry.type e = "borough" /\
      Entry.name e = Borough.name (Entry.data e) /\
      Entry.searchTerms e = None /\
      Entry.borough e = None /\
      Entry.areaData e = None) \/
     (Entry.type e = JsString.toLowerCase (areaTypeLabel (cityConfigs (currentCity st))) /\
      Entry.type e <> "borough" /\
      Entry.borough e = Some (Borough.name (Entry.data e)) /\
      (exists rest, Entry.searchTerms e = Some (Entry.searchName e :: rest)) /\
      exists area,
        Entry.areaData e = Some area /\
        Area.name area = Some (Entry.name e) /\
        In area (areasOf (currentCity st) (Entry.data e)))).
Proof.
  intros st e He.
  pose proof (buildSearchIndex_entries_current st e He) as Hcur.
  rewrite buildSearchIndex_blocks in He.
  apply in_flat_map in He as ([k b] & Hkv & Hblock).
  unfold boroughBlock in Hblock. cbn [snd] in Hblock.
  destruct (Borough.name b) as [|c n] eqn:Hname; [contradiction|].
  destruct Hblock as [<- | Hblock].
  - cbn. rewrite Hname. repeat apply conj; try reflexivity; try discriminate.
    + apply entryScore_numeric.
    + apply in_map_iff. now exists (k, b).
    + left. repeat apply conj; reflexivity.
  - apply in_flat_map in Hblock as (area & Harea & He).
    destruct (Area.name area) as [[|c' n']|] eqn:Haname; try contradiction.
    destruct He as [<- | []]. cbn.
    repeat apply conj; try reflexivity; try discriminate.
    + apply entryScore_numeric.
    + apply in_map_iff. now exists (k, b).
    + right. repeat apply conj; try reflexivity.
      * destruct (currentCity st); discriminate.
      * destruct (areaSearchTerms_head (currentCity st) (String c' n')) as [rest Hr].
        exists rest. rewrite Hr. reflexivity.
      * exists area. repeat apply conj; try reflexivity; assumption.
Qed.

(** X20: every entry that [buildSearchIndex] produces has a non-empty name,
    its lower-cased name as searchName, a number as score (the score
    computed from its borough record), and a record of [crimeData] as data.
    It is either a borough entry, named like its record and without search
    terms, or an entry of the city's area type that names its borough,
    lists its searchName as first search term, and carries a named area of
    that borough. *)
Theorem buildSearchIndex_entries_wellformed :
  forall (st : App) (e : Entry.t),
    In e (searchIndex (buildSearchIndex st)) ->
    Entry.name e <> "" /\
    Entry.searchName e = JsString.toLowerCase (Entry.name e) /\
    (exists n, Entry.score e = JNum n) /\
    Entry.score e = entryScore (Entry.data e) /\
    In (Entry.data e) (List.map snd (JsObject.entries (crimeData st))) /\
    ((Entry.type e = "borough" /\
      Entry.name e = Borough.name (Entry.data e) /\
      Entry.searchTerms e = None /\
      Entry.borough e = None /\
      Entry.areaData e = None) \/
     (Entry.type e = JsString.toLowerCase (areaTypeLabel (cityConfigs (currentCity st))) /\
      Entry.type e <> "borough" /\
      Entry.borough e = Some (Borough.name (Entry.data e)) /\
      (exists rest, Entry.searchTerms e = Some (Entry.searchName e :: rest)) /\
      exists area,
        Entry.areaData e = Some area /\
        Area.name area = Some (Entry.name e) /\
        In area (areasOf (currentCity st) (Entry.data e)))).
Proof.
  exact built_entry_shape.
Qed.

Lemma buildSearchIndex_entries_wellformed_witness :
  Entry.searchName
    (areaEntry nyc
       (withPrecincts [plainArea "Precinct 75" []]
          (plainBorough "Brooklyn" (JNum 6) (JNum 40)))
       (plainArea "Precinct 75" []) "Precinct 75")
  = "precinct 75".
Proof.
  apply (buildSearchIndex_entries_wellformed
           (loadedApp nyc
              [withPrecincts [plainArea "Precinct 75" []]
                 (plainBorough "Brooklyn" (JNum 6) (JNum 40))])
           (areaEntry nyc
              (withPrecincts [plainArea "Precinct 75" []]
                 (plainBorough "Brooklyn" (JNum 6) (JNum 40)))
              (plainArea "Precinct 75" []) "Precinct 75")).
  right. left. reflexivity.
Defined.

(** X21: an entry of the built index is matched by its own name, in the
    spelling of the data and with any blanks around it removed, provided
    the name is not blank; typing the name therefore shows the entry
    whenever at most 8 entries match. *)
Theorem search_by_own_name :
  forall (localeCompare : string -> string -> Z) (st : App) (e : Entry.t),
    In e (searchIndex (buildSearchIndex st)) ->
    whitespaceOnly (Entry.name e) = false ->
    matchesQuery (JsString.toLowerCase (JsString.trim (Entry.name e))) e = true /\
    ((List.length
        (filter (matchesQuery (JsString.toLowerCase (JsString.trim (Entry.name e))))
           (searchIndex (buildSearchIndex st))) <= 8)%nat ->
     In e (visibleResults
             (handleSearch localeCompare
                (withSearchValue (Entry.name e) (buildSearchIndex st))))).
Proof.
  intros lc st e He Hws.
  destruct (built_entry_shape st e He) as (_ & Hsn & _).
  assert (Hm : matchesQuery (JsString.toLowerCase (JsString.trim (Entry.name e))) e = true).
  { apply matchesQuery_spec. left. rewrite Hsn.
    apply includes_map, includes_trim. }
  split; [assumption|]. intros Hlen.
  rewrite visibleResults_handleSearch. cbn [searchValue withSearchValue searchIndex].
  destruct (JsString.toLowerCase (JsString.trim (Entry.name e))) as [|c q] eqn:E.
  - apply query_empty_iff in E. congruence.
  - now apply searchResults_complete.
Qed.

Lemma search_by_own_name_witness :
  matchesQuery "camden"
    (boroughEntry (plainBorough " Camden " (JNum 4) (JNum 9))) = true.
Proof.
  apply (search_by_own_name codeUnitCompare
           (loadedApp london [plainBorough " Camden " (JNum 4) (JNum 9)])
           (boroughEntry (plainBorough " Camden " (JNum 4) (JNum 9)))).
  - left. reflexivity.
  - reflexivity.
Defined.

Lemma boroughBlock_length :
  forall city b,
    List.length (boroughBlock city b) =
    if boroughNamed b
    then S (List.length (filter areaNamed (areasOf city b)))
    else O.
Proof.
  intros city b.
  rewrite <- (length_map Entry.areaData).
  destruct (boroughNamed b) eqn:Hb.
  - rewrite boroughBlock_areas by assumption. simpl. now rewrite length_map.
  - unfold boroughNamed in Hb. unfold boroughBlock.
    destruct (Borough.name b); [reflexivity | discriminate].
Qed.

(** X22: the built index has one entry for every borough record with a
    non-empty name and one for every area with a non-empty name of such a
    record; records and areas without a name add nothing.  With no data
    the index is empty, and every text that is not blank gets the
    no-results message. *)
Theorem buildSearchIndex_size :
  forall st : App,
    let named := filter boroughNamed (List.map snd (JsObject.entries (crimeData st))) in
    List.length (searchIndex (buildSearchIndex st)) =
      (List.length named +
       List.length (flat_map (fun b => filter areaNamed (areasOf (currentCity st) b))
                      named))%nat /\
    (crimeData st = JsObject.empty ->
     searchIndex (buildSearchIndex st) = [] /\
     forall (localeCompare : string -> string -> Z) (value : string),
       whitespaceOnly value = false ->
       resultsPanel (handleSearch localeCompare (withSearchValue value (buildSearchIndex st)))
       = NoResultsFound value).
Proof.
  intros st named. subst named. rewrite buildSearchIndex_blocks. split.
  - unfold JsObject.entries.
    induction (crimeData st) as [|[k b] d IH]; [reflexivity|].
    cbn [flat_map List.map filter snd].
    rewrite length_app, IH, boroughBlock_length.
    destruct (boroughNamed b); [|reflexivity].
    cbn [flat_map List.length]. rewrite length_app. lia.
  - intros Hd. rewrite Hd. split; [reflexivity|].
    intros lc value Hws. unfold handleSearch.
    cbn [searchValue withSearchValue searchIndex resultsPanel].
    rewrite buildSearchIndex_blocks, Hd.
    destruct (JsString.toLowerCase (JsString.trim value)) eqn:E; [|reflexivity].
    apply query_empty_iff in E. congruence.
Qed.

Lemma buildSearchIndex_size_witness :
  searchIndex (buildSearchIndex (switchCity nyc initialApp)) = [].
Proof.
  apply (proj2 (buildSearchIndex_size (switchCity nyc initialApp))).
  reflexivity.
Defined.

(** ** The accessibility toggle *)

Lemma toggle_consistent :
  forall v : VisualInclusivity.t,
    VisualInclusivity.toggleVisuals v <> None ->
    exists v',
      VisualInclusivity.toggleVisualInclusiveMode false v = VisualInclusivity.Returned v' /\
      VisualInclusivity.isVisualInclusiveMode v' =
        negb (VisualInclusivity.isVisualInclusiveMode v) /\
      VisualInclusivity.savedMode v' =
        Some (if VisualInclusivity.isVisualInclusiveMode v' then "true" else "false") /\
      VisualInclusivity.mapPalette v' =
        getCurrentPalette (VisualInclusivity.isVisualInclusiveMode v') /\
      VisualInclusivity.toggleVisuals v' =
        Some (VisualInclusivity.isVisualInclusiveMode v').
Proof.
  intros v H. unfold VisualInclusivity.toggleVisualInclusiveMode. simpl.
  destruct (VisualInclusivity.toggleVisuals v); [|congruence].
  eexists. split; [reflexivity|]. simpl. repeat apply conj; reflexivity.
Qed.

Lemma initialize_consistent :
  forall saved : option string,
    let v := VisualInclusivity.initialize (VisualInclusivity.create saved) in
    VisualInclusivity.isVisualInclusiveMode v =
      match saved with
      | Some s => String.eqb s "true"
      | None => false
      end /\
    VisualInclusivity.savedMode v = saved /\
    VisualInclusivity.mapPalette v =
      getCurrentPalette (VisualInclusivity.isVisualInclusiveMode v) /\
    VisualInclusivity.toggleVisuals v =
      Some (VisualInclusivity.isVisualInclusiveMode v).
Proof.
  intros [s|]; simpl.
  - unfold VisualInclusivity.initialize. simpl.
    destruct (String.eqb s "true"); simpl; repeat apply conj; reflexivity.
  - repeat apply conj; reflexivity.
Qed.

(** X23: the preference survives a reload.  After a click on the toggle
    that returns, a new instance that is initialized with the stored
    preference is in the mode the click left, with the map in the palette
    of that mode and the toggle drawn in that mode. *)
Theorem preference_survives_reload :
  forall (dashboardThrows : bool) (v v' : VisualInclusivity.t),
    VisualInclusivity.toggleVisualInclusiveMode dashboardThrows v
      = VisualInclusivity.Returned v' ->
    let reloaded :=
      VisualInclusivity.initialize
        (VisualInclusivity.create (VisualInclusivity.savedMode v')) in
    VisualInclusivity.isVisualInclusiveMode reloaded =
      VisualInclusivity.isVisualInclusiveMode v' /\
    VisualInclusivity.mapPalette reloaded =
      getCurrentPalette (VisualInclusivity.isVisualInclusiveMode v') /\
    VisualInclusivity.mapPalette reloaded = VisualInclusivity.mapPalette v' /\
    VisualInclusivity.toggleVisuals reloaded =
      Some (VisualInclusivity.isVisualInclusiveMode v').
Proof.
  intros dashboardThrows v v' H reloaded.
  assert (Ht : VisualInclusivity.toggleVisuals v <> None).
  { unfold VisualInclusivity.toggleVisualInclusiveMode in H. simpl in H.
    destruct (VisualInclusivity.toggleVisuals v); [discriminate | discriminate H]. }
  assert (dashboardThrows = false) as ->.
  { unfold VisualInclusivity.toggleVisualInclusiveMode in H. simpl in H.
    destruct (VisualInclusivity.toggleVisuals v); [|congruence].
    destruct dashboardThrows; [discriminate H | reflexivity]. }
  destruct (toggle_consistent v Ht) as (v2 & H2 & Hm & Hs & Hp & Hv).
  rewrite H in H2. injection H2 as <-.
  destruct (initialize_consistent (VisualInclusivity.savedMode v'))
    as (Im & _ & Ip & Iv).
  fold reloaded in Im, Ip, Iv.
  assert (E : VisualInclusivity.isVisualInclusiveMode reloaded =
              VisualInclusivity.isVisualInclusiveMode v').
  { rewrite Im, Hs. destruct (VisualInclusivity.isVisualInclusiveMode v'); reflexivity. }
  rewrite Ip, Iv, E, Hp. repeat apply conj; reflexivity.
Qed.

Lemma preference_survives_reload_witness :
  VisualInclusivity.isVisualInclusiveMode
    (VisualInclusivity.initialize (VisualInclusivity.create (Some "true"))) = true.
Proof.
  apply (preference_survives_reload false
           (VisualInclusivity.initialize (VisualInclusivity.create None))
           {| VisualInclusivity.isVisualInclusiveMode := true;
              VisualInclusivity.savedMode := Some "true";
              VisualInclusivity.mapPalette := visualInclusivePalette;
              VisualInclusivity.toggleVisuals := Some true |}).
  reflexivity.
Defined.

(** X24: on an initialized instance, and as long as refreshing the
    dashboard does not throw, no click on the toggle throws, and after any
    number of clicks the mode is the initial mode flipped once per click,
    the map has the palette of the mode and the toggle is drawn in the
    mode; after at least one click the stored preference is the mode.  Two
    clicks therefore restore mode and palette.  A click during which the
    dashboard refresh throws still flips the mode and redraws map and
    toggle, but leaves the stored preference as it was.  On an instance
    that has not been initialized a call throws after it has flipped the
    mode, and stores nothing. *)
Theorem clicks_keep_display_consistent :
  forall (saved : option string) (n : nat),
    let start := VisualInclusivity.initialize (VisualInclusivity.create saved) in
    let v := VisualInclusivity.clicks n start in
    (exists v', VisualInclusivity.toggleVisualInclusiveMode false v
                = VisualInclusivity.Returned v') /\
    VisualInclusivity.toggleVisualInclusiveMode true v =
      VisualInclusivity.Threw
        {| VisualInclusivity.isVisualInclusiveMode :=
             negb (VisualInclusivity.isVisualInclusiveMode v);
           VisualInclusivity.savedMode := VisualInclusivity.savedMode v;
           VisualInclusivity.mapPalette :=
             getCurrentPalette (negb (VisualInclusivity.isVisualInclusiveMode v));
           VisualInclusivity.toggleVisuals :=
             Some (negb (VisualInclusivity.isVisualInclusiveMode v)) |} /\
    VisualInclusivity.isVisualInclusiveMode v =
      xorb (VisualInclusivity.isVisualInclusiveMode start) (Nat.odd n) /\
    VisualInclusivity.mapPalette v =
      getCurrentPalette (VisualInclusivity.isVisualInclusiveMode v) /\
    VisualInclusivity.toggleVisuals v =
      Some (VisualInclusivity.isVisualInclusiveMode v) /\
    (n <> O ->
     VisualInclusivity.savedMode v =
       Some (if VisualInclusivity.isVisualInclusiveMode v then "true" else "false")) /\
    (forall dashboardThrows,
        VisualInclusivity.toggleVisualInclusiveMode dashboardThrows
          (VisualInclusivity.create saved) =
        VisualInclusivity.Threw
        {| VisualInclusivity.isVisualInclusiveMode := true;
           VisualInclusivity.savedMode := saved;
           VisualInclusivity.mapPalette := standardPalette;
           VisualInclusivity.toggleVisuals := None |}).
Proof.
  intros saved n start v.
  assert (Hgen : forall n w,
             VisualInclusivity.mapPalette w =
               getCurrentPalette (VisualInclusivity.isVisualInclusiveMode w) ->
             VisualInclusivity.toggleVisuals w =
               Some (VisualInclusivity.isVisualInclusiveMode w) ->
             let u := VisualInclusivity.clicks n w in
             VisualInclusivity.isVisualInclusiveMode u =
               xorb (VisualInclusivity.isVisualInclusiveMode w) (Nat.odd n) /\
             VisualInclusivity.mapPalette u =
               getCurrentPalette (VisualInclusivity.isVisualInclusiveMode u) /\
             VisualInclusivity.toggleVisuals u =
               Some (VisualInclusivity.isVisualInclusiveMode u) /\
             (n <> O ->
              VisualInclusivity.savedMode u =
                Some (if VisualInclusivity.isVisualInclusiveMode u
                      then "true" else "false"))).
  { clear. induction n as [|n IH]; intros w Hp Hv.
    - simpl. rewrite xorb_false_r. repeat apply conj; auto. congruence.
    - assert (Ht : VisualInclusivity.toggleVisuals w <> None) by congruence.
      destruct (toggle_consistent w Ht) as (w' & Hw & Hm & Hs & Hp' & Hv').
      cbn [VisualInclusivity.clicks]. rewrite Hw.
      destruct (IH w' Hp' Hv') as (Im & Ip & Iv & Is).
      repeat apply conj; try assumption.
      + rewrite Im, Hm, Nat.odd_succ, <- Nat.negb_odd.
        destruct (VisualInclusivity.isVisualInclusiveMode w), (Nat.odd n); reflexivity.
      + intros _. destruct n as [|n']; [exact Hs | apply Is; discriminate]. }
  destruct (initialize_consistent saved) as (_ & _ & Ip & Iv).
  fold start in Ip, Iv.
  destruct (Hgen n start Ip Iv) as (Hm & Hp & Hv & Hs). fold v in Hm, Hp, Hv, Hs.
  repeat apply conj; try assumption; try reflexivity.
  - assert (Ht : VisualInclusivity.toggleVisuals v <> None) by congruence.
    destruct (toggle_consistent v Ht) as (v' & Hv' & _). now exists v'.
  - unfold VisualInclusivity.toggleVisualInclusiveMode. simpl. rewrite Hv. reflexivity.
Qed.

Lemma clicks_keep_display_consistent_witness :
  VisualInclusivity.savedMode
    (VisualInclusivity.clicks 3
       (VisualInclusivity.initialize (VisualInclusivity.create None)))
  = Some "true".
Proof.
  apply (proj1 (proj2 (proj2 (proj2 (proj2 (proj2
           (clicks_keep_display_consistent None 3))))))).
  discriminate.
Defined.

(** ** Fill colour, tooltip and dashboard *)

(** X25: for a score from 1 to 10 the colour in which the map fills a region
    and the colour [getSafetyColor] gives the same score (used by the
    tooltip, the dashboard and the search rows) are the same exactly for
    the scores 1, 6, 8 and 10, in either mode with its palette. *)
Theorem fillColor_vs_getSafetyColor :
  forall (isColorblindMode : bool) (n : Z) (safety_score : jsval),
    1 <= n <= 10 ->
    (fillColor (getCurrentPalette isColorblindMode) (JNum n) safety_score =
     getSafetyColor isColorblindMode (JNum n) <->
     n = 1 \/ n = 6 \/ n = 8 \/ n = 10).
Proof.
  intros m n safety_score Hn.
  assert (H : n = 1 \/ n = 2 \/ n = 3 \/ n = 4 \/ n = 5 \/
              n = 6 \/ n = 7 \/ n = 8 \/ n = 9 \/ n = 10) by lia.
  destruct H as [-> | [-> | [-> | [-> | [-> | [-> | [-> | [-> | [-> | ->]]]]]]]]];
    destruct m; vm_compute; split; intros H;
    try reflexivity; try discriminate H; try lia;
    repeat (destruct H as [H | H]; try discriminate H).
Qed.

Lemma fillColor_vs_getSafetyColor_witness :
  fillColor (getCurrentPalette true) (JNum 6) JUndefined =
  getSafetyColor true (JNum 6).
Proof.
  apply (proj2 (fillColor_vs_getSafetyColor true 6 JUndefined ltac:(lia))).
  right. left. reflexivity.
Defined.

(** X26: the tooltip prints N/A as total exactly when [crimeData] has no
    record under the upper-cased name of the region and, in addition, the
    city is London or the region's own total_crimes is missing, null or 0.
    When there is a record, its totalCrimes is printed whatever the region
    carries, as the text undefined if the record has none. *)
Theorem mouseover_total :
  forall (isColorblindMode : bool) (st : App) (boroughName : string)
         (Score safety_score total_crimes : jsval),
    let tip := mouseover isColorblindMode st boroughName Score safety_score total_crimes in
    let record := JsObject.get (JsString.toUpperCase boroughName) (crimeData st) in
    (tipTotalCrimes tip = ShownNA <->
     record = None /\ (currentCity st = london \/ truthy total_crimes = false)) /\
    (forall b, record = Some b ->
               tipTotalCrimes tip =
               match Borough.totalCrimes b with
               | JNum n => ShownNumber n
               | JUndefined => ShownUndefined
               | JNull => ShownNull
               end) /\
    tipSafetyLevel tip = getSafetyLevel (tipScore tip) /\
    tipSafetyColor tip = getSafetyColor isColorblindMode (tipScore tip).
Proof.
  intros m st boroughName Score safety_score total_crimes tip record.
  subst tip record. unfold mouseover.
  cbn [tipTotalCrimes tipSafetyLevel tipSafetyColor tipScore].
  split; [|split; [|split; reflexivity]].
  - destruct (JsObject.get (JsString.toUpperCase boroughName) (crimeData st)) as [b|].
    + destruct (Borough.totalCrimes b); split; try discriminate;
        intros [H _]; discriminate H.
    + destruct (currentCity st); simpl.
      * split; [intros _; split; [reflexivity | now left] | reflexivity].
      * unfold jsOr. destruct total_crimes as [| |n]; simpl.
        -- split; [intros _; split; [reflexivity | now right] | reflexivity].
        -- split; [intros _; split; [reflexivity | now right] | reflexivity].
        -- destruct (n =? 0) eqn:E; simpl.
           ++ split; [intros _; split; [reflexivity | now right] | reflexivity].
           ++ split; [discriminate | intros [_ [H | H]]; discriminate H].
  - intros b H. rewrite H. destruct (Borough.totalCrimes b); reflexivity.
Qed.

Lemma mouseover_total_witness :
  tipTotalCrimes
    (mouseover false (loadedApp london [plainBorough "Camden" (JNum 4) JUndefined])
       "Camden" (JNum 4) JUndefined (JNum 12)) = ShownUndefined.
Proof.
  apply (proj1 (proj2 (mouseover_total false
                  (loadedApp london [plainBorough "Camden" (JNum 4) JUndefined])
                  "Camden" (JNum 4) JUndefined (JNum 12)))
           (plainBorough "Camden" (JNum 4) JUndefined)).
  reflexivity.
Defined.
